(** * Gradder: user identity, authentication and role-based data access

    A shallow embedding of the Python sources
      - backend/api/classes/user.py      (class [User])
      - backend/api/classes/student.py   (class [Student])
      - backend/api/modules/auth/routes.py (endpoint [login])
      - api/classes/parent.py            (class [Parent], data access)
      - app/modules/db/classes/user.py   (the earlier [User] class)
    together with the properties of the specification that concern them.

    Conventions.  A Python [str] is a Rocq [string] read as a sequence of
    code points below 256; [bytes] are a [string] read as octets.  Where
    the code points from 256 on matter -- [str.lower] on the email of a
    login request -- a text is the list of its code points (module
    [Unicode]).  Dynamic
    values are the inductive [value].  A computation that may raise is an
    [outcome]; [try ... except] is written with [catch].  The document store
    is an explicit state [db]; randomness (salts, fresh identifiers) is an
    explicit argument. *)

From Stdlib Require Import String Ascii List Bool Arith NArith Lia.
Import ListNotations.
Set Warnings "-register-all".
Open Scope string_scope.
Open Scope list_scope.

(* ------------------------------------------------------------------ *)
(** ** Python values, exceptions and the error monad *)

Module Py.

Definition bytes := string.

(** Dynamic values.  [VOid] is a [bson.ObjectId], held by its canonical
    (lower-case hexadecimal) text. *)
Inductive value : Type :=
| VNone
| VBool (b : bool)
| VInt (n : N)
| VStr (s : string)
| VBytes (b : bytes)
| VOid (o : string)
| VList (l : list value)
| VDict (d : list (string * value)).

(** A dictionary (and a stored document) keeps insertion order. *)
Definition dict := list (string * value).

(** The exception classes that occur.  [KeyboardInterrupt] stands for the
    classes that derive from [BaseException] only; the two validation
    exceptions of [api.tools.exceptions] are ordinary exceptions. *)
Inductive exn : Type :=
| InvalidTypeException
| InvalidFormatException
| NameError
| AttributeError
| KeyError
| TypeError
| ValueError
| InvalidId
| DuplicateKeyError
| StoreError
| KeyboardInterrupt.

Definition is_Exception (e : exn) : bool :=
  match e with
  | KeyboardInterrupt => false
  | _ => true
  end.

Inductive outcome (A : Type) : Type :=
| Ok (a : A)
| Raise (e : exn).
Arguments Ok {A} a.
Arguments Raise {A} e.

Definition bind {A B} (m : outcome A) (k : A -> outcome B) : outcome B :=
  match m with
  | Ok a => k a
  | Raise e => Raise e
  end.

(** [try m except <classes accepted by handles>: h]. *)
Definition catch {A} (m : outcome A) (handles : exn -> bool) (h : outcome A)
  : outcome A :=
  match m with
  | Ok a => Ok a
  | Raise e => if handles e then h else Raise e
  end.

Definition any_exn (_ : exn) : bool := true.

Definition exn_eqb (a b : exn) : bool :=
  match a, b with
  | InvalidTypeException, InvalidTypeException
  | InvalidFormatException, InvalidFormatException
  | NameError, NameError
  | AttributeError, AttributeError
  | KeyError, KeyError
  | TypeError, TypeError
  | ValueError, ValueError
  | InvalidId, InvalidId
  | DuplicateKeyError, DuplicateKeyError
  | StoreError, StoreError
  | KeyboardInterrupt, KeyboardInterrupt => true
  | _, _ => false
  end.

(** Truth value of an object, as [or] and [if] test it. *)
Definition truthy (v : value) : bool :=
  match v with
  | VNone => false
  | VBool b => b
  | VInt n => negb (N.eqb n 0)
  | VStr s => negb (String.eqb s "")
  | VBytes b => negb (String.eqb b "")
  | VOid _ => true
  | VList l => match l with [] => false | _ => true end
  | VDict d => match d with [] => false | _ => true end
  end.

(** [isinstance(v, str)] *)
Definition is_str (v : value) : bool :=
  match v with
  | VStr _ => true
  | _ => false
  end.

(** [a or b] *)
Definition py_or (a b : value) : value := if truthy a then a else b.

(** [a + b], as far as the sources use it: concatenation of two [str]. *)
Definition py_add (a b : value) : outcome value :=
  match a, b with
  | VStr x, VStr y => Ok (VStr (x ++ y))
  | _, _ => Raise TypeError
  end.

(** *** Dictionaries *)

Fixpoint dict_get (k : string) (d : dict) : option value :=
  match d with
  | [] => None
  | (k', v) :: d' => if String.eqb k k' then Some v else dict_get k d'
  end.

(** [d[k] = v]: replaces the value in place, or appends a new key. *)
Fixpoint dict_set (k : string) (v : value) (d : dict) : dict :=
  match d with
  | [] => [(k, v)]
  | (k', v') :: d' =>
      if String.eqb k k' then (k', v) :: d' else (k', v') :: dict_set k v d'
  end.

(** [d[k]] *)
Definition subscript (d : dict) (k : string) : outcome value :=
  match dict_get k d with
  | Some v => Ok v
  | None => Raise KeyError
  end.

(** *** Characters and strings *)

Definition code (c : ascii) : N := N_of_ascii c.

Definition in_range (lo hi : ascii) (c : ascii) : bool :=
  (code lo <=? code c)%N && (code c <=? code hi)%N.

Definition is_char (a c : ascii) : bool := Ascii.eqb a c.

(** Upper-case letters of the code points below 256: A-Z, and the Latin-1
    capitals U+00C0..U+00DE without the multiplication sign U+00D7. *)
Definition is_upper (c : ascii) : bool :=
  in_range "A" "Z" c
  || ((192 <=? code c)%N && (code c <=? 222)%N && negb (code c =? 215)%N).

(** [str.lower] on one code point: each of those capitals has its small
    letter 32 places further. *)
Definition lower_char (c : ascii) : ascii :=
  if is_upper c then ascii_of_N (code c + 32) else c.

(** [str.lower] on a text of code points below 256, where it works code
    point by code point.  Module [Unicode] below has it on any text. *)
Fixpoint lower (s : string) : string :=
  match s with
  | EmptyString => EmptyString
  | String c s' => String (lower_char c) (lower s')
  end.

Fixpoint has_upper (s : string) : bool :=
  match s with
  | EmptyString => false
  | String c s' => is_upper c || has_upper s'
  end.

(** Two characters that are the same letter: equal, or one the capital of
    the other. *)
Definition same_letter (a b : ascii) : bool :=
  Ascii.eqb a b
  || (is_upper a && Ascii.eqb (lower_char a) b)
  || (is_upper b && Ascii.eqb (lower_char b) a).

(** Two texts that differ only in letter case. *)
Fixpoint differ_only_in_case (s1 s2 : string) : bool :=
  match s1, s2 with
  | EmptyString, EmptyString => true
  | String a s1', String b s2' => same_letter a b && differ_only_in_case s1' s2'
  | _, _ => false
  end.

(** [str.encode("utf-8")] on code points below 256. *)
Fixpoint encode_utf8 (s : string) : bytes :=
  match s with
  | EmptyString => EmptyString
  | String c s' =>
      if (code c <? 128)%N then String c (encode_utf8 s')
      else String (ascii_of_N (192 + code c / 64))
             (String (ascii_of_N (128 + code c mod 64)) (encode_utf8 s'))
  end.

Fixpoint startswith (p s : string) : bool :=
  match p, s with
  | EmptyString, _ => true
  | String a p', String b s' => Ascii.eqb a b && startswith p' s'
  | String _ _, EmptyString => false
  end.

(** *** Regular expressions

    The patterns of the sources use only character classes, sequencing,
    alternation and counted repetition, so whether [re.match] finds a match
    is a question of language membership, decided here with derivatives. *)

Inductive regex : Type :=
| Never
| Empty
| Class (p : ascii -> bool)
| Seq (r1 r2 : regex)
| Or (r1 r2 : regex)
| Many (r : regex).

Fixpoint nullable (r : regex) : bool :=
  match r with
  | Never => false
  | Empty => true
  | Class _ => false
  | Seq r1 r2 => nullable r1 && nullable r2
  | Or r1 r2 => nullable r1 || nullable r2
  | Many _ => true
  end.

Fixpoint deriv (c : ascii) (r : regex) : regex :=
  match r with
  | Never => Never
  | Empty => Never
  | Class p => if p c then Empty else Never
  | Seq r1 r2 =>
      if nullable r1 then Or (Seq (deriv c r1) r2) (deriv c r2)
      else Seq (deriv c r1) r2
  | Or r1 r2 => Or (deriv c r1) (deriv c r2)
  | Many r1 => Seq (deriv c r1) (Many r1)
  end.

(** The pattern matches the whole of [s]. *)
Fixpoint full_match (r : regex) (s : string) : bool :=
  match s with
  | EmptyString => nullable r
  | String c s' => full_match (deriv c r) s'
  end.

(** [re.match(r, s) is not None]: the pattern matches some prefix of [s]. *)
Fixpoint re_match (r : regex) (s : string) : bool :=
  nullable r ||
  match s with
  | EmptyString => false
  | String c s' => re_match (deriv c r) s'
  end.

Fixpoint lit (s : string) : regex :=
  match s with
  | EmptyString => Empty
  | String c s' => Seq (Class (is_char c)) (lit s')
  end.

(** [r+] *)
Definition plus (r : regex) : regex := Seq r (Many r).

(** [r{0,n}] and [r{m,m+n}] *)
Fixpoint upto (n : nat) (r : regex) : regex :=
  match n with
  | O => Empty
  | S n' => Or Empty (Seq r (upto n' r))
  end.

Fixpoint times (m : nat) (r : regex) (rest : regex) : regex :=
  match m with
  | O => rest
  | S m' => Seq r (times m' r rest)
  end.

Definition between (m n : nat) (r : regex) : regex := times m r (upto (n - m) r).

(** A final [$]: the end of the string, or just before a last newline. *)
Definition dollar : regex := Or Empty (Class (is_char "010")).

Definition is_digit (c : ascii) : bool := in_range "0" "9" c.
Definition is_ascii_letter (c : ascii) : bool :=
  in_range "a" "z" c || in_range "A" "Z" c.

(** [\w] under [re.UNICODE], on the code points below 256: the ASCII word
    characters and the alphanumeric code points of Latin-1. *)
Definition is_word (c : ascii) : bool :=
  is_ascii_letter c || is_digit c || is_char "_" c
  || existsb (N.eqb (code c)) [170; 178; 179; 181; 185; 186; 188; 189; 190]%N
  || ((192 <=? code c)%N && negb (code c =? 215)%N && negb (code c =? 247)%N).

Fixpoint one_of (s : string) (c : ascii) : bool :=
  match s with
  | EmptyString => false
  | String a s' => Ascii.eqb a c || one_of s' c
  end.

End Py.

Export Py.

Declare Scope outcome_scope.
Delimit Scope outcome_scope with outcome.
Notation "x <- m ;; k" := (bind m (fun x => k))
  (at level 61, m at next level, right associativity) : outcome_scope.
Notation "m ;;; k" := (bind m (fun _ => k))
  (at level 61, right associativity) : outcome_scope.
Open Scope outcome_scope.

(* ------------------------------------------------------------------ *)
(** ** The libraries the classes call *)

(** [bcrypt].  [hashpw password salt] and [checkpw password hashed]; both
    raise on malformed arguments.  The salt that [gensalt] draws is an
    argument of every operation that hashes. *)
Class Bcrypt : Type := {
  hashpw : bytes -> bytes -> outcome bytes;
  checkpw : bytes -> bytes -> outcome bool
}.

(** [werkzeug.security].  [generate_password_hash password] draws a salt,
    here the second argument; [check_password_hash pwhash password]. *)
Class Werkzeug : Type := {
  generate_password_hash : string -> string -> string;
  check_password_hash : string -> string -> outcome bool
}.

Module Bson.

Definition is_hex (c : ascii) : bool :=
  is_digit c || in_range "a" "f" c || in_range "A" "F" c.

(** The characters that [bytes.fromhex] skips: the ASCII white space. *)
Definition is_space (c : ascii) : bool :=
  (code c =? 32)%N || ((9 <=? code c)%N && (code c <=? 13)%N).

(** [bytes.fromhex(s)], held by the hexadecimal digits of the octets it
    returns, in lower case (what [binascii.hexlify] prints): white space is
    skipped before each octet, an octet is two hexadecimal digits, and
    anything else raises [ValueError], here [None]. *)
Fixpoint fromhex (s : string) : option string :=
  match s with
  | EmptyString => Some EmptyString
  | String c s' =>
      if is_space c then fromhex s'
      else
        match s' with
        | EmptyString => None
        | String c' s'' =>
            if is_hex c && is_hex c' then
              match fromhex s'' with
              | Some h => Some (String (lower_char c) (String (lower_char c') h))
              | None => None
              end
            else None
        end
  end.

(** [ObjectId(s)] for a [str]: a text of twenty-four characters that
    [bytes.fromhex] takes, else [InvalidId].  The object prints as the
    hexadecimal digits of its octets, in lower case. *)
Definition ObjectId (s : string) : outcome string :=
  if Nat.eqb (String.length s) 24 then
    match fromhex s with
    | Some h => Ok h
    | None => Raise InvalidId
    end
  else Raise InvalidId.

Definition hex_digit (n : N) : ascii :=
  if (n <? 10)%N then ascii_of_N (48 + n) else ascii_of_N (87 + n).

(** [binascii.hexlify]: two lower-case hexadecimal digits for each octet. *)
Fixpoint hexlify (b : bytes) : string :=
  match b with
  | EmptyString => EmptyString
  | String c b' =>
      String (hex_digit (code c / 16))
        (String (hex_digit (code c mod 16)) (hexlify b'))
  end.

(** [ObjectId(x)] for any object [x]: [None] draws a fresh identifier
    ([fresh] is its text), twelve octets are taken as they are, a [str] is
    parsed, an [ObjectId] is copied, and anything else is a [TypeError]. *)
Definition ObjectId_of (fresh : string) (x : value) : outcome string :=
  match x with
  | VNone => Ok fresh
  | VBytes b =>
      if Nat.eqb (String.length b) 12 then Ok (hexlify b) else Raise TypeError
  | VStr s => ObjectId s
  | VOid o => Ok o
  | _ => Raise TypeError
  end.

End Bson.

Module Datetime.

Definition day_re : regex :=
  Or (Seq (lit "3") (Class (in_range "0" "1")))
  (Or (Seq (Class (in_range "1" "2")) (Class is_digit))
  (Or (Seq (lit "0") (Class (in_range "1" "9")))
  (Or (Class (in_range "1" "9"))
      (Seq (lit " ") (Class (in_range "1" "9")))))).

Definition month_re : regex :=
  Or (Seq (lit "1") (Class (in_range "0" "2")))
  (Or (Seq (lit "0") (Class (in_range "1" "9")))
      (Class (in_range "1" "9"))).

Definition year_re : regex := times 4 (Class is_digit) Empty.

(** The pattern that [strptime] builds from the format ["%d-%m-%Y"]. *)
Definition dmY_re : regex :=
  Seq day_re (Seq (lit "-") (Seq month_re (Seq (lit "-") year_re))).

Fixpoint number (acc : nat) (s : string) : nat :=
  match s with
  | EmptyString => acc
  | String c s' =>
      if is_digit c then number (10 * acc + (N.to_nat (code c) - 48)) s'
      else number acc s'
  end.

(** The text before the first ["-"], and the text after it. *)
Fixpoint cut (s : string) : string * string :=
  match s with
  | EmptyString => (EmptyString, EmptyString)
  | String c s' =>
      if is_char "-" c then (EmptyString, s')
      else let (a, b) := cut s' in (String c a, b)
  end.

Definition is_leap (y : nat) : bool :=
  Nat.eqb (y mod 4) 0 && (negb (Nat.eqb (y mod 100) 0) || Nat.eqb (y mod 400) 0).

Definition days_in_month (y m : nat) : nat :=
  match m with
  | 2 => if is_leap y then 29 else 28
  | 4 | 6 | 9 | 11 => 30
  | _ => 31
  end.

(** [datetime.datetime.strptime(s, "%d-%m-%Y")] returns (rather than
    raising [ValueError]): the whole text has the shape day-month-year and
    names a date of the calendar from year 1 on. *)
Definition strptime_dmY (s : string) : bool :=
  full_match dmY_re s &&
  let (d, rest) := cut s in
  let (m, y) := cut rest in
  let day := number 0 d in
  let month := number 0 m in
  let year := number 0 y in
  Nat.leb 1 year && Nat.leb 1 day && Nat.leb day (days_in_month year month).

End Datetime.

(* ------------------------------------------------------------------ *)
(** ** backend/api/classes/user.py *)

Module User.

(** An object of the class after [__init__] has returned.  [_id] is an
    attribute that exists only once the [id] setter has run. *)
Record t : Type := mk {
  _id : option string;
  _password : bytes;
  _email : string;
  _first_name : value;
  _last_name : value;
  _bio : string;
  _date_of_birth : string;
  _profile_picture : string;
  _activated : bool
}.

(** [^([a-zA-Z0-9_\-\.]+)@([a-zA-Z0-9_\-\.]+)\.([a-zA-Z]{2,5})$] *)
Definition email_class (c : ascii) : bool :=
  is_ascii_letter c || is_digit c || one_of "_-." c.

Definition email_re : regex :=
  Seq (plus (Class email_class))
  (Seq (lit "@")
  (Seq (plus (Class email_class))
  (Seq (lit ".")
  (Seq (between 2 5 (Class is_ascii_letter)) dollar)))).

(** With the anchors [^] and [$] the match covers the whole text. *)
Definition email_matches (s : string) : bool := full_match email_re s.

(** The class of the pattern for [bio], repeated [{1,100}]: [\w], the
    space, the escaped punctuation [. + ( ) [ ] { } ? * & ^ % $ # / '], the
    double quote (code 34), then [~ < > , : ;], the range [!-_] from the
    exclamation mark to the underscore, and [= @]. *)
Definition bio_class (c : ascii) : bool :=
  is_word c || one_of " .+()[]{}?*&^%$#/'" c || is_char "034" c
  || one_of "~<>,:;" c || in_range "!" "_" c || one_of "=@" c.

Definition bio_re : regex := between 1 100 (Class bio_class).

(** The pattern is not anchored at its end. *)
Definition bio_matches (s : string) : bool := re_match bio_re s.

Definition default_bio : string := "A short bio.".
Definition default_date_of_birth : string := "14-03-1879".

(** *** The property setters: what each stores, or what it raises *)

Definition check_email (email : value) : outcome string :=
  match email with
  | VStr s =>
      if negb (email_matches s) then Raise InvalidFormatException else Ok s
  | _ => Raise InvalidTypeException
  end.

Definition looks_hashed (b : bytes) : bool :=
  (startswith "$2a$" b || startswith "$2b$" b || startswith "$2y$" b)
  && Nat.eqb (String.length b) 60.

Definition check_password `{Bcrypt} (salt : bytes) (password : value)
  : outcome bytes :=
  match password with
  | VBytes b =>
      if negb (looks_hashed b)
      then Raise AttributeError (* [bytes] has no [encode] *)
      else Ok b
  | VStr s => hashpw (encode_utf8 s) salt
  | _ => Raise InvalidTypeException
  end.

Definition check_activated (activated : value) : outcome bool :=
  match activated with
  | VBool b => Ok b
  | _ => Raise InvalidTypeException
  end.

Definition check_id (id : value) : outcome string :=
  match id with
  | VStr s =>
      catch (Bson.ObjectId s ;;; Ok s) is_Exception
            (Raise InvalidFormatException)
  | VOid o => Ok o
  | _ => Raise InvalidTypeException
  end.

(** When the pattern does not match, the message of the exception is built
    with [str.format] from a text that shows the pattern, braces included:
    the first replacement field it finds is named by a backslash, which is
    no keyword argument, so building the message raises [KeyError]. *)
Definition check_bio (bio : value) : outcome string :=
  match bio with
  | VStr s =>
      if String.eqb s "" then Ok default_bio
      else if negb (Nat.ltb 0 (String.length s)
                    && Nat.leb (String.length s) 100)
      then Raise InvalidFormatException
      else if negb (bio_matches s) then Raise KeyError
      else Ok s
  | _ => Raise InvalidTypeException
  end.

(** For a value that is not a [str] the message of the exception mentions
    [name], which is bound nowhere: building the message raises
    [NameError]. *)
Definition check_date_of_birth (date_of_birth : value) : outcome string :=
  match date_of_birth with
  | VStr s =>
      if String.eqb s "" then Ok default_date_of_birth
      else if negb (Datetime.strptime_dmY s) then Raise InvalidFormatException
      else Ok s
  | _ => Raise NameError
  end.

Definition check_profile_picture (profile_picture : value) : outcome string :=
  match profile_picture with
  | VStr s => Ok s
  | _ => Raise InvalidTypeException
  end.

Definition with_id (u : t) (x : string) : t :=
  mk (Some x) (_password u) (_email u) (_first_name u) (_last_name u)
     (_bio u) (_date_of_birth u) (_profile_picture u) (_activated u).
Definition with_password (u : t) (x : bytes) : t :=
  mk (_id u) x (_email u) (_first_name u) (_last_name u)
     (_bio u) (_date_of_birth u) (_profile_picture u) (_activated u).
Definition with_email (u : t) (x : string) : t :=
  mk (_id u) (_password u) x (_first_name u) (_last_name u)
     (_bio u) (_date_of_birth u) (_profile_picture u) (_activated u).
Definition with_first_name (u : t) (x : value) : t :=
  mk (_id u) (_password u) (_email u) x (_last_name u)
     (_bio u) (_date_of_birth u) (_profile_picture u) (_activated u).
Definition with_last_name (u : t) (x : value) : t :=
  mk (_id u) (_password u) (_email u) (_first_name u) x
     (_bio u) (_date_of_birth u) (_profile_picture u) (_activated u).
Definition with_bio (u : t) (x : string) : t :=
  mk (_id u) (_password u) (_email u) (_first_name u) (_last_name u)
     x (_date_of_birth u) (_profile_picture u) (_activated u).
Definition with_date_of_birth (u : t) (x : string) : t :=
  mk (_id u) (_password u) (_email u) (_first_name u) (_last_name u)
     (_bio u) x (_profile_picture u) (_activated u).
Definition with_profile_picture (u : t) (x : string) : t :=
  mk (_id u) (_password u) (_email u) (_first_name u) (_last_name u)
     (_bio u) (_date_of_birth u) x (_activated u).
Definition with_activated (u : t) (x : bool) : t :=
  mk (_id u) (_password u) (_email u) (_first_name u) (_last_name u)
     (_bio u) (_date_of_birth u) (_profile_picture u) x.

Definition set_email (u : t) (v : value) : outcome t :=
  x <- check_email v ;; Ok (with_email u x).
Definition set_first_name (u : t) (v : value) : outcome t :=
  Ok (with_first_name u v).
Definition set_last_name (u : t) (v : value) : outcome t :=
  Ok (with_last_name u v).
Definition set_password `{Bcrypt} (salt : bytes) (u : t) (v : value)
  : outcome t :=
  x <- check_password salt v ;; Ok (with_password u x).
Definition set_activated (u : t) (v : value) : outcome t :=
  x <- check_activated v ;; Ok (with_activated u x).
Definition set_id (u : t) (v : value) : outcome t :=
  x <- check_id v ;; Ok (with_id u x).
Definition set_bio (u : t) (v : value) : outcome t :=
  x <- check_bio v ;; Ok (with_bio u x).
Definition set_date_of_birth (u : t) (v : value) : outcome t :=
  x <- check_date_of_birth v ;; Ok (with_date_of_birth u x).
Definition set_profile_picture (u : t) (v : value) : outcome t :=
  x <- check_profile_picture v ;; Ok (with_profile_picture u x).

(** [self.id]: [AttributeError] while [_id] does not exist. *)
Definition id (u : t) : outcome string :=
  match _id u with
  | Some i => Ok i
  | None => Raise AttributeError
  end.

(** [User.__init__].  The assignments run in the order of the source, so
    the first offending argument decides the exception; the object exists
    only if all of them pass.  An absent optional argument is [VNone]. *)
Definition init `{Bcrypt} (salt : bytes)
    (email first_name last_name bio date_of_birth profile_picture id
     password activated : value) : outcome t :=
  e <- check_email email ;;
  p <- check_password salt (py_or password (VStr "")) ;;
  b <- check_bio (py_or bio (VStr "")) ;;
  d <- check_date_of_birth (py_or date_of_birth (VStr "")) ;;
  pic <- check_profile_picture (py_or profile_picture (VStr "")) ;;
  a <- check_activated (py_or activated (VBool false)) ;;
  i <- match id with
       | VNone => Ok None
       | _ => x <- check_id id ;; Ok (Some x)
       end ;;
  Ok (mk i p e first_name last_name b d pic a).

(** [User.to_dict]: the [_id] entry is added only if [ObjectId(self.id)]
    can be built. *)
Definition to_dict (u : t) : dict :=
  let dictionary :=
    [("email", VStr (_email u)); ("first_name", _first_name u);
     ("last_name", _last_name u); ("password", VBytes (_password u));
     ("activated", VBool (_activated u))] in
  match (i <- id u ;; Bson.ObjectId i) with
  | Ok o => dict_set "_id" (VOid o) dictionary
  | Raise _ => dictionary
  end.

(** The entry [_id] that [to_dict] adds, if it adds one. *)
Definition id_entry (u : t) : dict :=
  match (i <- id u ;; Bson.ObjectId i) with
  | Ok o => [("_id", VOid o)]
  | Raise _ => []
  end.

(** [validate_password]: [password.encode] exists for a [str] only. *)
Definition validate_password `{Bcrypt} (u : t) (password : value)
  : outcome bool :=
  match password with
  | VStr s => checkpw (encode_utf8 s) (_password u)
  | _ => Raise AttributeError
  end.

End User.

(* ------------------------------------------------------------------ *)
(** ** The document store *)

Module Mongo.

(** A collection holds its documents in insertion order; while the store
    cannot be reached every operation on it raises. *)
Inductive collection : Type :=
| Avail (docs : list dict)
| Failing (e : exn).

Record db : Type := mkdb {
  students : collection;
  teachers : collection;
  admins : collection;
  parents : collection;
  courses : collection
}.

Definition with_students (d : db) (c : collection) : db :=
  mkdb c (teachers d) (admins d) (parents d) (courses d).
Definition with_courses (d : db) (c : collection) : db :=
  mkdb (students d) (teachers d) (admins d) (parents d) c.

(** The filters [{"email": e}], [{"_id": ObjectId(o)}] and [{"_id": s}] for
    a [str] [s]: equality respects the type of the stored value. *)
Definition by_email (e : string) (d : dict) : bool :=
  match dict_get "email" d with
  | Some (VStr s) => String.eqb s e
  | _ => false
  end.

Definition by_id (o : string) (d : dict) : bool :=
  match dict_get "_id" d with
  | Some (VOid x) => String.eqb x o
  | _ => false
  end.

Definition by_str_id (s : string) (d : dict) : bool :=
  match dict_get "_id" d with
  | Some (VStr x) => String.eqb x s
  | _ => false
  end.

Definition find_one (c : collection) (filter : dict -> bool)
  : outcome (option dict) :=
  match c with
  | Avail docs => Ok (find filter docs)
  | Failing e => Raise e
  end.

Definition same_id (i : value) (d : dict) : bool :=
  match i with
  | VOid o => by_id o d
  | VStr s => by_str_id s d
  | _ => false
  end.

(** [insert_one]: a document without [_id] receives the fresh identifier;
    an identifier already in the collection is refused.  The result is the
    new collection and [inserted_id]. *)
Definition insert_one (c : collection) (document : dict) (fresh : string)
  : outcome (collection * value) :=
  match c with
  | Failing e => Raise e
  | Avail docs =>
      let i := match dict_get "_id" document with
               | Some i => i
               | None => VOid fresh
               end in
      if existsb (same_id i) docs then Raise DuplicateKeyError
      else Ok (Avail (docs ++ [dict_set "_id" i document]), i)
  end.

Fixpoint remove_first (filter : dict -> bool) (docs : list dict) : list dict :=
  match docs with
  | [] => []
  | d :: r => if filter d then r else d :: remove_first filter r
  end.

Definition delete_one (c : collection) (filter : dict -> bool)
  : outcome collection :=
  match c with
  | Failing e => Raise e
  | Avail docs => Ok (Avail (remove_first filter docs))
  end.

(** The first document that passes the filter is rewritten; without one
    nothing changes. *)
Fixpoint update_first (filter : dict -> bool) (change : dict -> outcome dict)
    (docs : list dict) : outcome (list dict) :=
  match docs with
  | [] => Ok []
  | d :: r =>
      if filter d then d' <- change d ;; Ok (d' :: r)
      else r' <- update_first filter change r ;; Ok (d :: r')
  end.

(** [update] and [find_one_and_update] with one update document. *)
Definition update (c : collection) (filter : dict -> bool)
    (change : dict -> outcome dict) : outcome collection :=
  match c with
  | Failing e => Raise e
  | Avail docs => docs' <- update_first filter change docs ;; Ok (Avail docs')
  end.

(** [{"$set": {k: v}}] *)
Definition set (k : string) (v : value) (d : dict) : outcome dict :=
  Ok (dict_set k v d).

(** [{"$push": {k: v}}]: appends to the array, creates it when the field
    is absent, and is refused when the field is not an array. *)
Definition push (k : string) (v : value) (d : dict) : outcome dict :=
  match dict_get k d with
  | None => Ok (dict_set k (VList [v]) d)
  | Some (VList l) => Ok (dict_set k (VList (l ++ [v])) d)
  | Some _ => Raise StoreError
  end.

(** The condition ["assignments._id": ObjectId(o)] and the positional
    update [{"$push": {"assignments.$.submissions": v}}], which acts on the
    first element of the array that meets the condition. *)
Definition elem_has_id (o : string) (e : value) : bool :=
  match e with
  | VDict a => by_id o a
  | _ => false
  end.

Definition has_assignment (o : string) (d : dict) : bool :=
  match dict_get "assignments" d with
  | Some (VList l) => existsb (elem_has_id o) l
  | Some (VDict a) => by_id o a
  | _ => false
  end.

Fixpoint push_in_first (o : string) (v : value) (l : list value)
  : outcome (list value) :=
  match l with
  | [] => Ok []
  | e :: r =>
      if elem_has_id o e then
        match e with
        | VDict a => a' <- push "submissions" v a ;; Ok (VDict a' :: r)
        | _ => Ok l
        end
      else r' <- push_in_first o v r ;; Ok (e :: r')
  end.

Definition push_submission (o : string) (v : value) (d : dict)
  : outcome dict :=
  match dict_get "assignments" d with
  | Some (VList l) =>
      l' <- push_in_first o v l ;; Ok (dict_set "assignments" (VList l') d)
  | _ => Raise StoreError
  end.

(** [{"$project": {"_id": 1, "first_name": 1, "last_name": 1}}] *)
Definition project (keys : list string) (d : dict) : dict :=
  filter (fun kv => existsb (String.eqb (fst kv)) keys) d.

(** The pipeline of [get_by_keyword]: the documents that the search stage
    accepts, projected, at most five. *)
Definition aggregate (c : collection) (search : dict -> bool)
  : outcome (list dict) :=
  match c with
  | Failing e => Raise e
  | Avail docs =>
      Ok (firstn 5 (map (project ["_id"; "first_name"; "last_name"])
                        (filter search docs)))
  end.

End Mongo.

Export Mongo.

(* ------------------------------------------------------------------ *)
(** ** backend/api/classes/student.py *)

(** The class [Submission] is not among the sources at hand: what
    [add_submission] uses of it is an interface. *)
Class SubmissionClass : Type := {
  submission : Type;
  (** [submission.id = i] *)
  submission_set_id : submission -> string -> submission;
  submission_id : submission -> value;
  submission_assignment_id : submission -> value;
  submission_to_dict : submission -> dict
}.

Module Student.

Record t : Type := mk {
  base : User.t;
  courses : value;
  assignments : value
}.

Definition _type : string := "Student".

Definition with_base (s : t) (u : User.t) : t :=
  mk u (courses s) (assignments s).

(** [Student.__init__]: [activated] and [parents] are accepted and not
    used; [bio], [date_of_birth] and [profile_picture] take the defaults
    of [User.__init__]. *)
Definition init `{Bcrypt} (salt : bytes)
    (email first_name last_name password courses assignments id activated
     calendar parents : value) : outcome t :=
  u <- User.init salt email first_name last_name VNone VNone VNone id
                 password VNone ;;
  Ok (mk u (py_or courses (VList [])) (py_or assignments (VList []))).

Definition parameters : list string :=
  ["email"; "first_name"; "last_name"; "password"; "courses"; "assignments";
   "_id"; "activated"; "calendar"; "parents"].

Definition required : list string := ["email"; "first_name"; "last_name"].

Definition has_key (d : dict) (k : string) : bool :=
  match dict_get k d with
  | Some _ => true
  | None => false
  end.

Definition arg (d : dict) (k : string) (default : value) : value :=
  match dict_get k d with
  | Some v => v
  | None => default
  end.

(** [Student( **dictionary )]: an unexpected keyword or a missing required
    one is a [TypeError]. *)
Definition call `{Bcrypt} (salt : bytes) (d : dict) : outcome t :=
  if negb (forallb (fun kv => existsb (String.eqb (fst kv)) parameters) d)
  then Raise TypeError
  else if negb (forallb (has_key d) required) then Raise TypeError
  else init salt (arg d "email" VNone) (arg d "first_name" VNone)
            (arg d "last_name" VNone) (arg d "password" VNone)
            (arg d "courses" VNone) (arg d "assignments" VNone)
            (arg d "_id" VNone) (arg d "activated" (VBool false))
            (arg d "calendar" VNone) (arg d "parents" VNone).

Definition from_dict `{Bcrypt} (salt : bytes) (dictionary : option dict)
  : outcome (option t) :=
  match dictionary with
  | None => Ok None
  | Some d => catch (s <- call salt d ;; Ok (Some s)) is_Exception (Ok None)
  end.

Definition to_dict (s : t) : dict :=
  dict_set "activated" (VBool (User._activated (base s)))
    (dict_set "assignments" (assignments s)
      (dict_set "courses" (courses s)
        (dict_set "password" (VStr "")
          (User.to_dict (base s))))).

(** *** Lookups.  Hydrating a document hashes its password again, hence
    the salt. *)

Definition get_by_id `{Bcrypt} (salt : bytes) (d : db) (id : string)
  : outcome (option t) :=
  catch (o <- Bson.ObjectId id ;;
         r <- find_one (students d) (by_id o) ;;
         from_dict salt r)
        any_exn (Ok None).

Definition get_by_email `{Bcrypt} (salt : bytes) (d : db) (email : string)
  : outcome (option t) :=
  catch (r <- find_one (students d) (by_email email) ;; from_dict salt r)
        any_exn (Ok None).

Fixpoint hydrate_all `{Bcrypt} (salt : bytes) (found : list dict)
  : outcome (list (option t)) :=
  match found with
  | [] => Ok []
  | student :: rest =>
      s <- from_dict salt (Some student) ;;
      r <- hydrate_all salt rest ;;
      Ok (s :: r)
  end.

(** [search keyword] stands for the autocomplete stage of the store on
    the path [first_name]. *)
Definition get_by_keyword `{Bcrypt} (search : string -> dict -> bool)
    (salt : bytes) (d : db) (keyword : string)
  : outcome (option (list (option t))) :=
  catch (found <- aggregate (students d) (search keyword) ;;
         possible_students <- hydrate_all salt found ;;
         Ok (Some possible_students))
        any_exn (Ok None).

(** *** Operations that write.  Each returns the object and the store as
    they are afterwards, and what the call returns or raises. *)

Definition add (fresh : string) (s : t) (d : db) : (t * db) * outcome bool :=
  let handler (s' : t) (d' : db) (e : exn) :=
    if is_Exception e then
      (* the logged message reads [self.id] *)
      ((s', d'), User.id (base s') ;;; Ok false)
    else ((s', d'), Raise e) in
  match insert_one (students d) (to_dict s) fresh with
  | Raise e => handler s d e
  | Ok (c', inserted_id) =>
      match User.set_id (base s) inserted_id with
      | Raise e => handler s (with_students d c') e
      | Ok u' => ((with_base s u', with_students d c'), Ok true)
      end
  end.

(** The first [except] clause names [pymongo], which the module does not
    import: once the body raises, evaluating the clause raises
    [NameError]. *)
Definition remove (s : t) (d : db) : db * outcome bool :=
  match (i <- User.id (base s) ;;
         o <- Bson.ObjectId i ;;
         delete_one (students d) (by_id o)) with
  | Ok c' => (with_students d c', Ok true)
  | Raise _ => (d, Raise NameError)
  end.

Definition activate (s : t) (d : db) : (t * db) * outcome bool :=
  match (i <- User.id (base s) ;;
         o <- Bson.ObjectId i ;;
         update (students d) (by_id o) (set "activated" (VBool true))) with
  | Raise _ => ((s, d), Ok false)
  | Ok c' =>
      match User.set_activated (base s) (VBool true) with
      | Raise _ => ((s, with_students d c'), Ok false)
      | Ok u' => ((with_base s u', with_students d c'), Ok true)
      end
  end.

Definition set_password `{Bcrypt} (salt : bytes) (password : value)
    (s : t) (d : db) : (t * db) * outcome bool :=
  match User.set_password salt (base s) password with
  | Raise _ => ((s, d), Ok false)
  | Ok u' =>
      match (i <- User.id u' ;;
             update (students d) (by_str_id i)
                    (set "password" (VBytes (User._password u')))) with
      | Raise _ => ((with_base s u', d), Ok false)
      | Ok c' => ((with_base s u', with_students d c'), Ok true)
      end
  end.

(** [add_submission]; [new_id] is the text of the fresh [ObjectId()], and
    [spare_id] the text of the identifier that [ObjectId] draws when the
    identifier of the assignment is [None].  The two updates are two calls
    on the store: the second starts from the state the first has left, and
    nothing undoes the first when the second raises. *)
Definition add_submission `{SubmissionClass} (new_id spare_id : string)
    (s : t) (course_id : string) (sub : submission) (d : db)
  : db * outcome unit :=
  let sub' := submission_set_id sub new_id in
  let dictionary := submission_to_dict sub' in
  match (c <- Bson.ObjectId course_id ;;
         a <- Bson.ObjectId_of spare_id (submission_assignment_id sub') ;;
         update (Mongo.courses d)
                (fun doc => by_id c doc && has_assignment a doc)
                (push_submission a (VDict dictionary))) with
  | Raise e => (d, Raise e)
  | Ok courses' =>
      let d1 := with_courses d courses' in
      match (x <- py_add (VStr course_id) (VStr "_") ;;
             y <- py_add x (submission_assignment_id sub') ;;
             z <- py_add y (VStr "_") ;;
             unique_submission_string <- py_add z (submission_id sub') ;;
             i <- User.id (base s) ;;
             o <- Bson.ObjectId i ;;
             update (students d1) (by_id o)
                    (push "assignments" unique_submission_string)) with
      | Raise e => (d1, Raise e)
      | Ok students' => (with_students d1 students', Ok tt)
      end
  end.

End Student.

(* ------------------------------------------------------------------ *)
(** ** api/classes/parent.py: the lookups of [Parent] *)

(** The base class this [Parent] extends is not among the sources at hand,
    so building the object from keyword arguments is an interface. *)
Class ParentClass : Type := {
  parent : Type;
  (** [Parent( **dictionary )] *)
  Parent_call : dict -> outcome parent
}.

Module Parent.

Definition _type : string := "Parent".

Definition from_dict `{ParentClass} (dictionary : option dict)
  : outcome (option parent) :=
  match dictionary with
  | None => Ok None
  | Some d => catch (p <- Parent_call d ;; Ok (Some p)) is_Exception (Ok None)
  end.

Definition get_by_id `{ParentClass} (d : db) (id : string)
  : outcome (option parent) :=
  catch (o <- Bson.ObjectId id ;;
         r <- find_one (parents d) (by_id o) ;;
         from_dict r)
        any_exn (Ok None).

Definition get_by_email `{ParentClass} (d : db) (email : string)
  : outcome (option parent) :=
  catch (r <- find_one (parents d) (by_email email) ;; from_dict r)
        any_exn (Ok None).

End Parent.

(* ------------------------------------------------------------------ *)
(** ** app/modules/db/classes/user.py: the earlier [User] class *)

Module Legacy.

Inductive ACCESS_LEVEL : Type := EMPTY.

(** [password_hash] exists only once [set_password] has run.  The
    identifiers come from [db.get_new_id()], here an argument. *)
Record t : Type := mk {
  email : value;
  first_name : value;
  last_name : value;
  ID : value;
  access_level : ACCESS_LEVEL;
  is_active : value;
  password_hash : option string
}.

Definition init (new_id : value) (email first_name last_name active : value)
  : t :=
  mk email first_name last_name new_id EMPTY active None.

Definition new_id (fresh : value) (u : t) : t :=
  mk (email u) (first_name u) (last_name u) fresh (access_level u)
     (is_active u) (password_hash u).

Definition with_password_hash (u : t) (h : string) : t :=
  mk (email u) (first_name u) (last_name u) (ID u) (access_level u)
     (is_active u) (Some h).

(** [(pbkdf2:sha256:)([^\$.]+)(\$)([^\$.]+)(\$)([^\$.]+)] *)
Definition part : regex :=
  plus (Class (fun c => negb (is_char "$" c || is_char "." c))).

Definition hash_re : regex :=
  Seq (lit "pbkdf2:sha256:")
  (Seq part (Seq (lit "$") (Seq part (Seq (lit "$") part)))).

(** [set_password]; [rnd] is the salt the library draws. *)
Definition set_password `{Werkzeug} (rnd : string) (u : t) (password : value)
  : outcome t :=
  match password with
  | VStr s =>
      if re_match hash_re s then Ok (with_password_hash u s)
      else Ok (with_password_hash u (generate_password_hash s rnd))
  | _ => Raise TypeError
  end.

Definition verify_password `{Werkzeug} (u : t) (password : string)
  : outcome bool :=
  match password_hash u with
  | Some h => check_password_hash h password
  | None => Raise AttributeError
  end.

Definition get_id (u : t) : value := ID u.

Definition to_json (u : t) : outcome dict :=
  match password_hash u with
  | Some h =>
      Ok [("email", email u); ("first_name", first_name u);
          ("last_name", last_name u); ("ID", ID u); ("password", VStr h)]
  | None => Raise AttributeError
  end.

Definition to_dict (u : t) : outcome dict := to_json u.

(** [from_dict]: the constructor draws one identifier and [new_id] a
    second one. *)
Definition from_dict `{Werkzeug} (id1 id2 : value) (rnd : string)
    (dictionary : dict) : outcome t :=
  e <- subscript dictionary "email" ;;
  f <- subscript dictionary "first_name" ;;
  l <- subscript dictionary "last_name" ;;
  let user := init id1 e f l (VBool true) in
  user <- match dict_get "password" dictionary with
          | Some p => set_password rnd user p
          | None => Ok user
          end ;;
  Ok (new_id id2 user).

End Legacy.

(* ------------------------------------------------------------------ *)
(** ** backend/api/modules/auth/routes.py: [login] *)

(** The classes [Teacher], [Admin] and [Parent] that [login] imports are
    not among the sources at hand; their objects are [User] objects, and
    their [get_by_email] is an interface. *)
Inductive scope : Type := Student_ | Teacher_ | Admin_ | Parent_.

Class Roles : Type := {
  role_get_by_email : scope -> bytes -> db -> string -> outcome (option User.t)
}.

Module Auth.

Definition scope_name (sc : scope) : string :=
  match sc with
  | Student_ => "Student"
  | Teacher_ => "Teacher"
  | Admin_ => "Admin"
  | Parent_ => "Parent"
  end.

(** [scope.get_by_email(email)] *)
Definition get_by_email `{Bcrypt} `{Roles} (sc : scope) (salt : bytes)
    (d : db) (email : string) : outcome (option User.t) :=
  match sc with
  | Student_ =>
      r <- Student.get_by_email salt d email ;;
      Ok (option_map Student.base r)
  | _ => role_get_by_email sc salt d email
  end.

(** What [response(...)] and [error(...)] of [api.tools.factory] are given,
    and the status code beside them. *)
Inductive body : Type :=
| response (flashes : list string) (user_info : dict)
| error (msg : string).

Definition reply : Type := body * nat.

(** What happens besides the reply: a lookup in the collection of a role,
    and the call of [login_user]. *)
Inductive event : Type :=
| Probe (sc : scope) (email : string)
| LoginUser (sc : scope) (user : User.t) (remember_me : value).

(** [req_data[k]] *)
Definition getitem (v : value) (k : string) : outcome value :=
  match v with
  | VDict d => subscript d k
  | _ => Raise TypeError
  end.

(** [x.lower()] for a value parsed from JSON. *)
Definition call_lower (v : value) : outcome string :=
  match v with
  | VStr s => Ok (lower s)
  | _ => Raise AttributeError
  end.

Definition current_user_info (sc : scope) (u : User.t) : outcome dict :=
  n <- py_add (User._first_name u) (VStr " ") ;;
  userName <- py_add n (User._last_name u) ;;
  Ok [("userName", userName); ("userType", VStr (scope_name sc));
      ("loggedIn", VBool true); ("dob", VStr "")].

Definition invalid_password : string := "Invalid password,".
Definition no_such_user : string := "The user with this email does not exist.".
Definition missing_fields : string := "Not all fields satisfied".

Definition scopes : list scope := [Student_; Teacher_; Admin_; Parent_].

(** The [for] loop over the roles. *)
Fixpoint probe `{Bcrypt} `{Roles} (salts : scope -> bytes) (d : db)
    (email : string) (password remember_me : value) (todo : list scope)
  : list event * outcome reply :=
  match todo with
  | [] => ([], Ok (error no_such_user, 400))
  | sc :: rest =>
      match get_by_email sc (salts sc) d email with
      | Raise e => ([Probe sc email], Raise e)
      | Ok None =>
          let (events, r) := probe salts d email password remember_me rest in
          (Probe sc email :: events, r)
      | Ok (Some user) =>
          match User.validate_password user password with
          | Raise e => ([Probe sc email], Raise e)
          | Ok true =>
              ([Probe sc email; LoginUser sc user remember_me],
               info <- current_user_info sc user ;;
               Ok (response ["Log in succesful! Redirecting to dashboard..."]
                            info, 200))
          | Ok false => ([Probe sc email], Ok (error invalid_password, 400))
          end
      end
  end.

Definition handles_missing (e : exn) : bool :=
  exn_eqb e KeyError || exn_eqb e TypeError.

(** [login].  [current_user] is the authenticated user of the session, if
    any; [req_data] is what [request.get_json()] returns. *)
Definition login `{Bcrypt} `{Roles} (salts : scope -> bytes)
    (current_user : option (scope * User.t)) (method : string)
    (req_data : value) (d : db) : list event * outcome reply :=
  match current_user with
  | Some (sc, u) =>
      ([], info <- current_user_info sc u ;; Ok (response [] info, 200))
  | None =>
      if String.eqb method "GET"
      then ([], Ok (response [] [("loggedIn", VBool false)], 200))
      else
        let (events, r) :=
          match (e <- getitem req_data "email" ;;
                 email <- call_lower e ;;
                 password <- getitem req_data "password" ;;
                 remember_me <- getitem req_data "remember_me" ;;
                 Ok (email, password, remember_me)) with
          | Raise e => ([], Raise e)
          | Ok (email, password, remember_me) =>
              probe salts d email password remember_me scopes
          end in
        (events, catch r handles_missing (Ok (error missing_fields, 400)))
  end.

End Auth.

(* ------------------------------------------------------------------ *)
(** ** Histories of a [User] object *)

Module Ops.

(** One assignment to a property of the object. *)
Inductive op : Type :=
| SetEmail (v : value)
| SetFirstName (v : value)
| SetLastName (v : value)
| SetPassword (salt : bytes) (v : value)
| SetActivated (v : value)
| SetId (v : value)
| SetBio (v : value)
| SetDateOfBirth (v : value)
| SetProfilePicture (v : value).

Definition apply `{Bcrypt} (o : op) (u : User.t) : outcome User.t :=
  match o with
  | SetEmail v => User.set_email u v
  | SetFirstName v => User.set_first_name u v
  | SetLastName v => User.set_last_name u v
  | SetPassword salt v => User.set_password salt u v
  | SetActivated v => User.set_activated u v
  | SetId v => User.set_id u v
  | SetBio v => User.set_bio u v
  | SetDateOfBirth v => User.set_date_of_birth u v
  | SetProfilePicture v => User.set_profile_picture u v
  end.

(** A history of assignments; one that raises leaves the object as it
    was, and the history goes on. *)
Fixpoint run `{Bcrypt} (ops : list op) (u : User.t) : User.t :=
  match ops with
  | [] => u
  | o :: rest =>
      match apply o u with
      | Ok u' => run rest u'
      | Raise _ => run rest u
      end
  end.

Definition is_SetId (o : op) : bool :=
  match o with
  | SetId _ => true
  | _ => false
  end.

(** What the [password] field may hold: a value the hashing library has
    returned, or [bytes] that were handed in with the shape of a hash. *)
Definition holds_hash `{Bcrypt} (b : bytes) : Prop :=
  (exists pw salt, hashpw pw salt = Ok b) \/ User.looks_hashed b = true.

End Ops.

(* ------------------------------------------------------------------ *)
(** ** Small instances of the interfaces, for concrete runs *)

Module Ref.

(** A stand-in for [bcrypt] that keeps the contract of the library:
    hashing with a hash as salt gives that hash back, and [checkpw]
    compares the two. *)
Definition bcrypt : Bcrypt := {|
  hashpw pw salt := Ok (String.append "$2b$" pw);
  checkpw pw hashed := Ok (String.eqb (String.append "$2b$" pw) hashed)
|}.

(** A stand-in for [werkzeug.security] with the format
    [method$salt$digest] of its hashes. *)
Definition werkzeug : Werkzeug := {|
  generate_password_hash p rnd := String.append "pbkdf2:sha256:1$s$h" p;
  check_password_hash pwhash p :=
    Ok (String.eqb pwhash (String.append "pbkdf2:sha256:1$s$h" p))
|}.

Definition collection_of (sc : scope) (d : db) : collection :=
  match sc with
  | Student_ => students d
  | Teacher_ => teachers d
  | Admin_ => admins d
  | Parent_ => parents d
  end.

(** Modelled from the spec: the backend classes [Teacher], [Admin] and
    [Parent] are missing; each wraps one collection, and its lookup by
    email is taken to read that collection the way [Student.get_by_email]
    reads [students]. *)
Definition roles `{Bcrypt} : Roles := {|
  role_get_by_email sc salt d email :=
    catch (r <- find_one (collection_of sc d) (by_email email) ;;
           s <- Student.from_dict salt r ;;
           Ok (option_map Student.base s))
          any_exn (Ok None)
|}.

Record sub : Type := mksub {
  sub_id : value;
  sub_assignment_id : value;
  sub_filename : string
}.

Definition submissions : SubmissionClass := {|
  submission := sub;
  submission_set_id s i := mksub (VStr i) (sub_assignment_id s) (sub_filename s);
  submission_id := sub_id;
  submission_assignment_id := sub_assignment_id;
  submission_to_dict s :=
    [("_id", sub_id s); ("assignment_id", sub_assignment_id s);
     ("filename", VStr (sub_filename s))]
|}.

Definition parents_as_dicts : ParentClass := {|
  parent := dict;
  Parent_call d :=
    if Student.has_key d "email" then Ok d else Raise TypeError
|}.

Definition empty_db : db := mkdb (Avail []) (Avail []) (Avail []) (Avail []) (Avail []).

Definition no_salt (_ : scope) : bytes := "".

Definition ann : User.t :=
  User.mk (Some "5f2d4a7b9c1e3a0012345678") "$2b$secret" "ann@school.io"
          (VStr "Ann") (VStr "Lee") User.default_bio
          User.default_date_of_birth "" false.

(** A store with one student and one course that has one assignment. *)
Definition school : db :=
  mkdb
    (Avail [[("_id", VOid "5f2d4a7b9c1e3a0012345678");
             ("email", VStr "ann@school.io"); ("first_name", VStr "Ann");
             ("last_name", VStr "Lee"); ("password", VStr "");
             ("assignments", VList [])]])
    (Avail []) (Avail []) (Avail [])
    (Avail [[("_id", VOid "5f2d4a7b9c1e3a00123456aa");
             ("name", VStr "History");
             ("assignments",
              VList [VDict [("_id", VOid "5f2d4a7b9c1e3a00123456bb");
                            ("title", VStr "Essay");
                            ("submissions", VList [])]])]]).

Definition ann_student : Student.t := Student.mk ann (VList []) (VList []).

Definition essay : sub :=
  mksub VNone (VStr "5f2d4a7b9c1e3a00123456bb") "essay.pdf".

End Ref.

(* ------------------------------------------------------------------ *)
(** ** backend/api/classes/user.py: [User.from_dict] *)

(** The class [CalendarEvent] is not among the sources at hand.
    [calendar_events v] stands for the comprehension
    [[CalendarEvent.from_dict(i) for i in v]]. *)
Class CalendarClass : Type := {
  calendar_events : value -> outcome value
}.

Module UserDict.

Definition parameters : list string :=
  ["email"; "first_name"; "last_name"; "bio"; "date_of_birth";
   "profile_picture"; "_id"; "password"; "calendar"; "activated"].

Definition required : list string := ["email"; "first_name"; "last_name"].

(** [User( **dictionary )]: every optional parameter defaults to [None]. *)
Definition call `{Bcrypt} (salt : bytes) (d : dict) : outcome User.t :=
  if negb (forallb (fun kv => existsb (String.eqb (fst kv)) parameters) d)
  then Raise TypeError
  else if negb (forallb (Student.has_key d) required) then Raise TypeError
  else User.init salt (Student.arg d "email" VNone)
         (Student.arg d "first_name" VNone) (Student.arg d "last_name" VNone)
         (Student.arg d "bio" VNone) (Student.arg d "date_of_birth" VNone)
         (Student.arg d "profile_picture" VNone) (Student.arg d "_id" VNone)
         (Student.arg d "password" VNone) (Student.arg d "activated" VNone).

(** [User.from_dict]: nothing is caught here. *)
Definition from_dict `{Bcrypt} `{CalendarClass} (salt : bytes)
    (dictionary : dict) : outcome User.t :=
  d <- match dict_get "calendar" dictionary with
       | Some v => c <- calendar_events v ;; Ok (dict_set "calendar" c dictionary)
       | None => Ok dictionary
       end ;;
  call salt d.

End UserDict.

(* ------------------------------------------------------------------ *)
(** ** backend/api/modules/auth/routes.py: [load_user], [change_password] *)

(** [get_by_id] of the classes [Teacher], [Admin] and [Parent], and what
    [TYPE_DICTIONARY[user._type].from_dict(user.to_dict())] gives for one of
    their objects, are an interface like [Roles]; [TYPE_DICTIONARY] is taken
    to map the [_type] of each class to that class. *)
Class RolesById : Type := {
  role_get_by_id : scope -> bytes -> db -> string -> outcome (option User.t);
  role_reload : scope -> bytes -> User.t -> outcome (option User.t)
}.

Module Routes.

(** The object a lookup returns: a [Student], or an object of another
    role. *)
Inductive user_object : Type :=
| AStudent (s : Student.t)
| ARole (sc : scope) (u : User.t).

(** [scope.get_by_id(id)] *)
Definition get_by_id `{Bcrypt} `{RolesById} (sc : scope) (salt : bytes)
    (d : db) (id : string) : outcome (option user_object) :=
  match sc with
  | Student_ =>
      r <- Student.get_by_id salt d id ;; Ok (option_map AStudent r)
  | _ => r <- role_get_by_id sc salt d id ;; Ok (option_map (ARole sc) r)
  end.

(** [TYPE_DICTIONARY[user._type].from_dict(user.to_dict())] *)
Definition reload `{Bcrypt} `{RolesById} (salt : bytes) (x : user_object)
  : outcome (option user_object) :=
  match x with
  | AStudent s =>
      r <- Student.from_dict salt (Some (Student.to_dict s)) ;;
      Ok (option_map AStudent r)
  | ARole sc u => r <- role_reload sc salt u ;; Ok (option_map (ARole sc) r)
  end.

(** The loop of [load_user]: the roles whose collection was asked, and the
    first object found. *)
Fixpoint search `{Bcrypt} `{RolesById} (salts : scope -> bytes) (d : db)
    (id : string) (todo : list scope)
  : list scope * outcome (option user_object) :=
  match todo with
  | [] => ([], Ok None)
  | sc :: rest =>
      match get_by_id sc (salts sc) d id with
      | Raise e => ([sc], Raise e)
      | Ok (Some user) => ([sc], Ok (Some user))
      | Ok None =>
          let (asked, r) := search salts d id rest in (sc :: asked, r)
      end
  end.

Definition load_order : list scope := [Teacher_; Student_; Admin_; Parent_].

Definition load_user `{Bcrypt} `{RolesById} (salts : scope -> bytes)
    (salt : bytes) (d : db) (id : string)
  : list scope * outcome (option user_object) :=
  let (asked, r) := search salts d id load_order in
  (asked,
   user <- r ;;
   match user with
   | Some x => reload salt x
   | None => Ok None
   end).

(** What [change_password] hands to [response] or [error], and the status
    code beside it. *)
Inductive body : Type :=
| response (flashes : list string)
| error (msg : string).

Definition is_KeyError (e : exn) : bool := exn_eqb e KeyError.

(** [change_password] for a [current_user] that is a [Student]; [form] is
    [request.form].  The result is the object and the store as they are
    afterwards, and the reply. *)
Definition change_password `{Bcrypt} (salt : bytes) (fresh : string)
    (form : dict) (current_user : Student.t) (d : db)
  : (Student.t * db) * outcome (body * nat) :=
  let missing := Ok (error "Not all fields satisfied", 400) in
  match subscript form "new_password" with
  | Raise e => ((current_user, d), catch (Raise e) is_KeyError missing)
  | Ok new_password =>
      match User.set_password salt (Student.base current_user) new_password with
      | Raise e => ((current_user, d), catch (Raise e) is_KeyError missing)
      | Ok u' =>
          match Student.add fresh (Student.with_base current_user u') d with
          | (st, Ok true) => (st, Ok (response ["Password changed"], 200))
          | (st, Ok false) =>
              (st, Ok (error "Unknown error while changing the password.", 500))
          | (st, Raise e) => (st, catch (Raise e) is_KeyError missing)
          end
      end
  end.

End Routes.

(* ------------------------------------------------------------------ *)
(** ** [str.lower] on any text, and the lookups of [login]

    The email of a request is any [str], and [str.lower] is defined on
    every code point.  Here a text is the list of its code points, and
    [str.lower] is written as the interpreter computes it, over the tables
    of the character database that it reads. *)

Module Unicode.

Definition text := list N.

Fixpoint of_string (s : string) : text :=
  match s with
  | EmptyString => []
  | String c s' => code c :: of_string s'
  end.

(** The text as a [string], when every code point is below 256. *)
Fixpoint to_string (t : text) : option string :=
  match t with
  | [] => Some EmptyString
  | c :: t' =>
      if (c <? 256)%N then option_map (String (ascii_of_N c)) (to_string t')
      else None
  end.

Fixpoint text_eqb (a b : text) : bool :=
  match a, b with
  | [], [] => true
  | x :: a', y :: b' => N.eqb x y && text_eqb a' b'
  | _, _ => false
  end.

(** What [str.lower] reads of the character database: the full lower-case
    mapping of a code point, and the properties cased and
    case-ignorable. *)
Class Tables : Type := {
  ToLowerFull : N -> list N;
  IsCased : N -> bool;
  IsCaseIgnorable : N -> bool
}.

Definition capital_sigma : N := 931.
Definition small_sigma : N := 963.
Definition small_final_sigma : N := 962.

(** The nearest code point that is not case-ignorable. *)
Fixpoint first_not_ignorable `{Tables} (t : text) : option N :=
  match t with
  | [] => None
  | c :: t' => if IsCaseIgnorable c then first_not_ignorable t' else Some c
  end.

(** The capital sigma is final when a cased letter comes before it and
    none after it, case-ignorable code points set aside.  [before] is the
    text before the sigma, nearest code point first. *)
Definition final_sigma `{Tables} (before after : text) : bool :=
  match first_not_ignorable before with
  | Some c =>
      IsCased c &&
      match first_not_ignorable after with
      | Some c' => negb (IsCased c')
      | None => true
      end
  | None => false
  end.

Fixpoint lower_from `{Tables} (before : text) (t : text) : text :=
  match t with
  | [] => []
  | c :: t' =>
      (if (c =? capital_sigma)%N
       then [if final_sigma before t' then small_final_sigma else small_sigma]
       else ToLowerFull c)
      ++ lower_from (c :: before) t'
  end.

(** [t.lower()] *)
Definition lower `{Tables} (t : text) : text := lower_from [] t.

(** Two code points that are the same letter: equal, or one the lower
    case of the other. *)
Definition same_letter `{Tables} (a b : N) : bool :=
  N.eqb a b || text_eqb (ToLowerFull a) [b] || text_eqb (ToLowerFull b) [a].

Fixpoint differ_only_in_case `{Tables} (t1 t2 : text) : bool :=
  match t1, t2 with
  | [], [] => true
  | a :: t1', b :: t2' => same_letter a b && differ_only_in_case t1' t2'
  | _, _ => false
  end.

(** [scope.get_by_email(email)] for an email that is any text. *)
Class Lookups : Type := {
  lookup : scope -> text -> outcome (option User.t)
}.

(** The loop of [login]: the lookups it makes, in order.  A lookup that
    returns a user or raises is the last one. *)
Fixpoint asked `{Lookups} (email : text) (todo : list scope)
  : list (scope * text) :=
  match todo with
  | [] => []
  | sc :: rest =>
      (sc, email) ::
      match lookup sc email with
      | Ok None => asked email rest
      | _ => []
      end
  end.

(** The lookups of [login] for a request that is not a GET, from a client
    that is not yet authenticated, whose body carries the email, a password
    and [remember_me]. *)
Definition login_lookups `{Tables} `{Lookups} (email : text)
  : list (scope * text) :=
  asked (lower email) Auth.scopes.

(** The lookups among the events of [Auth.login]. *)
Fixpoint probes_of (events : list Auth.event) : list (scope * text) :=
  match events with
  | [] => []
  | Auth.Probe sc x :: r => (sc, of_string x) :: probes_of r
  | Auth.LoginUser _ _ _ :: r => probes_of r
  end.

End Unicode.

(* ------------------------------------------------------------------ *)
(** ** More small instances and objects, for concrete runs *)

Module Sample.

Definition calendar : CalendarClass := {| calendar_events v := Ok v |}.

(** Modelled from the spec: the backend classes [Teacher], [Admin] and
    [Parent] are missing; their lookup by identifier is taken to read the
    collection of the role the way [Student.get_by_id] reads [students],
    and reloading one of their objects to return it. *)
Definition roles_by_id `{Bcrypt} : RolesById := {|
  role_get_by_id sc salt d id :=
    catch (o <- Bson.ObjectId id ;;
           r <- find_one (Ref.collection_of sc d) (by_id o) ;;
           s <- Student.from_dict salt r ;;
           Ok (option_map Student.base s))
          any_exn (Ok None);
  role_reload sc salt u := Ok (Some u)
|}.

(** A user whose password has the shape of a hash: sixty octets. *)
Definition hash60 : bytes :=
  "$2b$12$abcdefghijklmnopqrstuuABCDEFGHIJKLMNOPQRSTUVWXYZ01234".

Definition cat : User.t :=
  User.mk (Some "5f2d4a7b9c1e3a0012345670") hash60 "cat@school.io"
          (VStr "Cat") (VStr "Roe") "Likes maps." "01-02-2003" "cat.png" true.

(** A student that was never saved. *)
Definition bea : Student.t :=
  Student.mk
    (User.mk None "$2b$pw" "bea@school.io" (VStr "Bea") (VStr "Poe")
             User.default_bio User.default_date_of_birth "" false)
    (VList [VStr "history"]) (VList []).

Definition earlier : Legacy.t :=
  Legacy.mk (VStr "dan@school.io") (VStr "Dan") (VStr "Moe") (VInt 7)
            Legacy.EMPTY (VBool false) (Some "pbkdf2:sha256:1$s$hpw").

(** A text cut, or filled up with full stops, to [n] characters. *)
Fixpoint fit (n : nat) (s : string) : string :=
  match n with
  | O => EmptyString
  | S n' =>
      match s with
      | EmptyString => String "." (fit n' EmptyString)
      | String c s' => String c (fit n' s')
      end
  end.

(** A stand-in for [bcrypt] whose hashes have the shape of the hashes of
    the library: the prefix of the scheme and sixty octets in all. *)
Definition bcrypt60 : Bcrypt := {|
  hashpw pw salt := Ok (String.append "$2b$" (fit 56 pw));
  checkpw pw hashed := Ok (String.eqb (String.append "$2b$" (fit 56 pw)) hashed)
|}.

(** Entries of the character database: the code points below 256 as
    [lower_char] has them, and the Greek capitals with their small
    letters, 32 places further. *)
Definition tables : Unicode.Tables := {|
  Unicode.ToLowerFull c :=
    if (c <? 256)%N then [code (lower_char (ascii_of_N c))]
    else if (913 <=? c)%N && (c <=? 939)%N && negb (c =? 930)%N
         then [(c + 32)%N]
         else [c];
  Unicode.IsCased c :=
    if (c <? 256)%N
    then is_ascii_letter (ascii_of_N c)
         || existsb (N.eqb c) [170; 181; 186]%N
         || ((192 <=? c)%N && negb (c =? 215)%N && negb (c =? 247)%N)
    else (913 <=? c)%N && (c <=? 969)%N && negb (c =? 930)%N;
  Unicode.IsCaseIgnorable c :=
    existsb (N.eqb c) [39; 46; 58; 94; 96; 168; 173; 175; 180; 183; 184]%N
|}.

(** The lookups in a store whose emails are made of code points below
    256: another text is the email of no document. *)
Definition lookups `{Bcrypt} `{Roles} (salts : scope -> bytes) (d : db)
  : Unicode.Lookups := {|
  Unicode.lookup sc k :=
    match Unicode.to_string k with
    | Some email => Auth.get_by_email sc (salts sc) d email
    | None => Ok None
    end
|}.

(** A document with a field that [Student.__init__] does not know. *)
Definition eve_doc : dict :=
  [("_id", VOid "5f2d4a7b9c1e3a0012345671"); ("email", VStr "eve@school.io");
   ("first_name", VStr "Eve"); ("last_name", VStr "Ray");
   ("bio", VStr "Hello")].

End Sample.

(* ================================================================== *)
(** * Properties *)

(** ** Tools *)

(** Splits a hypothesis [x <- m ;; k = Ok r] into the step that [m] has
    made and the rest. *)
Ltac bind_ok H :=
  let E := fresh "E" in
  match type of H with
  | bind ?m _ = Ok _ => destruct m eqn:E; simpl in H; [ | discriminate H ]
  end.

Lemma dict_get_set_same : forall k v d, dict_get k (dict_set k v d) = Some v.
Proof.
  intros k v d. induction d as [ | [k' v'] d IH ]; simpl.
  - now rewrite String.eqb_refl.
  - destruct (String.eqb k k') eqn:E; simpl; rewrite E; auto.
Qed.

Lemma dict_get_set_other :
  forall k k' v d, k <> k' -> dict_get k (dict_set k' v d) = dict_get k d.
Proof.
  intros k k' v d Hne. induction d as [ | [k0 v0] d IH ]; simpl.
  - destruct (String.eqb_spec k k'); [ contradiction | reflexivity ].
  - destruct (String.eqb_spec k' k0) as [ -> | Hk ]; simpl.
    + destruct (String.eqb_spec k k0); [ contradiction | reflexivity ].
    + destruct (String.eqb_spec k k0); auto.
Qed.

(** ** Assignments to [email], [bio] and [date_of_birth] *)

Section Setters.
Context {B : Bcrypt}.

Lemma init_email_matches :
  forall salt e f l b d p i pw a u,
    User.init salt e f l b d p i pw a = Ok u ->
    User.email_matches (User._email u) = true.
Proof.
  intros salt e f l b d p i pw a u H. unfold User.init in H.
  bind_ok H. repeat bind_ok H. inversion H; subst; simpl.
  unfold User.check_email in E. destruct e; try discriminate.
  destruct (User.email_matches s) eqn:M; simpl in E; [ | discriminate ].
  now inversion E; subst.
Qed.

Lemma apply_email_matches :
  forall o u u',
    User.email_matches (User._email u) = true ->
    Ops.apply o u = Ok u' ->
    User.email_matches (User._email u') = true.
Proof.
  intros o u u' Hu H.
  destruct o; simpl in H;
    unfold User.set_email, User.set_first_name, User.set_last_name,
      User.set_password, User.set_activated, User.set_id, User.set_bio,
      User.set_date_of_birth, User.set_profile_picture in H;
    try (bind_ok H); inversion H; subst; simpl; auto.
  unfold User.check_email in E. destruct v; try discriminate.
  destruct (User.email_matches s) eqn:M; simpl in E; [ | discriminate ].
  now inversion E; subst.
Qed.

Lemma run_email_matches :
  forall ops u,
    User.email_matches (User._email u) = true ->
    User.email_matches (User._email (Ops.run ops u)) = true.
Proof.
  induction ops as [ | o ops IH ]; intros u Hu; simpl; auto.
  destruct (Ops.apply o u) eqn:E; auto.
  apply IH. eapply apply_email_matches; eauto.
Qed.

End Setters.

(** C3, as the code has it.  Assigning to [email], [bio] or
    [date_of_birth] is checked at the assignment: a value that is not a
    [str] is refused with [InvalidTypeException] (for [email] and [bio]);
    the empty string is accepted for [bio] and [date_of_birth] and replaced
    by the default; any other [str] is stored exactly when it passes the
    check of the property (the email pattern; at most 100 characters that
    begin as the bio pattern asks; a date [dd-mm-yyyy]) and is refused
    otherwise, with [InvalidFormatException] for an email that fails the
    pattern, for a bio of more than 100 characters and for a text that is
    no date.  After a successful construction and any history of
    assignments the stored email passes the email pattern. *)
Theorem C3_assignment_validation :
  forall (B : Bcrypt) (u : User.t),
    (forall v, is_str v = false ->
       User.set_email u v = Raise InvalidTypeException /\
       User.set_bio u v = Raise InvalidTypeException) /\
    (forall s,
       User.set_email u (VStr s) =
         if User.email_matches s then Ok (User.with_email u s)
         else Raise InvalidFormatException) /\
    User.set_bio u (VStr "") = Ok (User.with_bio u User.default_bio) /\
    User.set_date_of_birth u (VStr "") =
      Ok (User.with_date_of_birth u User.default_date_of_birth) /\
    (forall s, s <> "" ->
       (Nat.leb (String.length s) 100 && User.bio_matches s = true ->
          User.set_bio u (VStr s) = Ok (User.with_bio u s)) /\
       (Nat.leb (String.length s) 100 = false ->
          User.set_bio u (VStr s) = Raise InvalidFormatException) /\
       (forall u', User.set_bio u (VStr s) = Ok u' ->
          Nat.leb (String.length s) 100 && User.bio_matches s = true)) /\
    (forall s, s <> "" ->
       User.set_date_of_birth u (VStr s) =
         if Datetime.strptime_dmY s then Ok (User.with_date_of_birth u s)
         else Raise InvalidFormatException) /\
    (forall salt e f l b d p i pw a u0 ops,
       User.init salt e f l b d p i pw a = Ok u0 ->
       User.email_matches (User._email (Ops.run ops u0)) = true).
Proof.
  intros B u.
  split; [ | split; [ | split; [ | split; [ | split; [ | split ] ] ] ] ];
    try reflexivity.
  - intros v Hv.
    split; destruct v; simpl in *; try discriminate; reflexivity.
  - intros s. unfold User.set_email, User.check_email.
    destruct (User.email_matches s); reflexivity.
  - intros s Hs.
    assert (H : User.set_bio u (VStr s) =
                if Nat.leb (String.length s) 100
                then if User.bio_matches s then Ok (User.with_bio u s)
                     else Raise KeyError
                else Raise InvalidFormatException).
    { unfold User.set_bio, User.check_bio.
      destruct (String.eqb_spec s ""); [ contradiction | ].
      destruct s as [ | c s ]; [ contradiction | ].
      change (Nat.ltb 0 (String.length (String c s))) with true.
      destruct (Nat.leb (String.length (String c s)) 100); simpl; auto.
      destruct (User.bio_matches (String c s)); reflexivity. }
    rewrite H.
    destruct (Nat.leb (String.length s) 100);
      destruct (User.bio_matches s); simpl;
      repeat split; intros; try discriminate; reflexivity.
  - intros s Hs. unfold User.set_date_of_birth, User.check_date_of_birth.
    destruct (String.eqb_spec s ""); [ contradiction | ].
    destruct (Datetime.strptime_dmY s); reflexivity.
  - intros. apply run_email_matches. eapply init_email_matches; eauto.
Qed.

(** C3 as stated fails: the empty string does not match the pattern for
    [bio], yet assigning it raises nothing. *)
Lemma C3_counterexample :
  ~ (forall (u : User.t) (s : string),
       User.bio_matches s = false ->
       User.set_bio u (VStr s) = Raise InvalidFormatException).
Proof.
  intros H. specialize (H Ref.ann "" eq_refl). discriminate H.
Qed.

(** C8.  The empty string assigned to [bio] stores ["A short bio."], and
    assigned to [date_of_birth] stores ["14-03-1879"]; neither raises,
    although the empty string passes neither the pattern for [bio] nor the
    date format. *)
Theorem C8_empty_string_defaults :
  forall u : User.t,
    User.set_bio u (VStr "") = Ok (User.with_bio u "A short bio.") /\
    User.set_date_of_birth u (VStr "") =
      Ok (User.with_date_of_birth u "14-03-1879") /\
    User._bio (User.with_bio u "A short bio.") = "A short bio." /\
    User._date_of_birth (User.with_date_of_birth u "14-03-1879")
      = "14-03-1879" /\
    User.bio_matches "" = false /\
    Datetime.strptime_dmY "" = false.
Proof.
  intros u. repeat split.
Qed.

(** ** Passwords *)

Lemma re_match_app :
  forall a r b, re_match r a = true -> re_match r (String.append a b) = true.
Proof.
  induction a as [ | c a IH ]; intros r b H.
  - simpl in H. rewrite orb_false_r in H.
    destruct b; simpl; rewrite H; reflexivity.
  - simpl in *. destruct (nullable r); simpl in *; auto.
Qed.

Section Passwords.
Context {B : Bcrypt}.

Lemma or_empty_str : forall p, py_or (VStr p) (VStr "") = VStr p.
Proof.
  intros p. unfold py_or. simpl.
  destruct (String.eqb_spec p ""); simpl; congruence.
Qed.

Lemma check_password_holds_hash :
  forall salt v b, User.check_password salt v = Ok b -> Ops.holds_hash b.
Proof.
  intros salt v b H. destruct v; simpl in H; try discriminate.
  - left. eauto.
  - destruct (User.looks_hashed b0) eqn:L; simpl in H; [ | discriminate ].
    inversion H; subst. now right.
Qed.

Lemma init_password :
  forall salt e f l b d pic i pw a u,
    User.init salt e f l b d pic i pw a = Ok u ->
    User.check_password salt (py_or pw (VStr "")) = Ok (User._password u).
Proof.
  intros salt e f l b d pic i pw a u H. unfold User.init in H.
  repeat bind_ok H. now inversion H; subst.
Qed.

Lemma apply_holds_hash :
  forall o u u',
    Ops.holds_hash (User._password u) ->
    Ops.apply o u = Ok u' ->
    Ops.holds_hash (User._password u').
Proof.
  intros o u u' Hu H.
  destruct o; simpl in H;
    unfold User.set_email, User.set_first_name, User.set_last_name,
      User.set_password, User.set_activated, User.set_id, User.set_bio,
      User.set_date_of_birth, User.set_profile_picture in H;
    try (bind_ok H); inversion H; subst; simpl; auto.
  eapply check_password_holds_hash; eauto.
Qed.

Lemma run_holds_hash :
  forall ops u,
    Ops.holds_hash (User._password u) ->
    Ops.holds_hash (User._password (Ops.run ops u)).
Proof.
  induction ops as [ | o ops IH ]; intros u Hu; simpl; auto.
  destruct (Ops.apply o u) eqn:E; auto.
  apply IH. eapply apply_holds_hash; eauto.
Qed.

Lemma set_password_str :
  forall salt u p u',
    User.set_password salt u (VStr p) = Ok u' ->
    hashpw (encode_utf8 p) salt = Ok (User._password u').
Proof.
  intros salt u p u' H. unfold User.set_password in H. simpl in H.
  bind_ok H. now inversion H; subst.
Qed.

(** A value with the shape of a hash is not a text without that shape. *)
Lemma hashed_is_not_plain :
  (forall pw salt h, hashpw pw salt = Ok h -> User.looks_hashed h = true) ->
  forall pw salt h,
    hashpw pw salt = Ok h -> User.looks_hashed pw = false -> h <> pw.
Proof.
  intros Hshape pw salt h H Hpw Heq. subst h.
  rewrite (Hshape _ _ _ H) in Hpw. discriminate Hpw.
Qed.

Lemma Student_set_password_str :
  forall salt p s d h,
    hashpw (encode_utf8 p) salt = Ok h ->
    User._password
      (Student.base (fst (fst (Student.set_password salt (VStr p) s d))))
    = h.
Proof.
  intros salt p s d h H. unfold Student.set_password, User.set_password.
  simpl. rewrite H. simpl.
  destruct (User.id _); simpl; [ | reflexivity ].
  destruct (update _ _ _); reflexivity.
Qed.

End Passwords.

(** C2, as the code has it.  In the backend class a [str] assigned as the
    password -- through the setter, at construction or through
    [Student.set_password] -- is stored as what [hashpw] returns for its
    UTF-8 encoding, and the assignment goes through whenever [hashpw]
    returns.  The stored value is never the plaintext itself: it is a
    [bytes] value and not the [str]; it differs from the UTF-8 encoding of
    every plaintext that has not itself the shape of a bcrypt hash, as the
    hashes of the library have that shape; and it differs from the encoding
    of every plaintext as far as the library never returns the password it
    was given.  After a successful construction and any history of
    assignments the field holds a value returned by the library or [bytes]
    handed in with the shape of a hash.  In the earlier class
    [set_password] stores [generate_password_hash(p)] for every [p] that
    does not itself begin like a [pbkdf2:sha256] hash, which differs from
    [p] as the hashes of the library have that shape; a [p] that does begin
    like such a hash is stored as it is. *)
Theorem C2_password_stored_hashed :
  forall (B : Bcrypt) (W : Werkzeug),
    (forall salt u p h,
       hashpw (encode_utf8 p) salt = Ok h ->
       User.set_password salt u (VStr p) = Ok (User.with_password u h) /\
       User._password (User.with_password u h) = h) /\
    (forall salt u p u',
       User.set_password salt u (VStr p) = Ok u' ->
       hashpw (encode_utf8 p) salt = Ok (User._password u') /\
       VBytes (User._password u') <> VStr p) /\
    (forall salt e f l b d pic i p a u,
       User.init salt e f l b d pic i (VStr p) a = Ok u ->
       hashpw (encode_utf8 p) salt = Ok (User._password u)) /\
    (forall salt p s d h,
       hashpw (encode_utf8 p) salt = Ok h ->
       User._password
         (Student.base (fst (fst (Student.set_password salt (VStr p) s d))))
       = h) /\
    ((forall pw salt h, hashpw pw salt = Ok h -> User.looks_hashed h = true) ->
     forall salt p,
       User.looks_hashed (encode_utf8 p) = false ->
       (forall u u',
          User.set_password salt u (VStr p) = Ok u' ->
          User._password u' <> encode_utf8 p) /\
       (forall e f l b d pic i a u,
          User.init salt e f l b d pic i (VStr p) a = Ok u ->
          User._password u <> encode_utf8 p) /\
       (forall s d h,
          hashpw (encode_utf8 p) salt = Ok h ->
          User._password
            (Student.base (fst (fst (Student.set_password salt (VStr p) s d))))
          <> encode_utf8 p)) /\
    ((forall pw salt h, hashpw pw salt = Ok h -> h <> pw) ->
     forall salt p,
       (forall u u',
          User.set_password salt u (VStr p) = Ok u' ->
          User._password u' <> encode_utf8 p) /\
       (forall e f l b d pic i a u,
          User.init salt e f l b d pic i (VStr p) a = Ok u ->
          User._password u <> encode_utf8 p) /\
       (forall s d h,
          hashpw (encode_utf8 p) salt = Ok h ->
          User._password
            (Student.base (fst (fst (Student.set_password salt (VStr p) s d))))
          <> encode_utf8 p)) /\
    (forall salt e f l b d pic i pw a u ops,
       User.init salt e f l b d pic i pw a = Ok u ->
       Ops.holds_hash (User._password (Ops.run ops u))) /\
    (forall rnd u p u',
       re_match Legacy.hash_re p = false ->
       Legacy.set_password rnd u (VStr p) = Ok u' ->
       Legacy.password_hash u' = Some (generate_password_hash p rnd) /\
       ((forall q r, re_match Legacy.hash_re (generate_password_hash q r) = true) ->
        Legacy.password_hash u' <> Some p)) /\
    (forall rnd u p,
       (re_match Legacy.hash_re p = false ->
        Legacy.set_password rnd u (VStr p)
        = Ok (Legacy.with_password_hash u (generate_password_hash p rnd))) /\
       (re_match Legacy.hash_re p = true ->
        Legacy.set_password rnd u (VStr p)
        = Ok (Legacy.with_password_hash u p))).
Proof.
  intros B W.
  assert (Hinit : forall salt e f l b d pic i p a u,
             User.init salt e f l b d pic i (VStr p) a = Ok u ->
             hashpw (encode_utf8 p) salt = Ok (User._password u)).
  { intros salt e f l b d pic i p a u H.
    apply init_password in H. rewrite or_empty_str in H. exact H. }
  split.
  { intros salt u p h H. unfold User.set_password. simpl. rewrite H.
    split; reflexivity. }
  split.
  { intros salt u p u' H. split; [ | discriminate ].
    eapply set_password_str; eauto. }
  split; [ exact Hinit | ].
  split; [ exact Student_set_password_str | ].
  split.
  { intros Hshape salt p Hp. split; [ | split ].
    - intros u u' H. apply set_password_str in H.
      exact (hashed_is_not_plain Hshape _ _ _ H Hp).
    - intros e f l b d pic i a u H. apply Hinit in H.
      exact (hashed_is_not_plain Hshape _ _ _ H Hp).
    - intros s d h H. rewrite (Student_set_password_str _ _ s d _ H).
      exact (hashed_is_not_plain Hshape _ _ _ H Hp). }
  split.
  { intros Hne salt p. split; [ | split ].
    - intros u u' H. apply set_password_str in H. exact (Hne _ _ _ H).
    - intros e f l b d pic i a u H. apply Hinit in H. exact (Hne _ _ _ H).
    - intros s d h H. rewrite (Student_set_password_str _ _ s d _ H).
      exact (Hne _ _ _ H). }
  split.
  { intros salt e f l b d pic i pw a u ops H.
    apply run_holds_hash. apply init_password in H.
    eapply check_password_holds_hash; eauto. }
  split.
  { intros rnd u p u' H H0. unfold Legacy.set_password in H0.
    rewrite H in H0. inversion H0; subst. split; [ reflexivity | ].
    intros Hfmt Heq. simpl in Heq. inversion Heq as [Hp].
    specialize (Hfmt p rnd). rewrite Hp in Hfmt. congruence. }
  intros rnd u p. unfold Legacy.set_password.
  split; intros H; rewrite H; reflexivity.
Qed.

(** C2 as stated fails in the earlier class: a plaintext that begins like
    a [pbkdf2:sha256] hash is stored as it is, whatever the library. *)
Lemma C2_counterexample :
  ~ (forall (W : Werkzeug) (rnd : string) (u : Legacy.t) (p : string)
            (u' : Legacy.t),
       Legacy.set_password rnd u (VStr p) = Ok u' ->
       Legacy.password_hash u' <> Some p).
Proof.
  intros H.
  apply (H Ref.werkzeug "" (Legacy.init VNone VNone VNone VNone VNone)
           "pbkdf2:sha256:a$b$c" _ eq_refl).
  reflexivity.
Qed.

(** C6, as the code has it.  [validate_password] and [verify_password]
    are the check of the library applied to the stored hash.  In the
    backend class, after a [str] [p] has been assigned as the password,
    validating [p] gives [True], and a [q] whose hash under the stored one
    is another value gives [False].  In the earlier class verifying [p]
    gives [True] after [set_password(p)] for every [p] that does not itself
    begin like a [pbkdf2:sha256] hash.  The facts used of the libraries are
    their contracts: [checkpw] hashes with the stored hash as salt and
    compares, hashing with a hash as salt returns that hash, and a
    generated hash checks against its password. *)
Theorem C6_password_verification :
  forall (B : Bcrypt) (W : Werkzeug),
    (forall pw h, checkpw pw h = (h' <- hashpw pw h ;; Ok (String.eqb h' h))) ->
    (forall pw salt h, hashpw pw salt = Ok h -> hashpw pw h = Ok h) ->
    (forall p rnd, check_password_hash (generate_password_hash p rnd) p = Ok true) ->
    (forall salt u p u',
       User.set_password salt u (VStr p) = Ok u' ->
       User.validate_password u' (VStr p) = Ok true) /\
    (forall u q,
       User.validate_password u (VStr q) =
         checkpw (encode_utf8 q) (User._password u)) /\
    (forall u q h,
       hashpw (encode_utf8 q) (User._password u) = Ok h ->
       h <> User._password u ->
       User.validate_password u (VStr q) = Ok false) /\
    (forall rnd u p u',
       re_match Legacy.hash_re p = false ->
       Legacy.set_password rnd u (VStr p) = Ok u' ->
       Legacy.verify_password u' p = Ok true) /\
    (forall u h q,
       Legacy.password_hash u = Some h ->
       Legacy.verify_password u q = check_password_hash h q).
Proof.
  intros B W Hcheck Hsalt Hgen. repeat split.
  - intros salt u p u' H. apply set_password_str in H. simpl.
    rewrite Hcheck, (Hsalt _ _ _ H). simpl. now rewrite String.eqb_refl.
  - intros u q h H Hne. simpl. rewrite Hcheck, H. simpl.
    destruct (String.eqb_spec h (User._password u)); [ contradiction | auto ].
  - intros rnd u p u' Hp H. unfold Legacy.set_password in H.
    rewrite Hp in H. inversion H; subst.
    unfold Legacy.verify_password. simpl. apply Hgen.
  - intros u h q H. unfold Legacy.verify_password. now rewrite H.
Qed.

Lemma C6_witness :
  (forall pw h,
     checkpw (Bcrypt := Ref.bcrypt) pw h
     = (h' <- hashpw (Bcrypt := Ref.bcrypt) pw h ;; Ok (String.eqb h' h))) /\
  User.set_password (H := Ref.bcrypt) "salt" Ref.ann (VStr "tea")
    = Ok (User.with_password Ref.ann "$2b$tea") /\
  User.validate_password (H := Ref.bcrypt)
    (User.with_password Ref.ann "$2b$tea") (VStr "tea") = Ok true.
Proof.
  assert (H1 : forall pw h,
             checkpw (Bcrypt := Ref.bcrypt) pw h
             = (h' <- hashpw (Bcrypt := Ref.bcrypt) pw h ;;
                Ok (String.eqb h' h))) by reflexivity.
  split; [ exact H1 | split; [ reflexivity | ] ].
  refine (proj1 (C6_password_verification Ref.bcrypt Ref.werkzeug H1 _ _)
            "salt" Ref.ann "tea" _ eq_refl).
  - intros pw salt h H. exact H.
  - intros p rnd. simpl. now rewrite String.eqb_refl.
Defined.

(** C6 as stated fails in the earlier class.  For a password that begins
    like a [pbkdf2:sha256] hash, [set_password] keeps the text itself as
    the hash, whatever the library, so verifying the same text asks the
    library whether the text is a hash of itself; a library that honours
    its contract answers no.  (In [werkzeug] the digest at the end of a hash
    is sixty-four hexadecimal digits, here it would have to be ["c"].) *)
Lemma C6_counterexample :
  (forall (W : Werkzeug) rnd u,
     Legacy.set_password rnd u (VStr "pbkdf2:sha256:1$b$c")
     = Ok (Legacy.with_password_hash u "pbkdf2:sha256:1$b$c")) /\
  ~ (forall (W : Werkzeug),
       (forall p rnd,
          check_password_hash (generate_password_hash p rnd) p = Ok true) ->
       forall rnd u p u',
         Legacy.set_password rnd u (VStr p) = Ok u' ->
         Legacy.verify_password u' p = Ok true).
Proof.
  split; [ reflexivity | ].
  intros H.
  specialize (H Ref.werkzeug).
  assert (Hc : forall p rnd,
             check_password_hash (Werkzeug := Ref.werkzeug)
               (generate_password_hash (Werkzeug := Ref.werkzeug) p rnd) p
             = Ok true).
  { intros p rnd. simpl. now rewrite String.eqb_refl. }
  specialize (H Hc "" (Legacy.init VNone VNone VNone VNone VNone)
                "pbkdf2:sha256:1$b$c" _ eq_refl).
  discriminate H.
Qed.

(** ** The identifier *)

(** The serialised student, entry by entry. *)
Lemma Student_to_dict_entries :
  forall s,
    Student.to_dict s =
      [("email", VStr (User._email (Student.base s)));
       ("first_name", User._first_name (Student.base s));
       ("last_name", User._last_name (Student.base s));
       ("password", VStr "");
       ("activated", VBool (User._activated (Student.base s)))]
      ++ User.id_entry (Student.base s)
      ++ [("courses", Student.courses s);
          ("assignments", Student.assignments s)].
Proof.
  intros s. unfold Student.to_dict, User.to_dict, User.id_entry.
  destruct (i <- User.id (Student.base s) ;; Bson.ObjectId i); reflexivity.
Qed.

Section Identifier.
Context {B : Bcrypt}.

Lemma apply_keeps_id :
  forall o u u',
    Ops.is_SetId o = false -> Ops.apply o u = Ok u' ->
    User._id u' = User._id u.
Proof.
  intros o u u' Ho H.
  destruct o; try discriminate Ho; simpl in H;
    unfold User.set_email, User.set_first_name, User.set_last_name,
      User.set_password, User.set_activated, User.set_bio,
      User.set_date_of_birth, User.set_profile_picture in H;
    try (bind_ok H); inversion H; subst; reflexivity.
Qed.

Lemma run_keeps_id :
  forall ops u,
    forallb (fun o => negb (Ops.is_SetId o)) ops = true ->
    User._id (Ops.run ops u) = User._id u.
Proof.
  induction ops as [ | o ops IH ]; intros u H; simpl in *; auto.
  apply andb_true_iff in H as [Ho H]. apply negb_true_iff in Ho.
  destruct (Ops.apply o u) eqn:E; auto.
  rewrite (IH _ H). eapply apply_keeps_id; eauto.
Qed.

Lemma Student_to_dict_id :
  forall s i,
    User._id (Student.base s) = Some i -> Bson.ObjectId i = Ok i ->
    dict_get "_id" (Student.to_dict s) = Some (VOid i).
Proof.
  intros s i Hi Ho. rewrite Student_to_dict_entries.
  unfold User.id_entry, User.id. rewrite Hi. simpl. rewrite Ho. reflexivity.
Qed.

Lemma add_keeps_id :
  forall fresh s d i,
    User._id (Student.base s) = Some i -> Bson.ObjectId i = Ok i ->
    User._id (Student.base (fst (fst (Student.add fresh s d)))) = Some i.
Proof.
  intros fresh s d i Hi Ho. unfold Student.add, insert_one.
  destruct (students d) as [ docs | e ].
  - rewrite (Student_to_dict_id _ _ Hi Ho).
    destruct (existsb _ docs); simpl; auto.
  - destruct (is_Exception e); simpl; auto.
Qed.

Lemma activate_keeps_id :
  forall s d,
    User._id (Student.base (fst (fst (Student.activate s d))))
    = User._id (Student.base s).
Proof.
  intros s d. unfold Student.activate.
  destruct (i <- User.id (Student.base s) ;; _); reflexivity.
Qed.

Lemma Student_set_password_keeps_id :
  forall salt p s d,
    User._id (Student.base (fst (fst (Student.set_password salt p s d))))
    = User._id (Student.base s).
Proof.
  intros salt p s d. unfold Student.set_password, User.set_password.
  destruct (User.check_password salt p); simpl; [ | reflexivity ].
  destruct (i <- User.id _ ;; _); reflexivity.
Qed.

End Identifier.

(** C5, as the code has it.  Nothing guards the identifier: the [id]
    setter stores whatever valid identifier it is given.  Every other
    assignment to a property leaves the identifier as it is, and so do
    [activate] and [set_password] of a student and [set_password] of the
    earlier class; [to_dict] carries the identifier under [_id]; and [add],
    called on a student whose identifier is set (in the canonical form the
    store prints), leaves it as it is whether the insertion succeeds or
    not. *)
Theorem C5_identifier_kept :
  forall (B : Bcrypt) (W : Werkzeug),
    (forall o u u',
       Ops.is_SetId o = false -> Ops.apply o u = Ok u' ->
       User._id u' = User._id u) /\
    (forall ops u,
       forallb (fun o => negb (Ops.is_SetId o)) ops = true ->
       User._id (Ops.run ops u) = User._id u) /\
    (forall s d,
       User._id (Student.base (fst (fst (Student.activate s d))))
       = User._id (Student.base s)) /\
    (forall salt p s d,
       User._id (Student.base (fst (fst (Student.set_password salt p s d))))
       = User._id (Student.base s)) /\
    (forall s i,
       User._id (Student.base s) = Some i -> Bson.ObjectId i = Ok i ->
       dict_get "_id" (Student.to_dict s) = Some (VOid i)) /\
    (forall fresh s d i,
       User._id (Student.base s) = Some i -> Bson.ObjectId i = Ok i ->
       User._id (Student.base (fst (fst (Student.add fresh s d)))) = Some i) /\
    (forall rnd u p u',
       Legacy.set_password rnd u p = Ok u' -> Legacy.ID u' = Legacy.ID u).
Proof.
  intros B W.
  split; [ exact apply_keeps_id | ].
  split; [ exact run_keeps_id | ].
  split; [ exact activate_keeps_id | ].
  split; [ exact Student_set_password_keeps_id | ].
  split; [ exact Student_to_dict_id | ].
  split; [ exact add_keeps_id | ].
  intros rnd u p u' H. unfold Legacy.set_password in H.
  destruct p; try discriminate.
  destruct (re_match Legacy.hash_re s); inversion H; reflexivity.
Qed.

(** C5 as stated fails: the [id] setter replaces an identifier that is
    set, and [new_id] of the earlier class does the same. *)
Lemma C5_counterexample :
  ~ (forall (u u' : User.t) (v : value),
       User._id u <> None -> User.set_id u v = Ok u' ->
       User._id u' = User._id u) /\
  ~ (forall (u : Legacy.t) (fresh : value),
       Legacy.ID (Legacy.new_id fresh u) = Legacy.ID u).
Proof.
  split.
  - intros H.
    specialize (H Ref.ann (User.with_id Ref.ann "5f2d4a7b9c1e3a0012345679")
                  (VStr "5f2d4a7b9c1e3a0012345679")).
    simpl in H. assert (Some "5f2d4a7b9c1e3a0012345679"
                        = Some "5f2d4a7b9c1e3a0012345678") as X.
    { apply H; [ discriminate | reflexivity ]. }
    discriminate X.
  - intros H.
    specialize (H (Legacy.init (VInt 1) VNone VNone VNone VNone) (VInt 2)).
    discriminate H.
Qed.

(** ** Serialising a student *)

Section Serialise.
Context {B : Bcrypt}.

Lemma Student_to_dict_password :
  forall s, dict_get "password" (Student.to_dict s) = Some (VStr "").
Proof.
  intros s. rewrite Student_to_dict_entries. reflexivity.
Qed.

Lemma Student_to_dict_forgets_password :
  forall s h,
    Student.to_dict (Student.with_base s (User.with_password (Student.base s) h))
    = Student.to_dict s.
Proof.
  intros s h. rewrite !Student_to_dict_entries. reflexivity.
Qed.

(** Calling the class on a serialised student: the password argument is
    the empty string. *)
Lemma call_to_dict :
  forall salt s,
    Student.call salt (Student.to_dict s) =
      Student.init salt (VStr (User._email (Student.base s)))
        (User._first_name (Student.base s)) (User._last_name (Student.base s))
        (VStr "") (Student.courses s) (Student.assignments s)
        (match User.id_entry (Student.base s) with
         | (_, v) :: _ => v
         | [] => VNone
         end)
        (VBool (User._activated (Student.base s))) VNone VNone.
Proof.
  intros s salt. rewrite Student_to_dict_entries.
  destruct (User.id_entry _) as [ | [k v] r ] eqn:E.
  - reflexivity.
  - unfold User.id_entry in E.
    destruct (i <- User.id _ ;; Bson.ObjectId i); inversion E; subst.
    reflexivity.
Qed.

Lemma init_blank_password :
  forall salt e f l c a i act cal par s',
    Student.init salt e f l (VStr "") c a i act cal par = Ok s' ->
    hashpw "" salt = Ok (User._password (Student.base s')).
Proof.
  intros salt e f l c a i act cal par s' H. unfold Student.init in H.
  bind_ok H. inversion H; subst; simpl.
  apply init_password in E. exact E.
Qed.

Lemma roundtrip_password :
  forall salt s s',
    Student.from_dict salt (Some (Student.to_dict s)) = Ok (Some s') ->
    hashpw (encode_utf8 "") salt = Ok (User._password (Student.base s')).
Proof.
  intros salt s s' H. unfold Student.from_dict in H.
  rewrite call_to_dict in H.
  destruct (Student.init _ _ _ _ _ _ _ _ _ _ _) as [ s0 | e ] eqn:E;
    simpl in H.
  - inversion H; subst. eapply init_blank_password; eauto.
  - destruct (is_Exception e); discriminate.
Qed.

Lemma roundtrip_returns :
  forall salt s h,
    User.email_matches (User._email (Student.base s)) = true ->
    hashpw (encode_utf8 "") salt = Ok h ->
    exists s',
      Student.from_dict salt (Some (Student.to_dict s)) = Ok (Some s') /\
      User._password (Student.base s') = h.
Proof.
  intros salt s h He Hh. unfold Student.from_dict.
  rewrite call_to_dict. unfold Student.init, User.init, User.check_email.
  rewrite He. simpl in Hh |- *. rewrite Hh. simpl.
  unfold User.id_entry.
  destruct (i <- User.id (Student.base s) ;; Bson.ObjectId i); simpl;
    eexists; split; reflexivity.
Qed.

Lemma add_writes_to_dict :
  forall fresh s d docs s' d',
    students d = Avail docs ->
    Student.add fresh s d = ((s', d'), Ok true) ->
    exists i,
      students d' = Avail (docs ++ [dict_set "_id" i (Student.to_dict s)]).
Proof.
  intros fresh s d docs s' d' Hd H. unfold Student.add, insert_one in H.
  rewrite Hd in H.
  destruct (existsb _ docs).
  - simpl in H. destruct (User.id (Student.base s)); simpl in H;
      inversion H.
  - match type of H with
    | context [User.set_id ?u ?v] => destruct (User.set_id u v) eqn:E
    end.
    + inversion H; subst. simpl. eauto.
    + destruct (is_Exception e); simpl in H.
      * destruct (User.id (Student.base s)); simpl in H; inversion H.
      * inversion H.
Qed.

(** [add] on a store that can be reached, for a student whose document is
    not there yet: the call returns [True] and the document appended is
    [to_dict()], under the identifier of the student or, for a student
    without one, under the fresh identifier. *)
Lemma add_inserts_to_dict :
  forall fresh s d docs,
    students d = Avail docs ->
    let i := match dict_get "_id" (Student.to_dict s) with
             | Some i => i
             | None => VOid fresh
             end in
    existsb (same_id i) docs = false ->
    snd (Student.add fresh s d) = Ok true /\
    students (snd (fst (Student.add fresh s d)))
      = Avail (docs ++ [dict_set "_id" i (Student.to_dict s)]).
Proof.
  intros fresh s d docs Hd i Hnew. unfold Student.add, insert_one.
  rewrite Hd. fold i. rewrite Hnew.
  assert (Hi : exists o, i = VOid o).
  { unfold i. rewrite Student_to_dict_entries.
    destruct (User.id_entry (Student.base s)) as [ | [k v] r ] eqn:E.
    - exists fresh. reflexivity.
    - unfold User.id_entry in E.
      destruct (x <- User.id _ ;; Bson.ObjectId x) as [ o | e ];
        inversion E; subst.
      exists o. reflexivity. }
  destruct Hi as [o ->]. split; reflexivity.
Qed.

End Serialise.

(** C9.  [to_dict] of a student maps [password] to the empty string,
    whatever hash is stored: the dictionary is the same for every stored
    hash.  Building a student back from it hashes the empty string, so the
    password of the result is the hash of the empty string, whatever the
    student had, and differs from the stored one unless that was itself
    this hash of the empty string; the round trip does return a student
    when the email is well formed.  [add] does insert [to_dict()]: on a
    store that can be reached and holds no document with the identifier,
    it returns [True] and appends [to_dict()] under that identifier; and
    whenever it returns [True] the document it has appended is [to_dict()]
    with its identifier, and its password is empty. *)
Theorem C9_to_dict_blank_password :
  forall (B : Bcrypt),
    (forall s, dict_get "password" (Student.to_dict s) = Some (VStr "")) /\
    (forall s h,
       Student.to_dict
         (Student.with_base s (User.with_password (Student.base s) h))
       = Student.to_dict s) /\
    (forall salt s s',
       Student.from_dict salt (Some (Student.to_dict s)) = Ok (Some s') ->
       hashpw (encode_utf8 "") salt = Ok (User._password (Student.base s'))) /\
    (forall salt s s',
       Student.from_dict salt (Some (Student.to_dict s)) = Ok (Some s') ->
       hashpw (encode_utf8 "") salt <> Ok (User._password (Student.base s)) ->
       User._password (Student.base s') <> User._password (Student.base s)) /\
    (forall salt s h,
       User.email_matches (User._email (Student.base s)) = true ->
       hashpw (encode_utf8 "") salt = Ok h ->
       exists s',
         Student.from_dict salt (Some (Student.to_dict s)) = Ok (Some s') /\
         User._password (Student.base s') = h) /\
    (forall fresh s d docs,
       students d = Avail docs ->
       let i := match dict_get "_id" (Student.to_dict s) with
                | Some i => i
                | None => VOid fresh
                end in
       existsb (same_id i) docs = false ->
       snd (Student.add fresh s d) = Ok true /\
       students (snd (fst (Student.add fresh s d)))
         = Avail (docs ++ [dict_set "_id" i (Student.to_dict s)]) /\
       dict_get "password" (dict_set "_id" i (Student.to_dict s))
         = Some (VStr "")) /\
    (forall fresh s d docs s' d',
       students d = Avail docs ->
       Student.add fresh s d = ((s', d'), Ok true) ->
       exists doc,
         students d' = Avail (docs ++ [doc]) /\
         dict_get "password" doc = Some (VStr "") /\
         (forall k, k <> "_id" ->
            dict_get k doc = dict_get k (Student.to_dict s))).
Proof.
  intros B.
  split; [ exact Student_to_dict_password | ].
  split; [ exact Student_to_dict_forgets_password | ].
  split; [ exact roundtrip_password | ].
  split.
  { intros salt s s' H Hne Heq. apply Hne. rewrite <- Heq.
    eapply roundtrip_password; eauto. }
  split; [ exact roundtrip_returns | ].
  split.
  { intros fresh s d docs Hd i Hnew.
    destruct (add_inserts_to_dict fresh s d docs Hd Hnew) as [Hr Hs].
    split; [ exact Hr | split; [ exact Hs | ] ].
    rewrite dict_get_set_other by discriminate.
    apply Student_to_dict_password. }
  intros fresh s d docs s' d' Hd H.
  destruct (add_writes_to_dict _ _ _ _ _ _ Hd H) as [i Hi].
  exists (dict_set "_id" i (Student.to_dict s)). split; [ exact Hi | ].
  split.
  - rewrite dict_get_set_other by discriminate.
    apply Student_to_dict_password.
  - intros k Hk. now apply dict_get_set_other.
Qed.

(** ** Lookups and failures of the store *)

Lemma find_all_false :
  forall (f : dict -> bool) docs,
    (forall doc, In doc docs -> f doc = false) -> find f docs = None.
Proof.
  intros f docs H. induction docs as [ | d docs IH ]; simpl; auto.
  rewrite (H d) by now left. apply IH. intros doc Hd. apply H. now right.
Qed.

Lemma project_drops_email :
  forall doc,
    Student.has_key (project ["_id"; "first_name"; "last_name"] doc) "email"
    = false.
Proof.
  intros doc. unfold Student.has_key, project.
  induction doc as [ | [k v] doc IH ]; simpl; auto.
  destruct (String.eqb_spec k "_id") as [ -> | ]; simpl; auto.
  destruct (String.eqb_spec k "first_name") as [ -> | ]; simpl; auto.
  destruct (String.eqb_spec k "last_name") as [ -> | ]; simpl; auto.
Qed.

Section Lookups.
Context {B : Bcrypt} {P : ParentClass}.

Lemma from_dict_projected :
  forall salt doc,
    Student.from_dict salt
      (Some (project ["_id"; "first_name"; "last_name"] doc)) = Ok None.
Proof.
  intros salt doc. unfold Student.from_dict, Student.call.
  destruct (negb (forallb _ _)); [ reflexivity | ].
  unfold Student.required. simpl forallb.
  rewrite project_drops_email. reflexivity.
Qed.

Lemma hydrate_all_projected :
  forall salt docs,
    Student.hydrate_all salt
      (map (project ["_id"; "first_name"; "last_name"]) docs)
    = Ok (map (fun _ => None) docs).
Proof.
  intros salt docs. induction docs as [ | d docs IH ]; [ reflexivity | ].
  cbn [map Student.hydrate_all]. rewrite from_dict_projected, IH.
  reflexivity.
Qed.

Lemma firstn_map_comm :
  forall (A C : Type) (f : A -> C) n l, firstn n (map f l) = map f (firstn n l).
Proof.
  intros A C f n. induction n as [ | n IH ]; intros [ | x l ]; simpl; auto.
  now rewrite IH.
Qed.

Lemma Student_from_dict_caught :
  forall salt r, exists x, catch (Student.from_dict salt r) any_exn (Ok None) = Ok x.
Proof.
  intros salt r. destruct (Student.from_dict salt r); simpl; eauto.
Qed.

Lemma Student_get_by_email_returns :
  forall salt d x, exists r, Student.get_by_email salt d x = Ok r.
Proof.
  intros salt d x. unfold Student.get_by_email.
  destruct (r <- find_one _ _ ;; _); simpl; eauto.
Qed.

Lemma Student_get_by_id_returns :
  forall salt d x, exists r, Student.get_by_id salt d x = Ok r.
Proof.
  intros salt d x. unfold Student.get_by_id.
  destruct (o <- Bson.ObjectId x ;; _); simpl; eauto.
Qed.

End Lookups.

(** C4, as the code has it.  The lookups by identifier and by email of
    [Student] and [Parent] always return, and return [None] both when the
    store raises (any exception) and when no document has the email or the
    identifier asked for (an identifier that [ObjectId] refuses included).
    [get_by_keyword] returns [None] when the store raises and a list
    otherwise -- the empty list when nothing matches -- so its result does
    tell the two apart.  [activate] and [set_password] always return a
    Boolean, and return [False] when the store raises; [add], for a student
    whose identifier is set, returns [False] when the store raises an
    ordinary exception, and changes neither the object nor the store. *)
Theorem C4_lookups_and_failures :
  forall (B : Bcrypt) (P : ParentClass),
    (forall salt d x,
       (exists r, Student.get_by_id salt d x = Ok r) /\
       (exists r, Student.get_by_email salt d x = Ok r) /\
       (exists r, Parent.get_by_id d x = Ok r) /\
       (exists r, Parent.get_by_email d x = Ok r)) /\
    (forall salt d e x,
       students d = Failing e ->
       Student.get_by_id salt d x = Ok None /\
       Student.get_by_email salt d x = Ok None) /\
    (forall d e x,
       parents d = Failing e ->
       Parent.get_by_id d x = Ok None /\ Parent.get_by_email d x = Ok None) /\
    (forall salt d docs x,
       students d = Avail docs ->
       (forall doc, In doc docs -> by_email x doc = false) ->
       Student.get_by_email salt d x = Ok None) /\
    (forall salt d docs x,
       students d = Avail docs ->
       (forall o doc,
          Bson.ObjectId x = Ok o -> In doc docs -> by_id o doc = false) ->
       Student.get_by_id salt d x = Ok None) /\
    (forall d docs x,
       parents d = Avail docs ->
       (forall doc, In doc docs -> by_email x doc = false) ->
       Parent.get_by_email d x = Ok None) /\
    (forall d docs x,
       parents d = Avail docs ->
       (forall o doc,
          Bson.ObjectId x = Ok o -> In doc docs -> by_id o doc = false) ->
       Parent.get_by_id d x = Ok None) /\
    (forall search salt d e kw,
       students d = Failing e ->
       Student.get_by_keyword search salt d kw = Ok None) /\
    (forall search salt d docs kw,
       students d = Avail docs ->
       Student.get_by_keyword search salt d kw =
         Ok (Some (map (fun _ => None) (firstn 5 (filter (search kw) docs))))) /\
    (forall s d,
       (exists b, snd (Student.activate s d) = Ok b) /\
       (forall e, students d = Failing e ->
          Student.activate s d = ((s, d), Ok false))) /\
    (forall salt p s d,
       (exists b, snd (Student.set_password salt p s d) = Ok b) /\
       (forall e, students d = Failing e ->
          snd (Student.set_password salt p s d) = Ok false)) /\
    (forall fresh s d e i,
       User._id (Student.base s) = Some i ->
       students d = Failing e -> is_Exception e = true ->
       Student.add fresh s d = ((s, d), Ok false)).
Proof.
  intros B P.
  split.
  { intros salt d x. split; [ apply Student_get_by_id_returns | ].
    split; [ apply Student_get_by_email_returns | ].
    split.
    - unfold Parent.get_by_id.
      destruct (o <- Bson.ObjectId x ;; _); simpl; eauto.
    - unfold Parent.get_by_email.
      destruct (r <- find_one _ _ ;; _); simpl; eauto. }
  split.
  { intros salt d e x Hd. split.
    - unfold Student.get_by_id. rewrite Hd.
      destruct (Bson.ObjectId x); reflexivity.
    - unfold Student.get_by_email. rewrite Hd. reflexivity. }
  split.
  { intros d e x Hd. split.
    - unfold Parent.get_by_id. rewrite Hd.
      destruct (Bson.ObjectId x); reflexivity.
    - unfold Parent.get_by_email. rewrite Hd. reflexivity. }
  split.
  { intros salt d docs x Hd Hno. unfold Student.get_by_email, find_one.
    rewrite Hd, (find_all_false _ _ Hno). reflexivity. }
  split.
  { intros salt d docs x Hd Hno. unfold Student.get_by_id, find_one.
    rewrite Hd. destruct (Bson.ObjectId x) as [ o | e ]; simpl; auto.
    rewrite find_all_false; [ reflexivity | ].
    intros doc Hin. now apply Hno. }
  split.
  { intros d docs x Hd Hno. unfold Parent.get_by_email, find_one.
    rewrite Hd, (find_all_false _ _ Hno). reflexivity. }
  split.
  { intros d docs x Hd Hno. unfold Parent.get_by_id, find_one.
    rewrite Hd. destruct (Bson.ObjectId x) as [ o | e ]; simpl; auto.
    rewrite find_all_false; [ reflexivity | ].
    intros doc Hin. now apply Hno. }
  split.
  { intros search salt d e kw Hd. unfold Student.get_by_keyword, aggregate.
    rewrite Hd. reflexivity. }
  split.
  { intros search salt d docs kw Hd. unfold Student.get_by_keyword, aggregate.
    rewrite Hd. cbn [bind].
    rewrite firstn_map_comm, hydrate_all_projected. reflexivity. }
  split.
  { intros s d. split.
    - unfold Student.activate.
      destruct (i <- User.id (Student.base s) ;; _); simpl; eauto.
    - intros e Hd. unfold Student.activate, update. rewrite Hd.
      destruct (User.id (Student.base s)) as [ i | ]; simpl; auto.
      destruct (Bson.ObjectId i); reflexivity. }
  split.
  { intros salt p s d. split.
    - unfold Student.set_password.
      destruct (User.set_password salt (Student.base s) p) as [ u' | ];
        simpl; eauto.
      destruct (i <- User.id u' ;; _); simpl; eauto.
    - intros e Hd. unfold Student.set_password, update. rewrite Hd.
      destruct (User.set_password salt (Student.base s) p) as [ u' | ];
        simpl; auto.
      destruct (User.id u'); reflexivity. }
  intros fresh s d e i Hi Hd He. unfold Student.add, insert_one.
  rewrite Hd, He. unfold User.id. rewrite Hi. reflexivity.
Qed.

(** C4 as stated fails for [get_by_keyword]: with the store available and
    no document matching, it returns a list and not [None]. *)
Lemma C4_counterexample :
  ~ (forall (B : Bcrypt) (search : string -> dict -> bool) (salt : bytes)
            (d : db) (kw : string) (docs : list dict),
       students d = Avail docs ->
       (forall doc, In doc docs -> search kw doc = false) ->
       Student.get_by_keyword search salt d kw = Ok None).
Proof.
  intros H.
  specialize (H Ref.bcrypt (fun _ _ => false) "" Ref.empty_db "ann" []
                eq_refl (fun _ _ => eq_refl)).
  discriminate H.
Qed.

(** ** Adding a submission *)

Lemma update_first_hit :
  forall f ch pre x post x',
    (forall y, In y pre -> f y = false) -> f x = true -> ch x = Ok x' ->
    update_first f ch (pre ++ x :: post) = Ok (pre ++ x' :: post).
Proof.
  intros f ch pre x post x' Hpre Hx Hch.
  induction pre as [ | y pre IH ]; simpl.
  - rewrite Hx, Hch. reflexivity.
  - rewrite (Hpre y) by now left.
    rewrite IH; [ reflexivity | ]. intros z Hz. apply Hpre. now right.
Qed.

Lemma update_first_miss :
  forall f ch docs,
    (forall y, In y docs -> f y = false) -> update_first f ch docs = Ok docs.
Proof.
  intros f ch docs H. induction docs as [ | y docs IH ]; simpl; auto.
  rewrite (H y) by now left.
  rewrite IH; [ reflexivity | ]. intros z Hz. apply H. now right.
Qed.



Section AddSubmission.
Context {S : SubmissionClass}.

Variables (new_id spare_id course_id : string) (s : Student.t).
Variable sub : submission.
Variable d : db.

Let sub' := submission_set_id sub new_id.







Variables (c aid a sid i o : string).
Hypothesis course_id_valid : Bson.ObjectId course_id = Ok c.
Hypothesis assignment_id_str : submission_assignment_id sub' = VStr aid.
Hypothesis assignment_id_valid : Bson.ObjectId aid = Ok a.
Hypothesis submission_id_str : submission_id sub' = VStr sid.
Hypothesis student_id_set : User._id (Student.base s) = Some i.
Hypothesis student_id_valid : Bson.ObjectId i = Ok o.

Variables (cpre cpost : list dict) (cdoc adoc : dict).
Variables (apre apost subs : list value).
Hypothesis courses_are : Mongo.courses d = Avail (cpre ++ cdoc :: cpost).
Hypothesis course_is_first :
  forall x, In x cpre -> by_id c x && has_assignment a x = false.
Hypothesis course_matches : by_id c cdoc = true.
Hypothesis assignments_are :
  dict_get "assignments" cdoc = Some (VList (apre ++ VDict adoc :: apost)).
Hypothesis assignment_is_first :
  forall x, In x apre -> elem_has_id a x = false.
Hypothesis assignment_matches : by_id a adoc = true.
Hypothesis submissions_are : dict_get "submissions" adoc = Some (VList subs).

Variables (spre spost : list dict) (sdoc : dict) (mine : list value).
Hypothesis students_are : students d = Avail (spre ++ sdoc :: spost).
Hypothesis student_is_first : forall x, In x spre -> by_id o x = false.
Hypothesis student_matches : by_id o sdoc = true.
Hypothesis mine_are : dict_get "assignments" sdoc = Some (VList mine).




End AddSubmission.




(** ** Login *)

Lemma lower_char_not_upper : forall c, is_upper (lower_char c) = false.
Proof.
  intros c. destruct c as [[] [] [] [] [] [] [] []]; reflexivity.
Qed.

Lemma lower_char_idempotent : forall c, lower_char (lower_char c) = lower_char c.
Proof.
  intros c. unfold lower_char at 1. now rewrite lower_char_not_upper.
Qed.

Lemma same_letter_lower :
  forall a b, same_letter a b = true -> lower_char a = lower_char b.
Proof.
  intros a b H. unfold same_letter in H.
  apply orb_true_iff in H as [H | H]; [ apply orb_true_iff in H as [H | H] | ].
  - apply Ascii.eqb_eq in H. now subst.
  - apply andb_true_iff in H as [_ H]. apply Ascii.eqb_eq in H. subst b.
    now rewrite lower_char_idempotent.
  - apply andb_true_iff in H as [_ H]. apply Ascii.eqb_eq in H. subst a.
    now rewrite lower_char_idempotent.
Qed.

Lemma differ_only_in_case_lower :
  forall s1 s2, differ_only_in_case s1 s2 = true -> lower s1 = lower s2.
Proof.
  induction s1 as [ | a s1 IH ]; intros [ | b s2 ] H; simpl in H;
    try discriminate; auto.
  apply andb_true_iff in H as [Hab H]. simpl.
  now rewrite (same_letter_lower _ _ Hab), (IH _ H).
Qed.

Lemma lower_has_no_upper : forall s, has_upper (lower s) = false.
Proof.
  induction s as [ | c s IH ]; simpl; auto.
  now rewrite lower_char_not_upper, IH.
Qed.

Lemma by_email_lower_misses_upper :
  forall e doc s,
    dict_get "email" doc = Some (VStr s) -> has_upper s = true ->
    by_email (lower e) doc = false.
Proof.
  intros e doc s Hs Hu. unfold by_email. rewrite Hs.
  destruct (String.eqb_spec s (lower e)) as [ -> | ]; auto.
  rewrite lower_has_no_upper in Hu. discriminate.
Qed.

Section Login.
Context {B : Bcrypt} {R : Roles}.
Variables (salts : scope -> bytes) (d : db).
Variables (email : string) (password remember_me : value).

Let look (sc : scope) := Auth.get_by_email sc (salts sc) d email.
Let probe := Auth.probe salts d email password remember_me.
Let probes (l : list scope) := map (fun sc => Auth.Probe sc email) l.

Lemma probe_all_none :
  forall todo,
    (forall sc, In sc todo -> look sc = Ok None) ->
    probe todo = (probes todo, Ok (Auth.error Auth.no_such_user, 400)).
Proof.
  induction todo as [ | sc todo IH ]; intros H; [ reflexivity | ].
  unfold probe in *. simpl. fold (look sc). rewrite (H sc) by now left.
  rewrite IH; [ reflexivity | ]. intros sc' Hin. apply H. now right.
Qed.

Lemma probe_skips_none :
  forall before rest,
    (forall sc, In sc before -> look sc = Ok None) ->
    probe (before ++ rest)
    = (probes before ++ fst (probe rest), snd (probe rest)).
Proof.
  induction before as [ | sc before IH ]; intros rest H.
  - simpl. now destruct (probe rest).
  - unfold probe in *. simpl. fold (look sc). rewrite (H sc) by now left.
    rewrite IH; [ reflexivity | ]. intros sc' Hin. apply H. now right.
Qed.

Lemma probe_hit_valid :
  forall sc after u,
    look sc = Ok (Some u) -> User.validate_password u password = Ok true ->
    probe (sc :: after)
    = ([Auth.Probe sc email; Auth.LoginUser sc u remember_me],
       info <- Auth.current_user_info sc u ;;
       Ok (Auth.response ["Log in succesful! Redirecting to dashboard..."]
                         info, 200)).
Proof.
  intros sc after u Hl Hv. unfold probe. simpl. fold (look sc).
  rewrite Hl, Hv. reflexivity.
Qed.

Lemma probe_hit_invalid :
  forall sc after u,
    look sc = Ok (Some u) -> User.validate_password u password = Ok false ->
    probe (sc :: after)
    = ([Auth.Probe sc email], Ok (Auth.error Auth.invalid_password, 400)).
Proof.
  intros sc after u Hl Hv. unfold probe. simpl. fold (look sc).
  rewrite Hl, Hv. reflexivity.
Qed.

Lemma probe_no_such_user :
  forall todo,
    snd (probe todo) = Ok (Auth.error Auth.no_such_user, 400) ->
    forall sc, In sc todo -> look sc = Ok None.
Proof.
  induction todo as [ | sc0 todo IH ]; intros H sc Hin; [ destruct Hin | ].
  unfold probe in *. simpl in H. fold (look sc0) in H.
  destruct (look sc0) as [ [ u | ] | e ] eqn:El.
  - exfalso.
    destruct (User.validate_password u password) as [ [ | ] | e ];
      simpl in H; try discriminate.
    destruct (Auth.current_user_info sc0 u); simpl in H; discriminate.
  - destruct Hin as [ <- | Hin ]; [ exact El | ].
    apply IH; auto.
    destruct (Auth.probe salts d email password remember_me todo).
    exact H.
  - discriminate.
Qed.

Lemma probe_events_email :
  forall todo sc x, In (Auth.Probe sc x) (fst (probe todo)) -> x = email.
Proof.
  induction todo as [ | sc0 todo IH ]; intros sc x H; [ destruct H | ].
  unfold probe in *. simpl in H. fold (look sc0) in H.
  destruct (look sc0) as [ [ u | ] | e ].
  - destruct (User.validate_password u password) as [ [ | ] | e ];
      simpl in H; destruct H as [ H | H ]; try (now inversion H);
      try (destruct H as [ H | H ]; [ discriminate | destruct H ]);
      destruct H.
  - destruct (Auth.probe salts d email password remember_me todo) eqn:E.
    simpl in H, IH. destruct H as [ H | H ]; [ now inversion H | eauto ].
  - simpl in H. destruct H as [ H | H ]; [ now inversion H | destruct H ].
Qed.

End Login.

Lemma catch_no_such_user :
  forall r : outcome Auth.reply,
    catch r Auth.handles_missing (Ok (Auth.error Auth.missing_fields, 400))
    = Ok (Auth.error Auth.no_such_user, 400) ->
    r = Ok (Auth.error Auth.no_such_user, 400).
Proof.
  intros [ a | e ] H; simpl in H; [ exact H | ].
  destruct (Auth.handles_missing e); discriminate.
Qed.

Lemma login_post :
  forall (B : Bcrypt) (R : Roles) salts method req d e pw rm,
    String.eqb method "GET" = false ->
    Auth.getitem req "email" = Ok (VStr e) ->
    Auth.getitem req "password" = Ok pw ->
    Auth.getitem req "remember_me" = Ok rm ->
    Auth.login salts None method req d
    = (fst (Auth.probe salts d (lower e) pw rm Auth.scopes),
       catch (snd (Auth.probe salts d (lower e) pw rm Auth.scopes))
             Auth.handles_missing (Ok (Auth.error Auth.missing_fields, 400))).
Proof.
  intros B R salts method req d e pw rm Hm He Hp Hr. unfold Auth.login.
  rewrite Hm, He, Hp, Hr. cbn [bind Auth.call_lower].
  destruct (Auth.probe salts d (lower e) pw rm Auth.scopes). reflexivity.
Qed.

(** C1, as the code has it.  Take a request that is not a GET, from a
    client that is not yet authenticated.  When its body carries an email
    that is a [str], a password and [remember_me], the collections are
    probed with the lower-cased email in the order Student, Teacher, Admin,
    Parent up to the first role whose lookup returns a user.  If the
    password of that user validates, [login_user] is called for that user
    and, the first and last name of the user being [str], the reply is the
    success response with their names (names that are not both [str] end in
    the reply "Not all fields satisfied"); if it does not validate, the
    reply is the invalid-password error with status 400 and no further
    collection is probed.  The reply is the error
    "The user with this email does not exist." exactly when all four
    lookups return [None], and then all four have been probed.  When the
    body has no email, or has an email that is a [str] and no password, or
    has these two and no [remember_me], the reply is
    "Not all fields satisfied" with status 400 and nothing is probed. *)
Theorem C1_login_dispatch :
  forall (B : Bcrypt) (R : Roles) (salts : scope -> bytes) (method : string)
         (req : value) (d : db),
    String.eqb method "GET" = false ->
    let run := Auth.login salts None method req d in
    (forall (e : string) (pw rm : value),
       Auth.getitem req "email" = Ok (VStr e) ->
       Auth.getitem req "password" = Ok pw ->
       Auth.getitem req "remember_me" = Ok rm ->
       let look sc := Auth.get_by_email sc (salts sc) d (lower e) in
       let probes l := map (fun sc => Auth.Probe sc (lower e)) l in
       ((forall sc, In sc Auth.scopes -> look sc = Ok None) <->
        snd run
        = Ok (Auth.error "The user with this email does not exist.", 400)) /\
       ((forall sc, In sc Auth.scopes -> look sc = Ok None) ->
        fst run = probes [Student_; Teacher_; Admin_; Parent_]) /\
       (forall before sc after u,
          [Student_; Teacher_; Admin_; Parent_] = before ++ sc :: after ->
          (forall sc', In sc' before -> look sc' = Ok None) ->
          look sc = Ok (Some u) ->
          (User.validate_password u pw = Ok true ->
           fst run = probes before ++
                     [Auth.Probe sc (lower e); Auth.LoginUser sc u rm] /\
           (forall f l,
              User._first_name u = VStr f -> User._last_name u = VStr l ->
              snd run =
                Ok (Auth.response
                      ["Log in succesful! Redirecting to dashboard..."]
                      [("userName", VStr ((f ++ " ") ++ l)%string);
                       ("userType", VStr (Auth.scope_name sc));
                       ("loggedIn", VBool true); ("dob", VStr "")],
                    200)) /\
           (forall info,
              Auth.current_user_info sc u = Ok info ->
              snd run =
                Ok (Auth.response
                      ["Log in succesful! Redirecting to dashboard..."] info,
                    200)) /\
           (is_str (User._first_name u) && is_str (User._last_name u) = false ->
            snd run = Ok (Auth.error "Not all fields satisfied", 400))) /\
          (User.validate_password u pw = Ok false ->
           run = (probes (before ++ [sc]),
                  Ok (Auth.error Auth.invalid_password, 400))))) /\
    (Auth.getitem req "email" = Raise KeyError \/
     (exists e,
        Auth.getitem req "email" = Ok (VStr e) /\
        (Auth.getitem req "password" = Raise KeyError \/
         (exists pw,
            Auth.getitem req "password" = Ok pw /\
            Auth.getitem req "remember_me" = Raise KeyError))) ->
     run = ([], Ok (Auth.error "Not all fields satisfied", 400))).
Proof.
  intros B R salts method req d Hm run. split.
  - intros e pw rm He Hp Hr look probes.
    unfold run.
    rewrite (login_post B R salts method req d e pw rm Hm He Hp Hr).
    cbn [fst snd].
    split; [ split | split ].
    + intros H. rewrite probe_all_none by exact H. reflexivity.
    + intros H. apply catch_no_such_user in H.
      eapply probe_no_such_user; eauto.
    + intros H. rewrite probe_all_none by exact H. reflexivity.
    + intros before sc after u Hsplit Hbefore Hlook.
      change [Student_; Teacher_; Admin_; Parent_] with Auth.scopes in Hsplit.
      rewrite Hsplit. rewrite probe_skips_none by exact Hbefore.
      cbn [fst snd]. split; intros Hv.
      * rewrite (probe_hit_valid salts d (lower e) pw rm sc after u Hlook Hv).
        cbn [fst snd]. split; [ reflexivity | ]. split; [ | split ].
        -- intros f l Hf Hl. unfold Auth.current_user_info.
           rewrite Hf, Hl. reflexivity.
        -- intros info Hinfo. rewrite Hinfo. reflexivity.
        -- intros Hnames. unfold Auth.current_user_info.
           destruct (User._first_name u); try reflexivity.
           destruct (User._last_name u); try reflexivity.
           discriminate Hnames.
      * rewrite (probe_hit_invalid salts d (lower e) pw rm sc after u Hlook Hv).
        cbn [fst snd catch]. unfold probes. rewrite map_app. reflexivity.
  - intros H. unfold run, Auth.login. rewrite Hm.
    destruct H as [ He | [e [He [ Hp | [pw [Hp Hr]] ]]] ].
    + rewrite He. reflexivity.
    + rewrite He, Hp. reflexivity.
    + rewrite He, Hp, Hr. reflexivity.
Qed.

(** The theorem at work on the store [Ref.school]: a request with the
    email in capitals and the password the student has, and a request
    without [remember_me]. *)
Lemma C1_witness :
  let req := VDict [("email", VStr "ANN@school.io"); ("password", VStr "");
                    ("remember_me", VBool true)] in
  let short := VDict [("email", VStr "ANN@school.io"); ("password", VStr "")] in
  String.eqb "POST" "GET" = false /\
  Auth.getitem req "email" = Ok (VStr "ANN@school.io") /\
  fst (Auth.login (H := Ref.bcrypt) (H0 := Ref.roles (H := Ref.bcrypt))
         Ref.no_salt None "POST" req Ref.school)
  = [Auth.Probe Student_ "ann@school.io";
     Auth.LoginUser Student_
       (User.mk (Some "5f2d4a7b9c1e3a0012345678") "$2b$" "ann@school.io"
          (VStr "Ann") (VStr "Lee") User.default_bio
          User.default_date_of_birth "" false)
       (VBool true)] /\
  snd (Auth.login (H := Ref.bcrypt) (H0 := Ref.roles (H := Ref.bcrypt))
         Ref.no_salt None "POST" req Ref.school)
  = Ok (Auth.response ["Log in succesful! Redirecting to dashboard..."]
          [("userName", VStr "Ann Lee"); ("userType", VStr "Student");
           ("loggedIn", VBool true); ("dob", VStr "")], 200) /\
  Auth.login (H := Ref.bcrypt) (H0 := Ref.roles (H := Ref.bcrypt))
    Ref.no_salt None "POST" short Ref.school
  = ([], Ok (Auth.error "Not all fields satisfied", 400)).
Proof.
  intros req short.
  split; [ reflexivity | split; [ reflexivity | ] ].
  pose proof (proj2 (proj2 (proj1
    (C1_login_dispatch Ref.bcrypt (Ref.roles (H := Ref.bcrypt)) Ref.no_salt
       "POST" req Ref.school eq_refl)
    "ANN@school.io" (VStr "") (VBool true) eq_refl eq_refl eq_refl))
    [] Student_ [Teacher_; Admin_; Parent_] _ eq_refl
    (fun sc' (H : In sc' []) => match H with end) eq_refl) as [Hhit _].
  destruct (Hhit eq_refl) as [Hev [Hreply _]].
  split; [ exact Hev | ].
  split; [ exact (Hreply "Ann" "Lee" eq_refl eq_refl) | ].
  apply (proj2
    (C1_login_dispatch Ref.bcrypt (Ref.roles (H := Ref.bcrypt)) Ref.no_salt
       "POST" short Ref.school eq_refl)).
  right. exists "ANN@school.io". split; [ reflexivity | ].
  right. exists (VStr ""). split; reflexivity.
Defined.

(** C1 as stated fails: a request that carries an email and a password
    but no [remember_me] is answered with "Not all fields satisfied" before
    any collection is probed, although all four lookups would return
    [None]. *)
Lemma C1_counterexample :
  ~ (forall (B : Bcrypt) (R : Roles) (salts : scope -> bytes) (req : value)
            (d : db) (e p : string),
       Auth.getitem req "email" = Ok (VStr e) ->
       Auth.getitem req "password" = Ok (VStr p) ->
       (forall sc, In sc Auth.scopes ->
          Auth.get_by_email sc (salts sc) d (lower e) = Ok None) ->
       snd (Auth.login salts None "POST" req d)
       = Ok (Auth.error "The user with this email does not exist.", 400)).
Proof.
  intros H.
  specialize (H Ref.bcrypt (Ref.roles (H := Ref.bcrypt)) Ref.no_salt
                (VDict [("email", VStr "bob@school.io");
                        ("password", VStr "hunter2")])
                Ref.empty_db "bob@school.io" "hunter2" eq_refl eq_refl).
  assert (Hnone : forall sc, In sc Auth.scopes ->
            Auth.get_by_email (H := Ref.bcrypt)
              (H0 := Ref.roles (H := Ref.bcrypt)) sc
              (Ref.no_salt sc) Ref.empty_db (lower "bob@school.io") = Ok None).
  { intros sc _. destruct sc; reflexivity. }
  specialize (H Hnone). discriminate H.
Qed.

(** *** The email of a request as any text *)

Lemma to_string_of_string :
  forall s, Unicode.to_string (Unicode.of_string s) = Some s.
Proof.
  induction s as [ | c s IH ]; [ reflexivity | ].
  cbn [Unicode.of_string Unicode.to_string]. unfold code.
  pose proof (N_ascii_bounded c) as Hc. apply N.ltb_lt in Hc.
  rewrite Hc, IH, ascii_N_embedding. reflexivity.
Qed.

(** On code points below 256 [str.lower] is [lower]. *)
Lemma lower_of_string :
  forall (T : Unicode.Tables),
    (forall a, Unicode.ToLowerFull (code a) = [code (lower_char a)]) ->
    forall s, Unicode.lower (Unicode.of_string s) = Unicode.of_string (lower s).
Proof.
  intros T HT s. unfold Unicode.lower. generalize (@nil N) as before.
  induction s as [ | c s IH ]; intros before; [ reflexivity | ].
  cbn [Unicode.of_string Unicode.lower_from lower].
  assert (Hc : (code c =? Unicode.capital_sigma)%N = false).
  { apply N.eqb_neq. pose proof (N_ascii_bounded c) as Hb.
    unfold code, Unicode.capital_sigma. lia. }
  rewrite Hc, HT, IH. reflexivity.
Qed.

Section LoginLookups.
Context {B : Bcrypt} {R : Roles} {L : Unicode.Lookups}.
Variables (salts : scope -> bytes) (d : db).
Hypothesis lookup_in_store :
  forall sc s,
    Unicode.lookup sc (Unicode.of_string s)
    = Auth.get_by_email sc (salts sc) d s.

Lemma probes_of_probe :
  forall email pw rm todo,
    Unicode.probes_of (fst (Auth.probe salts d email pw rm todo))
    = Unicode.asked (Unicode.of_string email) todo.
Proof.
  intros email pw rm. induction todo as [ | sc todo IH ]; [ reflexivity | ].
  cbn [Auth.probe Unicode.asked]. rewrite lookup_in_store.
  destruct (Auth.get_by_email sc (salts sc) d email) as [ [ u | ] | e ].
  - destruct (User.validate_password u pw) as [ [ | ] | e ]; reflexivity.
  - destruct (Auth.probe salts d email pw rm todo) as [events r].
    cbn [fst Unicode.probes_of] in *. now rewrite IH.
  - reflexivity.
Qed.

End LoginLookups.

Lemma probe_student_first :
  forall (B : Bcrypt) (R : Roles) salts d email pw rm,
    exists rest,
      fst (Auth.probe salts d email pw rm Auth.scopes)
      = Auth.Probe Student_ email :: rest.
Proof.
  intros B R salts d email pw rm. unfold Auth.scopes.
  generalize [Teacher_; Admin_; Parent_] as todo. intros todo.
  cbn [Auth.probe].
  destruct (Auth.get_by_email Student_ (salts Student_) d email)
    as [ [ u | ] | e ].
  - destruct (User.validate_password u pw) as [ [ | ] | e ];
      eexists; reflexivity.
  - destruct (Auth.probe salts d email pw rm todo).
    eexists; reflexivity.
  - eexists; reflexivity.
Qed.

(** C10, as the code has it.  Every lookup that [login] makes is made
    with the lower-cased email of the request, and a request that reaches
    the loop does look up: the Student collection first, with the
    lower-cased email.  Two requests whose emails have the same lower-case
    form, and that agree on the password and on [remember_me], make the
    same lookups and get the same reply; among the emails made of code
    points below 256 these are all the emails that differ only in letter
    case.  No lookup of [login] selects a document whose stored email
    contains a capital letter of that range.  The lookups are those of the
    loop run on [str.lower] of the email as a text of any code points. *)
Theorem C10_login_lowercases_email :
  forall (B : Bcrypt) (R : Roles) (salts : scope -> bytes)
         (current_user : option (scope * User.t)) (method : string) (d : db),
    (forall req sc x,
       In (Auth.Probe sc x) (fst (Auth.login salts current_user method req d)) ->
       exists e, Auth.getitem req "email" = Ok (VStr e) /\ x = lower e) /\
    (forall req1 req2 e1 e2,
       Auth.getitem req1 "email" = Ok (VStr e1) ->
       Auth.getitem req2 "email" = Ok (VStr e2) ->
       differ_only_in_case e1 e2 = true ->
       Auth.getitem req1 "password" = Auth.getitem req2 "password" ->
       Auth.getitem req1 "remember_me" = Auth.getitem req2 "remember_me" ->
       Auth.login salts current_user method req1 d
       = Auth.login salts current_user method req2 d) /\
    (forall req sc x doc s,
       In (Auth.Probe sc x) (fst (Auth.login salts current_user method req d)) ->
       dict_get "email" doc = Some (VStr s) -> has_upper s = true ->
       by_email x doc = false) /\
    (forall c e doc s,
       find_one c (by_email (lower e)) = Ok (Some doc) ->
       dict_get "email" doc = Some (VStr s) -> has_upper s = false) /\
    (forall req e pw rm,
       String.eqb method "GET" = false ->
       Auth.getitem req "email" = Ok (VStr e) ->
       Auth.getitem req "password" = Ok pw ->
       Auth.getitem req "remember_me" = Ok rm ->
       exists rest,
         fst (Auth.login salts None method req d)
         = Auth.Probe Student_ (lower e) :: rest) /\
    (forall req1 req2 e1 e2,
       Auth.getitem req1 "email" = Ok (VStr e1) ->
       Auth.getitem req2 "email" = Ok (VStr e2) ->
       lower e1 = lower e2 ->
       Auth.getitem req1 "password" = Auth.getitem req2 "password" ->
       Auth.getitem req1 "remember_me" = Auth.getitem req2 "remember_me" ->
       Auth.login salts current_user method req1 d
       = Auth.login salts current_user method req2 d) /\
    (forall (T : Unicode.Tables) (L : Unicode.Lookups) req e pw rm,
       (forall a, Unicode.ToLowerFull (code a) = [code (lower_char a)]) ->
       (forall sc s,
          Unicode.lookup sc (Unicode.of_string s)
          = Auth.get_by_email sc (salts sc) d s) ->
       String.eqb method "GET" = false ->
       Auth.getitem req "email" = Ok (VStr e) ->
       Auth.getitem req "password" = Ok pw ->
       Auth.getitem req "remember_me" = Ok rm ->
       Unicode.probes_of (fst (Auth.login salts None method req d))
       = Unicode.login_lookups (Unicode.of_string e)).
Proof.
  intros B R salts current_user method d.
  assert (Hprobe : forall req sc x,
    In (Auth.Probe sc x) (fst (Auth.login salts current_user method req d)) ->
    exists e, Auth.getitem req "email" = Ok (VStr e) /\ x = lower e).
  { intros req sc x H. unfold Auth.login in H.
    destruct current_user as [ [sc0 u] | ]; [ destruct H | ].
    destruct (String.eqb method "GET"); [ destruct H | ].
    destruct (Auth.getitem req "email") as [ v | ]; [ | destruct H ].
    destruct v; try (destruct H).
    cbn [bind Auth.call_lower] in H.
    destruct (Auth.getitem req "password") as [ pw | ]; [ | destruct H ].
    destruct (Auth.getitem req "remember_me") as [ rm | ]; [ | destruct H ].
    cbn [bind] in H.
    destruct (Auth.probe salts d (lower s) pw rm Auth.scopes) as [ev r] eqn:E.
    exists s. split; [ reflexivity | ].
    apply (probe_events_email salts d (lower s) pw rm Auth.scopes sc x).
    rewrite E. exact H. }
  assert (Hsame : forall req1 req2 e1 e2,
    Auth.getitem req1 "email" = Ok (VStr e1) ->
    Auth.getitem req2 "email" = Ok (VStr e2) ->
    lower e1 = lower e2 ->
    Auth.getitem req1 "password" = Auth.getitem req2 "password" ->
    Auth.getitem req1 "remember_me" = Auth.getitem req2 "remember_me" ->
    Auth.login salts current_user method req1 d
    = Auth.login salts current_user method req2 d).
  { intros req1 req2 e1 e2 H1 H2 Hlow Hp Hr. unfold Auth.login.
    rewrite H1, H2, Hp, Hr. cbn [bind Auth.call_lower].
    rewrite Hlow. reflexivity. }
  split; [ exact Hprobe | ].
  split; [ | split; [ | split; [ | split; [ | split ] ] ] ].
  - intros req1 req2 e1 e2 H1 H2 Hcase.
    apply (Hsame req1 req2 e1 e2 H1 H2).
    exact (differ_only_in_case_lower _ _ Hcase).
  - intros req sc x doc s Hin Hs Hu.
    destruct (Hprobe req sc x Hin) as [e [_ ->]].
    eapply by_email_lower_misses_upper; eauto.
  - intros c e doc s Hf Hs. destruct c as [ docs | ex ]; simpl in Hf;
      [ | discriminate ].
    inversion Hf as [Hfind]. apply find_some in Hfind as [_ Hby].
    destruct (has_upper s) eqn:Hu; auto.
    rewrite (by_email_lower_misses_upper e doc s Hs Hu) in Hby.
    discriminate.
  - intros req e pw rm Hm He Hp Hr.
    rewrite (login_post B R salts method req d e pw rm Hm He Hp Hr).
    cbn [fst]. apply probe_student_first.
  - exact Hsame.
  - intros T L req e pw rm HT HL Hm He Hp Hr.
    rewrite (login_post B R salts method req d e pw rm Hm He Hp Hr).
    cbn [fst]. unfold Unicode.login_lookups.
    rewrite (lower_of_string T HT).
    apply probes_of_probe. exact HL.
Qed.

(** C10 as stated fails outside the code points below 256.  The emails
    [ΑΣ@x.io] and [ασ@x.io] differ only in letter case, and [str.lower]
    turns the capital sigma of the first, which ends a word, into the final
    small sigma: the first lookup of [login] is made with another text for
    each.  The entries of the character database that this rests on are the
    hypotheses; [Sample.tables] has them. *)
Lemma C10_counterexample :
  let e1 := [913; 931; 64; 120; 46; 105; 111]%N in
  let e2 := [945; 963; 64; 120; 46; 105; 111]%N in
  (forall (T : Unicode.Tables) (L : Unicode.Lookups),
     Unicode.ToLowerFull 913 = [945]%N ->
     Unicode.ToLowerFull 931 = [963]%N ->
     Unicode.ToLowerFull 945 = [945]%N ->
     Unicode.ToLowerFull 963 = [963]%N ->
     Unicode.IsCaseIgnorable 913 = false -> Unicode.IsCased 913 = true ->
     Unicode.IsCaseIgnorable 64 = false -> Unicode.IsCased 64 = false ->
     Unicode.differ_only_in_case e1 e2 = true /\
     Unicode.login_lookups e1 <> Unicode.login_lookups e2) /\
  ~ (forall (T : Unicode.Tables) (L : Unicode.Lookups) (t1 t2 : Unicode.text),
       Unicode.differ_only_in_case t1 t2 = true ->
       Unicode.login_lookups t1 = Unicode.login_lookups t2).
Proof.
  intros e1 e2.
  assert (G : forall (T : Unicode.Tables) (L : Unicode.Lookups),
     Unicode.ToLowerFull 913 = [945]%N ->
     Unicode.ToLowerFull 931 = [963]%N ->
     Unicode.ToLowerFull 945 = [945]%N ->
     Unicode.ToLowerFull 963 = [963]%N ->
     Unicode.IsCaseIgnorable 913 = false -> Unicode.IsCased 913 = true ->
     Unicode.IsCaseIgnorable 64 = false -> Unicode.IsCased 64 = false ->
     Unicode.differ_only_in_case e1 e2 = true /\
     Unicode.login_lookups e1 <> Unicode.login_lookups e2).
  { intros T L A1 S1 A2 S2 I1 C1 I2 C2. split.
    - unfold e1, e2.
      cbn [Unicode.differ_only_in_case]. unfold Unicode.same_letter.
      rewrite A1, S1. reflexivity.
    - unfold Unicode.login_lookups, Auth.scopes. cbn [Unicode.asked].
      intros H0. injection H0. intros _ H. clear H0.
      unfold Unicode.lower, e1, e2 in H.
      cbn [Unicode.lower_from] in H.
      change ((913 =? Unicode.capital_sigma)%N) with false in H.
      change ((931 =? Unicode.capital_sigma)%N) with true in H.
      change ((945 =? Unicode.capital_sigma)%N) with false in H.
      change ((963 =? Unicode.capital_sigma)%N) with false in H.
      unfold Unicode.final_sigma in H.
      cbn [Unicode.first_not_ignorable] in H.
      rewrite A1, A2, S2, I1, C1, I2, C2 in H.
      cbn [app andb negb] in H.
      discriminate H. }
  split; [ exact G | ].
  intros H.
  destruct (G Sample.tables
              {| Unicode.lookup := fun _ _ => Ok None |}
              eq_refl eq_refl eq_refl eq_refl eq_refl eq_refl eq_refl eq_refl)
    as [Hd Hne].
  exact (Hne (H _ _ e1 e2 Hd)).
Qed.

(** ** The theorems at work on concrete objects *)

(** The hashes of the stand-in for [werkzeug] have the shape that the
    earlier class looks for. *)
Lemma Ref_werkzeug_format :
  forall q r,
    re_match Legacy.hash_re
      (generate_password_hash (Werkzeug := Ref.werkzeug) q r) = true.
Proof.
  intros q r.
  change (re_match Legacy.hash_re (String.append "pbkdf2:sha256:1$s$h" q)
          = true).
  apply re_match_app. reflexivity.
Qed.

Lemma fit_length : forall n s, String.length (Sample.fit n s) = n.
Proof.
  induction n as [ | n IH ]; intros s; [ reflexivity | ].
  destruct s; simpl; now rewrite IH.
Qed.

Lemma append_length :
  forall a b,
    String.length (String.append a b) = String.length a + String.length b.
Proof.
  induction a as [ | c a IH ]; intros b; simpl; auto.
Qed.

(** The hashes of the stand-in [Sample.bcrypt60] have the shape of a
    hash. *)
Lemma bcrypt60_shape :
  forall pw salt h,
    hashpw (Bcrypt := Sample.bcrypt60) pw salt = Ok h ->
    User.looks_hashed h = true.
Proof.
  assert (G : forall pw,
             User.looks_hashed (String.append "$2b$" (Sample.fit 56 pw))
             = true).
  { intros pw. unfold User.looks_hashed.
    rewrite append_length, fit_length. reflexivity. }
  intros pw salt h H. injection H as <-. apply G.
Qed.

(** The stand-in [Ref.bcrypt] never returns the password it was given. *)
Lemma Ref_bcrypt_changes :
  forall pw salt h, hashpw (Bcrypt := Ref.bcrypt) pw salt = Ok h -> h <> pw.
Proof.
  intros pw salt h H Heq. subst h.
  assert (E : String.append "$2b$" pw = pw) by (injection H as H; exact H).
  apply (f_equal String.length) in E. rewrite append_length in E.
  simpl in E. lia.
Qed.

Lemma C2_witness :
  (re_match Legacy.hash_re "tea" = false /\
   Legacy.password_hash
     (Legacy.with_password_hash (Legacy.init VNone VNone VNone VNone VNone)
        "pbkdf2:sha256:1$s$htea")
   <> Some "tea") /\
  (User.looks_hashed (encode_utf8 "tea") = false /\
   User._password
     (User.with_password Ref.ann
        "$2b$tea.....................................................")
   <> encode_utf8 "tea") /\
  User._password (User.with_password Ref.ann "$2b$tea") <> encode_utf8 "tea".
Proof.
  split; [ | split ].
  - split; [ reflexivity | ].
    exact (proj2
      (proj1 (proj2 (proj2 (proj2 (proj2 (proj2 (proj2 (proj2
        (C2_password_stored_hashed Ref.bcrypt Ref.werkzeug))))))))
        "" (Legacy.init VNone VNone VNone VNone VNone) "tea" _
        eq_refl eq_refl)
      Ref_werkzeug_format).
  - split; [ reflexivity | ].
    exact (proj1
      (proj1 (proj2 (proj2 (proj2 (proj2
        (C2_password_stored_hashed Sample.bcrypt60 Ref.werkzeug)))))
        bcrypt60_shape "" "tea" eq_refl)
      Ref.ann _ eq_refl).
  - exact (proj1
      (proj1 (proj2 (proj2 (proj2 (proj2 (proj2
        (C2_password_stored_hashed Ref.bcrypt Ref.werkzeug))))))
        Ref_bcrypt_changes "" "tea")
      Ref.ann _ eq_refl).
Defined.

Lemma C3_witness :
  User.email_matches
    (User._email
       (Ops.run (H := Ref.bcrypt)
          [Ops.SetEmail (VStr "not an email"); Ops.SetBio (VStr "");
           Ops.SetEmail (VStr "ann.lee@school.io")]
          Ref.ann))
  = true.
Proof.
  refine (proj2 (proj2 (proj2 (proj2 (proj2 (proj2
    (C3_assignment_validation Ref.bcrypt Ref.ann))))))
    "" (VStr "ann@school.io") (VStr "Ann") (VStr "Lee") VNone VNone VNone
    (VStr "5f2d4a7b9c1e3a0012345678") (VStr "secret") VNone
    Ref.ann _ _).
  vm_compute. reflexivity.
Defined.

Lemma C4_witness :
  students (with_students Ref.school (Failing StoreError)) = Failing StoreError /\
  Student.get_by_email (H := Ref.bcrypt) ""
    (with_students Ref.school (Failing StoreError)) "ann@school.io" = Ok None /\
  Student.get_by_email (H := Ref.bcrypt) "" Ref.school "bob@school.io" = Ok None /\
  Student.get_by_id (H := Ref.bcrypt) ""
    (with_students Ref.school (Failing StoreError)) "5f2d4a7b9c1e3a0012345678"
    = Ok None /\
  Student.get_by_id (H := Ref.bcrypt) "" Ref.school "5f2d4a7b9c1e3a0012345679"
    = Ok None /\
  Student.get_by_id (H := Ref.bcrypt) "" Ref.school "ann" = Ok None.
Proof.
  split; [ reflexivity | ].
  split; [ | split; [ | split; [ | split ] ] ].
  - refine (proj2 (proj1 (proj2
      (C4_lookups_and_failures Ref.bcrypt Ref.parents_as_dicts))
      "" (with_students Ref.school (Failing StoreError)) StoreError
      "ann@school.io" eq_refl)).
  - refine (proj1 (proj2 (proj2 (proj2
      (C4_lookups_and_failures Ref.bcrypt Ref.parents_as_dicts))))
      "" Ref.school _ "bob@school.io" eq_refl _).
    intros doc [ <- | [] ]. reflexivity.
  - refine (proj1 (proj1 (proj2
      (C4_lookups_and_failures Ref.bcrypt Ref.parents_as_dicts))
      "" (with_students Ref.school (Failing StoreError)) StoreError
      "5f2d4a7b9c1e3a0012345678" eq_refl)).
  - refine (proj1 (proj2 (proj2 (proj2 (proj2
      (C4_lookups_and_failures Ref.bcrypt Ref.parents_as_dicts)))))
      "" Ref.school _ "5f2d4a7b9c1e3a0012345679" eq_refl _).
    intros o doc Ho [ <- | [] ]. inversion Ho. reflexivity.
  - refine (proj1 (proj2 (proj2 (proj2 (proj2
      (C4_lookups_and_failures Ref.bcrypt Ref.parents_as_dicts)))))
      "" Ref.school _ "ann" eq_refl _).
    intros o doc Ho. discriminate Ho.
Defined.

Lemma C5_witness :
  Bson.ObjectId "5f2d4a7b9c1e3a0012345678" = Ok "5f2d4a7b9c1e3a0012345678" /\
  User._id
    (Student.base
       (fst (fst (Student.add "5f2d4a7b9c1e3a0012345679" Ref.ann_student
                    Ref.school))))
  = Some "5f2d4a7b9c1e3a0012345678".
Proof.
  split; [ reflexivity | ].
  exact (proj1 (proj2 (proj2 (proj2 (proj2 (proj2
    (C5_identifier_kept Ref.bcrypt Ref.werkzeug))))))
    "5f2d4a7b9c1e3a0012345679" Ref.ann_student Ref.school
    "5f2d4a7b9c1e3a0012345678" eq_refl eq_refl).
Defined.

Lemma C9_witness :
  User._password (Student.base Ref.ann_student) = "$2b$secret" /\
  (exists s',
     Student.from_dict (H := Ref.bcrypt) "salt"
       (Some (Student.to_dict Ref.ann_student)) = Ok (Some s') /\
     User._password (Student.base s') = "$2b$") /\
  User._password (Student.base Sample.bea) = "$2b$pw" /\
  snd (Student.add "5f2d4a7b9c1e3a0012345671" Sample.bea Ref.school) = Ok true /\
  students
    (snd (fst (Student.add "5f2d4a7b9c1e3a0012345671" Sample.bea Ref.school)))
  = Avail [[("_id", VOid "5f2d4a7b9c1e3a0012345678");
            ("email", VStr "ann@school.io"); ("first_name", VStr "Ann");
            ("last_name", VStr "Lee"); ("password", VStr "");
            ("assignments", VList [])];
           [("email", VStr "bea@school.io"); ("first_name", VStr "Bea");
            ("last_name", VStr "Poe"); ("password", VStr "");
            ("activated", VBool false); ("courses", VList [VStr "history"]);
            ("assignments", VList []);
            ("_id", VOid "5f2d4a7b9c1e3a0012345671")]].
Proof.
  split; [ reflexivity | ].
  split.
  { exact (proj1 (proj2 (proj2 (proj2 (proj2
      (C9_to_dict_blank_password Ref.bcrypt)))))
      "salt" Ref.ann_student "$2b$" eq_refl eq_refl). }
  split; [ reflexivity | ].
  pose proof (proj1 (proj2 (proj2 (proj2 (proj2 (proj2
      (C9_to_dict_blank_password Ref.bcrypt))))))
      "5f2d4a7b9c1e3a0012345671" Sample.bea Ref.school _ eq_refl eq_refl)
    as [Hr [Hs _]].
  split; [ exact Hr | exact Hs ].
Defined.

(** [Sample.tables] has the code points below 256 as [lower_char] has
    them, and [Sample.lookups] looks up in the store. *)
Lemma Sample_tables_below_256 :
  forall a,
    Unicode.ToLowerFull (Tables := Sample.tables) (code a)
    = [code (lower_char a)].
Proof.
  intros a. cbn [Unicode.ToLowerFull Sample.tables]. unfold code.
  pose proof (N_ascii_bounded a) as Ha. apply N.ltb_lt in Ha.
  rewrite Ha, ascii_N_embedding. reflexivity.
Qed.

Lemma Sample_lookups_in_store :
  forall (B : Bcrypt) (R : Roles) salts d sc s,
    Unicode.lookup (Lookups := Sample.lookups salts d) sc (Unicode.of_string s)
    = Auth.get_by_email sc (salts sc) d s.
Proof.
  intros B R salts d sc s. cbn [Unicode.lookup Sample.lookups].
  rewrite to_string_of_string. reflexivity.
Qed.

Lemma C10_witness :
  let req e := VDict [("email", VStr e); ("password", VStr "");
                      ("remember_me", VBool false)] in
  let run e :=
    Auth.login (H := Ref.bcrypt) (H0 := Ref.roles (H := Ref.bcrypt))
      Ref.no_salt None "POST" (req e) Ref.school in
  (differ_only_in_case "Ann@School.IO" "ann@school.io" = true /\
   run "Ann@School.IO" = run "ann@school.io") /\
  (exists rest,
     fst (run "Ann@School.IO") = Auth.Probe Student_ "ann@school.io" :: rest) /\
  Unicode.probes_of (fst (run "Ann@School.IO"))
  = Unicode.login_lookups (H := Sample.tables)
      (H0 := Sample.lookups (H := Ref.bcrypt)
               (H0 := Ref.roles (H := Ref.bcrypt)) Ref.no_salt Ref.school)
      (Unicode.of_string "Ann@School.IO").
Proof.
  intros req run.
  pose proof (C10_login_lowercases_email Ref.bcrypt
                (Ref.roles (H := Ref.bcrypt)) Ref.no_salt None "POST"
                Ref.school) as [_ [Hcase [_ [_ [Hfirst [_ Hlook]]]]]].
  split; [ split; [ reflexivity | ] | split ].
  - exact (Hcase (req "Ann@School.IO") (req "ann@school.io") "Ann@School.IO"
             "ann@school.io" eq_refl eq_refl eq_refl eq_refl eq_refl).
  - exact (Hfirst (req "Ann@School.IO") "Ann@School.IO" (VStr "")
             (VBool false) eq_refl eq_refl eq_refl eq_refl).
  - exact (Hlook Sample.tables
             (Sample.lookups (H := Ref.bcrypt)
                (H0 := Ref.roles (H := Ref.bcrypt)) Ref.no_salt Ref.school)
             (req "Ann@School.IO") "Ann@School.IO" (VStr "") (VBool false)
             Sample_tables_below_256
             (Sample_lookups_in_store Ref.bcrypt (Ref.roles (H := Ref.bcrypt))
                Ref.no_salt Ref.school)
             eq_refl eq_refl eq_refl eq_refl).
Defined.

(** ** Runs on concrete inputs *)

Example email_pattern_examples :
  User.email_matches "ann@school.io" = true /\
  User.email_matches "Ann.Lee@school.example.com" = true /\
  User.email_matches "ann@school" = false /\
  User.email_matches "ann@school.toolong" = false /\
  User.email_matches "a b@c.io" = false /\
  User.email_matches "" = false.
Proof. vm_compute. repeat split. Qed.

Example bio_pattern_examples :
  User.bio_matches "hello" = true /\
  User.bio_matches "x|" = true /\
  User.bio_matches "|x" = false /\
  User.bio_matches "" = false.
Proof. vm_compute. repeat split. Qed.

Example hash_pattern_examples :
  re_match Legacy.hash_re "pbkdf2:sha256:150000$salt$ffff" = true /\
  re_match Legacy.hash_re "pbkdf2:sha256:a$b$c" = true /\
  re_match Legacy.hash_re "pbkdf2:sha256:a$$c" = false /\
  re_match Legacy.hash_re "secret" = false.
Proof. vm_compute. repeat split. Qed.

Example date_of_birth_wrong_type :
  User.set_date_of_birth Ref.ann (VInt 3) = Raise NameError /\
  User.set_bio Ref.ann (VInt 3) = Raise InvalidTypeException.
Proof. split; reflexivity. Qed.

(** [remove] returns [True] or ends in [NameError]; it never returns
    [False]. *)
Lemma remove_never_returns_False :
  forall s d, snd (Student.remove s d) <> Ok false.
Proof.
  intros s d. unfold Student.remove.
  destruct (i <- User.id (Student.base s) ;; _); simpl; discriminate.
Qed.

(** [add] on a student whose identifier was never set, while the store
    raises: the handler reads [self.id] and ends in [AttributeError]. *)
Lemma add_without_id_on_failing_store :
  forall fresh s d e,
    User._id (Student.base s) = None ->
    students d = Failing e -> is_Exception e = true ->
    Student.add fresh s d = ((s, d), Raise AttributeError).
Proof.
  intros fresh s d e Hi Hd He. unfold Student.add, insert_one.
  rewrite Hd, He. unfold User.id. rewrite Hi. reflexivity.
Qed.

Example remove_on_failing_store :
  Student.remove Ref.ann_student
    (with_students Ref.school (Failing StoreError))
  = (with_students Ref.school (Failing StoreError), Raise NameError).
Proof. reflexivity. Qed.

Example login_wrong_password :
  Auth.login (H := Ref.bcrypt) (H0 := Ref.roles (H := Ref.bcrypt))
    Ref.no_salt None "POST"
    (VDict [("email", VStr "Ann@School.io"); ("password", VStr "x");
            ("remember_me", VBool false)])
    Ref.school
  = ([Auth.Probe Student_ "ann@school.io"],
     Ok (Auth.error "Invalid password,", 400)).
Proof. vm_compute. reflexivity. Qed.

Example login_unknown_email :
  Auth.login (H := Ref.bcrypt) (H0 := Ref.roles (H := Ref.bcrypt))
    Ref.no_salt None "POST"
    (VDict [("email", VStr "bob@school.io"); ("password", VStr "x");
            ("remember_me", VBool false)])
    Ref.school
  = ([Auth.Probe Student_ "bob@school.io"; Auth.Probe Teacher_ "bob@school.io";
      Auth.Probe Admin_ "bob@school.io"; Auth.Probe Parent_ "bob@school.io"],
     Ok (Auth.error "The user with this email does not exist.", 400)).
Proof. vm_compute. reflexivity. Qed.

Example strptime_examples :
  Datetime.strptime_dmY "14-03-1879" = true /\
  Datetime.strptime_dmY "29-02-1900" = false /\
  Datetime.strptime_dmY "29-02-2000" = true /\
  Datetime.strptime_dmY "1-1-2000" = true /\
  Datetime.strptime_dmY "01-13-2000" = false /\
  Datetime.strptime_dmY "01-01-0000" = false /\
  Datetime.strptime_dmY "01-01-20000" = false /\
  Datetime.strptime_dmY "" = false /\
  Bson.ObjectId "5F2D4A7B9C1E3A0012345678" = Ok "5f2d4a7b9c1e3a0012345678".
Proof. vm_compute. repeat split. Qed.

(** [ObjectId] takes twenty-four characters that [bytes.fromhex] takes:
    white space between octets is skipped, and the identifier is then
    shorter than twelve octets. *)
Example ObjectId_examples :
  Bson.ObjectId "5f2d4a7b9c1e3a00123456  " = Ok "5f2d4a7b9c1e3a00123456" /\
  Bson.ObjectId " 5f 2d4a7b9c1e3a00123456" = Ok "5f2d4a7b9c1e3a00123456" /\
  Bson.ObjectId "5 f2d4a7b9c1e3a00123456 " = Raise InvalidId /\
  Bson.ObjectId "5f2d4a7b9c1e3a00123456" = Raise InvalidId /\
  Bson.ObjectId "5g2d4a7b9c1e3a0012345678" = Raise InvalidId /\
  Bson.ObjectId_of "5f2d4a7b9c1e3a00123456dd" VNone
    = Ok "5f2d4a7b9c1e3a00123456dd" /\
  Bson.ObjectId_of "" (VBytes "abcdefghijkl") = Ok "6162636465666768696a6b6c" /\
  Bson.ObjectId_of "" (VBytes "abc") = Raise TypeError /\
  Bson.ObjectId_of "" (VInt 7) = Raise TypeError /\
  User.set_id Ref.ann (VStr "5f2d4a7b9c1e3a00123456  ")
    = Ok (User.with_id Ref.ann "5f2d4a7b9c1e3a00123456  ") /\
  dict_get "_id"
    (User.to_dict (User.with_id Ref.ann "5f2d4a7b9c1e3a00123456  "))
    = Some (VOid "5f2d4a7b9c1e3a00123456").
Proof. vm_compute. repeat split. Qed.

(** A bio that the pattern refuses ends in [KeyError]; one that is too
    long in [InvalidFormatException]. *)
Example bio_refused :
  User.set_bio Ref.ann (VStr "|x") = Raise KeyError /\
  User.set_bio Ref.ann (VStr (Sample.fit 101 "")) = Raise InvalidFormatException /\
  User.set_bio Ref.ann (VStr (Sample.fit 100 ""))
    = Ok (User.with_bio Ref.ann (Sample.fit 100 "")).
Proof. vm_compute. repeat split. Qed.

(* ================================================================== *)
(** * Further properties of the same code *)

(** ** The check of [bio] *)

Lemma re_match_never : forall s X, re_match (Seq Never X) s = false.
Proof.
  induction s as [ | c s IH ]; intros X; simpl; auto.
Qed.

Lemma re_match_class_first :
  forall p U c s,
    nullable U = true -> re_match (Seq (Class p) U) (String c s) = p c.
Proof.
  intros p U c s HU. simpl. destruct (p c).
  - destruct s; simpl; rewrite HU; reflexivity.
  - apply re_match_never.
Qed.

Lemma bio_matches_first :
  forall c s, User.bio_matches (String c s) = User.bio_class c.
Proof.
  intros c s. unfold User.bio_matches, User.bio_re, between.
  cbn [times]. apply re_match_class_first. reflexivity.
Qed.

(** X1.  A [bio] that is not empty is stored exactly when it has at most
    100 characters and its first character belongs to the class of the
    pattern: the characters after the first are not looked at.  A bio of
    more than 100 characters raises [InvalidFormatException]; one of at
    most 100 characters whose first character is outside the class raises
    [KeyError], from the [str.format] call that builds the message. *)
Theorem X1_bio_checks_first_character :
  forall (u : User.t) (c : ascii) (s : string),
    User.set_bio u (VStr (String c s)) =
      if Nat.leb (String.length (String c s)) 100
      then if User.bio_class c then Ok (User.with_bio u (String c s))
           else Raise KeyError
      else Raise InvalidFormatException.
Proof.
  intros u c s. unfold User.set_bio, User.check_bio.
  rewrite bio_matches_first.
  change (String.eqb (String c s) "") with false.
  change (Nat.ltb 0 (String.length (String c s))) with true.
  destruct (Nat.leb (String.length (String c s)) 100); simpl; auto.
  destruct (User.bio_class c); reflexivity.
Qed.

(** ** Building objects back from dictionaries *)

Lemma looks_hashed_not_empty :
  forall b, User.looks_hashed b = true -> truthy (VBytes b) = true.
Proof.
  intros [ | c b ] H; [ discriminate H | reflexivity ].
Qed.

(** X2.  [User.from_dict(u.to_dict())] for a user with a well-formed email.
    When the stored password has the shape of a hash the result has the
    same email, names, password and activation flag and the identifier as
    [ObjectId] prints it, while [bio], [date_of_birth] and [profile_picture],
    which [to_dict] leaves out, are back at their defaults.  When the
    stored password is not empty and has not that shape, the call raises
    [AttributeError]. *)
Theorem X2_user_round_trip :
  forall (B : Bcrypt) (C : CalendarClass) (salt : bytes) (u : User.t),
    User.email_matches (User._email u) = true ->
    (User.looks_hashed (User._password u) = true ->
     UserDict.from_dict salt (User.to_dict u) =
       Ok (User.mk
             (match (i <- User.id u ;; Bson.ObjectId i) with
              | Ok o => Some o
              | Raise _ => None
              end)
             (User._password u) (User._email u) (User._first_name u)
             (User._last_name u) User.default_bio
             User.default_date_of_birth "" (User._activated u))) /\
    (User.looks_hashed (User._password u) = false ->
     User._password u <> "" ->
     UserDict.from_dict salt (User.to_dict u) = Raise AttributeError).
Proof.
  intros B C salt u He. split.
  - intros Hp. pose proof (looks_hashed_not_empty _ Hp) as Ht.
    unfold UserDict.from_dict, User.to_dict.
    destruct (i <- User.id u ;; Bson.ObjectId i) as [ o | e ];
      cbn [dict_set dict_get String.eqb Ascii.eqb Bool.eqb bind];
      unfold UserDict.call;
      cbn [forallb existsb fst negb andb orb UserDict.parameters
           UserDict.required String.eqb Ascii.eqb Bool.eqb
           Student.has_key Student.arg dict_get];
      unfold User.init, User.check_email; rewrite He;
      cbn [negb bind]; unfold py_or at 1; rewrite Ht;
      unfold User.check_password; rewrite Hp; cbn [negb bind];
      destruct (User._activated u); reflexivity.
  - intros Hp Hne.
    assert (Ht : truthy (VBytes (User._password u)) = true).
    { simpl. destruct (String.eqb_spec (User._password u) "");
        [ contradiction | reflexivity ]. }
    unfold UserDict.from_dict, User.to_dict.
    destruct (i <- User.id u ;; Bson.ObjectId i) as [ o | e ];
      cbn [dict_set dict_get String.eqb Ascii.eqb Bool.eqb bind];
      unfold UserDict.call;
      cbn [forallb existsb fst negb andb orb UserDict.parameters
           UserDict.required String.eqb Ascii.eqb Bool.eqb
           Student.has_key Student.arg dict_get];
      unfold User.init, User.check_email; rewrite He;
      cbn [negb bind]; unfold py_or at 1; rewrite Ht;
      unfold User.check_password; rewrite Hp; reflexivity.
Qed.

Lemma X2_witness :
  User.email_matches (User._email Sample.cat) = true /\
  UserDict.from_dict (H := Ref.bcrypt) (H0 := Sample.calendar) ""
    (User.to_dict Sample.cat)
  = Ok (User.mk (Some "5f2d4a7b9c1e3a0012345670") Sample.hash60
          "cat@school.io" (VStr "Cat") (VStr "Roe") "A short bio."
          "14-03-1879" "" true).
Proof.
  split; [ reflexivity | ].
  exact (proj1 (X2_user_round_trip Ref.bcrypt Sample.calendar ""
                  Sample.cat eq_refl) eq_refl).
Defined.

Section Hydration.
Context {B : Bcrypt}.

Lemma check_email_arg :
  forall d e,
    User.check_email (Student.arg d "email" VNone) = Ok e ->
    dict_get "email" d = Some (VStr e) /\ User.email_matches e = true.
Proof.
  intros d e H. unfold Student.arg in H.
  destruct (dict_get "email" d) as [ v | ]; [ | discriminate H ].
  unfold User.check_email in H. destruct v; try discriminate H.
  destruct (User.email_matches s) eqn:M; simpl in H; [ | discriminate H ].
  inversion H; subst. auto.
Qed.

Lemma call_fields :
  forall salt d s,
    Student.call salt d = Ok s ->
    dict_get "email" d = Some (VStr (User._email (Student.base s))) /\
    User.email_matches (User._email (Student.base s)) = true /\
    User._activated (Student.base s) = false /\
    User._bio (Student.base s) = User.default_bio /\
    User._date_of_birth (Student.base s) = User.default_date_of_birth /\
    User._profile_picture (Student.base s) = "".
Proof.
  intros salt d s H. unfold Student.call in H.
  destruct (negb (forallb _ d)); [ discriminate H | ].
  destruct (negb (forallb _ Student.required)); [ discriminate H | ].
  unfold Student.init in H. bind_ok H. inversion H; subst; clear H.
  cbn [Student.base]. unfold User.init in E.
  bind_ok E. bind_ok E. cbn [py_or truthy bind User.check_bio
    User.check_date_of_birth User.check_profile_picture User.check_activated
    String.eqb] in E.
  bind_ok E. inversion E; subst; clear E. cbn.
  apply check_email_arg in E0. tauto.
Qed.

Lemma from_dict_some :
  forall salt r s,
    Student.from_dict salt r = Ok (Some s) ->
    exists d, r = Some d /\ Student.call salt d = Ok s.
Proof.
  intros salt [ d | ] s H; simpl in H; [ | discriminate H ].
  exists d. split; [ reflexivity | ].
  destruct (Student.call salt d) as [ s0 | e ]; simpl in H.
  - now inversion H.
  - destruct (is_Exception e); discriminate H.
Qed.

End Hydration.

(** X3.  A student built from a document is never activated and has the
    default [bio] and [date_of_birth] and no picture, whatever the document
    holds under [activated]: [Student.__init__] does not pass these on.
    Its email is the one of the document and is well formed; so a lookup by
    email returns a student with the email that was asked for. *)
Theorem X3_hydrated_student :
  forall (B : Bcrypt) (salt : bytes),
    (forall r s,
       Student.from_dict salt r = Ok (Some s) ->
       User._activated (Student.base s) = false /\
       User._bio (Student.base s) = User.default_bio /\
       User._date_of_birth (Student.base s) = User.default_date_of_birth /\
       User._profile_picture (Student.base s) = "" /\
       User.email_matches (User._email (Student.base s)) = true) /\
    (forall d x s,
       Student.get_by_email salt d x = Ok (Some s) ->
       User._email (Student.base s) = x /\
       User._activated (Student.base s) = false) /\
    (forall d x s,
       Student.get_by_id salt d x = Ok (Some s) ->
       User._activated (Student.base s) = false).
Proof.
  intros B salt. split; [ | split ].
  - intros r s H. apply from_dict_some in H as [d [_ H]].
    apply call_fields in H. tauto.
  - intros d x s H. unfold Student.get_by_email, find_one in H.
    destruct (students d) as [ docs | e ]; [ | discriminate H ].
    cbn [bind] in H.
    destruct (Student.from_dict salt (find (by_email x) docs)) as [ r | e ] eqn:E;
      simpl in H; [ | discriminate H ].
    inversion H; subst r.
    apply from_dict_some in E as [doc [Hf Hc]].
    apply find_some in Hf as [_ Hby]. apply call_fields in Hc.
    destruct Hc as [Hem [_ [Hact _]]]. split; [ | exact Hact ].
    unfold by_email in Hby. rewrite Hem in Hby.
    now apply String.eqb_eq in Hby.
  - intros d x s H. unfold Student.get_by_id in H.
    destruct (Bson.ObjectId x) as [ o | e ]; [ | discriminate H ].
    cbn [bind] in H. unfold find_one in H.
    destruct (students d) as [ docs | e ]; [ | discriminate H ].
    cbn [bind] in H.
    destruct (Student.from_dict salt (find (by_id o) docs)) as [ r | e ] eqn:E;
      simpl in H; [ | discriminate H ].
    inversion H; subst r.
    apply from_dict_some in E as [doc [_ Hc]]. apply call_fields in Hc. tauto.
Qed.

(** ** Adding, finding and removing a student *)

Lemma find_app_last :
  forall (f : dict -> bool) docs doc,
    (forall x, In x docs -> f x = false) -> f doc = true ->
    find f (docs ++ [doc]) = Some doc.
Proof.
  intros f docs doc Hno Hdoc. induction docs as [ | y docs IH ]; simpl.
  - now rewrite Hdoc.
  - rewrite (Hno y) by now left. apply IH. intros x Hx. apply Hno. now right.
Qed.

Lemma remove_first_last :
  forall (f : dict -> bool) docs doc,
    (forall x, In x docs -> f x = false) -> f doc = true ->
    remove_first f (docs ++ [doc]) = docs.
Proof.
  intros f docs doc Hno Hdoc. induction docs as [ | y docs IH ]; simpl.
  - now rewrite Hdoc.
  - rewrite (Hno y) by now left. f_equal. apply IH.
    intros x Hx. apply Hno. now right.
Qed.

Lemma remove_first_miss :
  forall (f : dict -> bool) docs,
    (forall x, In x docs -> f x = false) -> remove_first f docs = docs.
Proof.
  intros f docs Hno. induction docs as [ | y docs IH ]; simpl; auto.
  rewrite (Hno y) by now left. f_equal. apply IH.
  intros x Hx. apply Hno. now right.
Qed.

Lemma existsb_false_all :
  forall (A : Type) (f : A -> bool) l,
    existsb f l = false -> forall x, In x l -> f x = false.
Proof.
  intros A f l H x Hx. destruct (f x) eqn:E; auto.
  assert (existsb f l = true) by (apply existsb_exists; eauto). congruence.
Qed.

Lemma with_students_same :
  forall d c, students d = c -> with_students d c = d.
Proof.
  intros [s t a p c'] c H. simpl in H. subst. reflexivity.
Qed.

Lemma has_upper_false_lower : forall s, has_upper s = false -> lower s = s.
Proof.
  induction s as [ | c s IH ]; simpl; intros H; auto.
  apply orb_false_iff in H as [Hc Hs]. unfold lower_char. rewrite Hc.
  now rewrite IH.
Qed.

Section AddStudent.
Context {B : Bcrypt}.
Variables (fresh : string) (s : Student.t) (d : db) (docs : list dict).
Hypothesis store : students d = Avail docs.
Hypothesis unsaved : User._id (Student.base s) = None.
Hypothesis fresh_is_new : existsb (same_id (VOid fresh)) docs = false.

Let doc := dict_set "_id" (VOid fresh) (Student.to_dict s).
Let s1 := Student.with_base s (User.with_id (Student.base s) fresh).
Let d1 := with_students d (Avail (docs ++ [doc])).

Lemma add_unsaved : Student.add fresh s d = ((s1, d1), Ok true).
Proof.
  unfold Student.add, insert_one. rewrite store.
  assert (Hnone : dict_get "_id" (Student.to_dict s) = None).
  { rewrite Student_to_dict_entries. unfold User.id_entry, User.id.
    rewrite unsaved. reflexivity. }
  rewrite Hnone, fresh_is_new. reflexivity.
Qed.

Lemma added_doc_has_id : by_id fresh doc = true.
Proof.
  unfold by_id, doc. rewrite dict_get_set_same. apply String.eqb_refl.
Qed.

Lemma others_have_not : forall x, In x docs -> by_id fresh x = false.
Proof.
  intros x Hx. exact (existsb_false_all _ _ _ fresh_is_new x Hx).
Qed.

Lemma remove_after_add :
  Bson.ObjectId fresh = Ok fresh -> Student.remove s1 d1 = (d, Ok true).
Proof.
  intros Hf. unfold Student.remove, s1, d1. cbn [Student.base Student.with_base
    User.with_id User.id User._id bind]. rewrite Hf. cbn [bind delete_one students
    with_students].
  rewrite (remove_first_last _ _ _ others_have_not added_doc_has_id).
  cbn [with_students students teachers admins parents courses].
  destruct d as [st t a p c]. simpl in store. subst st. reflexivity.
Qed.

Lemma add_again :
  forall fresh2,
    Bson.ObjectId fresh = Ok fresh ->
    Student.add fresh2 s1 d1 = ((s1, d1), Ok false).
Proof.
  intros fresh2 Hf. unfold Student.add, insert_one.
  assert (Hid : dict_get "_id" (Student.to_dict s1) = Some (VOid fresh)).
  { apply Student_to_dict_id; [ reflexivity | exact Hf ]. }
  unfold d1 at 1. cbn [students with_students]. rewrite Hid.
  assert (Hdup : existsb (same_id (VOid fresh)) (docs ++ [doc]) = true).
  { rewrite existsb_app. cbn [existsb same_id]. rewrite added_doc_has_id.
    now rewrite orb_true_r. }
  rewrite Hdup. reflexivity.
Qed.

Variables (salt : bytes) (h : bytes).
Hypothesis email_is_new :
  forall x, In x docs -> by_email (User._email (Student.base s)) x = false.
Hypothesis email_is_valid :
  User.email_matches (User._email (Student.base s)) = true.
Hypothesis blank_hash : hashpw (encode_utf8 "") salt = Ok h.

Let s2 :=
  Student.mk
    (User.mk (Some fresh) h (User._email (Student.base s))
       (User._first_name (Student.base s)) (User._last_name (Student.base s))
       User.default_bio User.default_date_of_birth "" false)
    (py_or (Student.courses s) (VList []))
    (py_or (Student.assignments s) (VList [])).

Lemma hydrate_added_doc : Student.from_dict salt (Some doc) = Ok (Some s2).
Proof.
  unfold doc. rewrite Student_to_dict_entries.
  unfold User.id_entry, User.id. rewrite unsaved.
  cbn [bind app dict_set String.eqb Ascii.eqb Bool.eqb].
  unfold Student.from_dict, Student.call.
  cbn [forallb existsb fst negb andb orb Student.parameters
       Student.required String.eqb Ascii.eqb Bool.eqb
       Student.has_key Student.arg dict_get].
  unfold Student.init, User.init, User.check_email.
  rewrite email_is_valid. cbn [negb bind py_or truthy String.eqb].
  unfold User.check_password. rewrite blank_hash.
  reflexivity.
Qed.

Lemma find_after_add :
  Student.get_by_email salt d1 (User._email (Student.base s)) = Ok (Some s2).
Proof.
  unfold Student.get_by_email, d1. cbn [students with_students find_one bind].
  rewrite (find_app_last _ docs doc email_is_new).
  - rewrite hydrate_added_doc. reflexivity.
  - unfold by_email, doc. rewrite dict_get_set_other by discriminate.
    rewrite Student_to_dict_entries. cbn [app dict_get String.eqb Ascii.eqb Bool.eqb].
    apply String.eqb_refl.
Qed.

End AddStudent.

(** X4.  Saving and finding again.  [add] on a student that was never
    saved, with a fresh identifier and an available store, appends the
    serialised student under that identifier, sets the identifier on the
    object and returns [True].  If no earlier document has the email, a
    lookup by that email then returns a student with the same identifier,
    email, names, courses and assignments -- but not activated, and with the
    hash of the empty string as password. *)
Theorem X4_add_then_find :
  forall (B : Bcrypt) (fresh : string) (s : Student.t) (d : db)
         (docs : list dict) (salt h : bytes),
    students d = Avail docs ->
    User._id (Student.base s) = None ->
    existsb (same_id (VOid fresh)) docs = false ->
    (forall x, In x docs -> by_email (User._email (Student.base s)) x = false) ->
    User.email_matches (User._email (Student.base s)) = true ->
    hashpw (encode_utf8 "") salt = Ok h ->
    let d1 :=
      with_students d
        (Avail (docs ++ [dict_set "_id" (VOid fresh) (Student.to_dict s)])) in
    Student.add fresh s d
    = ((Student.with_base s (User.with_id (Student.base s) fresh), d1),
       Ok true) /\
    Student.get_by_email salt d1 (User._email (Student.base s))
    = Ok (Some
            (Student.mk
               (User.mk (Some fresh) h (User._email (Student.base s))
                  (User._first_name (Student.base s))
                  (User._last_name (Student.base s))
                  User.default_bio User.default_date_of_birth "" false)
               (py_or (Student.courses s) (VList []))
               (py_or (Student.assignments s) (VList [])))).
Proof.
  intros B fresh s d docs salt h Hd Hid Hnew Hmail Hvalid Hh d1. split.
  - exact (add_unsaved fresh s d docs Hd Hid Hnew).
  - exact (find_after_add fresh s d docs Hid salt h Hmail Hvalid Hh).
Qed.

Lemma X4_witness :
  Student.get_by_email (H := Ref.bcrypt) ""
    (snd (fst (Student.add "5f2d4a7b9c1e3a0012345699" Sample.bea Ref.school)))
    "bea@school.io"
  = Ok (Some
          (Student.mk
             (User.mk (Some "5f2d4a7b9c1e3a0012345699") "$2b$" "bea@school.io"
                (VStr "Bea") (VStr "Poe") "A short bio." "14-03-1879" "" false)
             (VList [VStr "history"]) (VList []))).
Proof.
  pose proof (X4_add_then_find Ref.bcrypt "5f2d4a7b9c1e3a0012345699"
                Sample.bea Ref.school _ "" "$2b$" eq_refl eq_refl eq_refl) as H.
  cbv zeta in H. destruct H as [Hadd Hfind].
  - intros x [ <- | [] ]. reflexivity.
  - reflexivity.
  - reflexivity.
  - rewrite Hadd. exact Hfind.
Defined.

(** X5.  Saving and logging in.  After such an [add], a login request with
    the email of the student (an email without capital letters) and the
    empty password finds the student and calls [login_user]: the stored
    document carries an empty password, so the password the student had
    plays no part.  The facts used of [bcrypt] are that [checkpw] hashes
    with the stored hash as salt and compares, and that hashing with a hash
    as salt returns that hash. *)
Theorem X5_saved_student_logs_in_with_empty_password :
  forall (B : Bcrypt) (R : Roles) (salts : scope -> bytes) (method : string)
         (rm : value) (fresh : string) (s : Student.t) (d : db)
         (docs : list dict) (h : bytes),
    (forall pw x, checkpw pw x = (x' <- hashpw pw x ;; Ok (String.eqb x' x))) ->
    (forall pw salt x, hashpw pw salt = Ok x -> hashpw pw x = Ok x) ->
    students d = Avail docs ->
    User._id (Student.base s) = None ->
    existsb (same_id (VOid fresh)) docs = false ->
    (forall x, In x docs -> by_email (User._email (Student.base s)) x = false) ->
    User.email_matches (User._email (Student.base s)) = true ->
    has_upper (User._email (Student.base s)) = false ->
    hashpw (encode_utf8 "") (salts Student_) = Ok h ->
    String.eqb method "GET" = false ->
    fst (Auth.login salts None method
           (VDict [("email", VStr (User._email (Student.base s)));
                   ("password", VStr ""); ("remember_me", rm)])
           (snd (fst (Student.add fresh s d))))
    = [Auth.Probe Student_ (User._email (Student.base s));
       Auth.LoginUser Student_
         (User.mk (Some fresh) h (User._email (Student.base s))
            (User._first_name (Student.base s))
            (User._last_name (Student.base s))
            User.default_bio User.default_date_of_birth "" false)
         rm].
Proof.
  intros B R salts method rm fresh s d docs h Hcheck Hsalt Hd Hid Hnew Hmail
    Hvalid Hup Hh Hm.
  rewrite (add_unsaved fresh s d docs Hd Hid Hnew). cbn [fst snd].
  rewrite (login_post B R salts method
             (VDict [("email", VStr (User._email (Student.base s)));
                     ("password", VStr ""); ("remember_me", rm)])
             _ (User._email (Student.base s)) (VStr "") rm Hm
             eq_refl eq_refl eq_refl).
  cbn [fst]. rewrite (has_upper_false_lower _ Hup).
  change Auth.scopes with (Student_ :: [Teacher_; Admin_; Parent_]).
  erewrite probe_hit_valid; [ reflexivity | | ].
  - unfold Auth.get_by_email.
    rewrite (find_after_add fresh s d docs Hid (salts Student_) h Hmail
               Hvalid Hh).
    reflexivity.
  - cbn [User.validate_password User._password]. rewrite Hcheck.
    rewrite (Hsalt _ _ _ Hh). cbn [bind]. now rewrite String.eqb_refl.
Qed.

Lemma X5_witness :
  fst (Auth.login (H := Ref.bcrypt) (H0 := Ref.roles (H := Ref.bcrypt))
         Ref.no_salt None "POST"
         (VDict [("email", VStr "bea@school.io"); ("password", VStr "");
                 ("remember_me", VBool false)])
         (snd (fst (Student.add "5f2d4a7b9c1e3a0012345699" Sample.bea
                      Ref.school))))
  = [Auth.Probe Student_ "bea@school.io";
     Auth.LoginUser Student_
       (User.mk (Some "5f2d4a7b9c1e3a0012345699") "$2b$" "bea@school.io"
          (VStr "Bea") (VStr "Poe") "A short bio." "14-03-1879" "" false)
       (VBool false)].
Proof.
  refine (X5_saved_student_logs_in_with_empty_password Ref.bcrypt
            (Ref.roles (H := Ref.bcrypt)) Ref.no_salt "POST" (VBool false)
            "5f2d4a7b9c1e3a0012345699" Sample.bea Ref.school _ "$2b$"
            _ _ eq_refl eq_refl eq_refl _ eq_refl eq_refl eq_refl eq_refl).
  - intros pw x. reflexivity.
  - intros pw salt x H. exact H.
  - intros x [ <- | [] ]. reflexivity.
Defined.

(** X6.  Saving and removing.  After such an [add] with an identifier in
    canonical form, [remove] on the saved student returns [True] and the
    store is again as it was before the [add]. *)
Theorem X6_add_then_remove :
  forall (fresh : string) (s : Student.t) (d : db) (docs : list dict),
    students d = Avail docs ->
    User._id (Student.base s) = None ->
    existsb (same_id (VOid fresh)) docs = false ->
    Bson.ObjectId fresh = Ok fresh ->
    Student.remove (fst (fst (Student.add fresh s d)))
                   (snd (fst (Student.add fresh s d)))
    = (d, Ok true).
Proof.
  intros fresh s d docs Hd Hid Hnew Hf.
  rewrite (add_unsaved fresh s d docs Hd Hid Hnew). cbn [fst snd].
  exact (remove_after_add fresh s d docs Hd Hnew Hf).
Qed.

Lemma X6_witness :
  Student.remove
    (fst (fst (Student.add "5f2d4a7b9c1e3a0012345699" Sample.bea Ref.school)))
    (snd (fst (Student.add "5f2d4a7b9c1e3a0012345699" Sample.bea Ref.school)))
  = (Ref.school, Ok true).
Proof.
  exact (X6_add_then_remove "5f2d4a7b9c1e3a0012345699" Sample.bea Ref.school
           _ eq_refl eq_refl eq_refl eq_refl).
Defined.

(** X7.  [add] is no update.  Calling [add] again on a student that an
    [add] has saved returns [False] and changes neither the object nor the
    store: the identifier is already in the collection. *)
Theorem X7_add_twice_is_refused :
  forall (fresh fresh2 : string) (s : Student.t) (d : db) (docs : list dict),
    students d = Avail docs ->
    User._id (Student.base s) = None ->
    existsb (same_id (VOid fresh)) docs = false ->
    Bson.ObjectId fresh = Ok fresh ->
    Student.add fresh2 (fst (fst (Student.add fresh s d)))
                (snd (fst (Student.add fresh s d)))
    = (fst (Student.add fresh s d), Ok false).
Proof.
  intros fresh fresh2 s d docs Hd Hid Hnew Hf.
  rewrite (add_unsaved fresh s d docs Hd Hid Hnew). cbn [fst snd].
  exact (add_again fresh s d docs fresh2 Hf).
Qed.

Lemma X7_witness :
  Student.add "5f2d4a7b9c1e3a00123456ff"
    (fst (fst (Student.add "5f2d4a7b9c1e3a0012345699" Sample.bea Ref.school)))
    (snd (fst (Student.add "5f2d4a7b9c1e3a0012345699" Sample.bea Ref.school)))
  = (fst (Student.add "5f2d4a7b9c1e3a0012345699" Sample.bea Ref.school),
     Ok false).
Proof.
  exact (X7_add_twice_is_refused "5f2d4a7b9c1e3a0012345699"
           "5f2d4a7b9c1e3a00123456ff" Sample.bea Ref.school _
           eq_refl eq_refl eq_refl eq_refl).
Defined.

(** ** Updates that select no document *)

(** X8.  [remove] on a student whose identifier is set and valid, with the
    store available: when no document has the identifier, [remove] still
    returns [True], and the store is as before. *)
Theorem X8_remove_without_document :
  forall (s : Student.t) (d : db) (docs : list dict) (i o : string),
    students d = Avail docs ->
    User._id (Student.base s) = Some i ->
    Bson.ObjectId i = Ok o ->
    (forall x, In x docs -> by_id o x = false) ->
    Student.remove s d = (d, Ok true).
Proof.
  intros s d docs i o Hd Hi Ho Hno. unfold Student.remove, User.id.
  rewrite Hi. cbn [bind]. rewrite Ho. cbn [bind]. unfold delete_one.
  rewrite Hd, (remove_first_miss _ _ Hno).
  now rewrite (with_students_same d (Avail docs) Hd).
Qed.

Lemma X8_witness :
  Student.remove Ref.ann_student (with_students Ref.school (Avail []))
  = (with_students Ref.school (Avail []), Ok true).
Proof.
  refine (X8_remove_without_document Ref.ann_student
            (with_students Ref.school (Avail [])) [] _ _
            eq_refl eq_refl eq_refl _).
  intros x [].
Defined.

(** X9.  [activate] on a student whose identifier is set and valid, with
    the store available, returns [True] and marks the object as activated.
    In the store it sets [activated] in the first document that has the
    identifier and leaves the other fields of that document and all other
    documents as they were; when no document has the identifier it changes
    nothing in the store, and still returns [True]. *)
Theorem X9_activate :
  forall (s : Student.t) (d : db) (i o : string),
    User._id (Student.base s) = Some i ->
    Bson.ObjectId i = Ok o ->
    let s' := Student.with_base s (User.with_activated (Student.base s) true) in
    (forall pre doc post,
       students d = Avail (pre ++ doc :: post) ->
       (forall x, In x pre -> by_id o x = false) ->
       by_id o doc = true ->
       let doc' := dict_set "activated" (VBool true) doc in
       Student.activate s d
       = ((s', with_students d (Avail (pre ++ doc' :: post))), Ok true) /\
       dict_get "activated" doc' = Some (VBool true) /\
       (forall k, k <> "activated" -> dict_get k doc' = dict_get k doc)) /\
    (forall docs,
       students d = Avail docs ->
       (forall x, In x docs -> by_id o x = false) ->
       Student.activate s d = ((s', d), Ok true)).
Proof.
  intros s d i o Hi Ho s'. split.
  - intros pre doc post Hd Hpre Hdoc doc'. split; [ | split ].
    + unfold Student.activate, User.id. rewrite Hi. cbn [bind].
      rewrite Ho. cbn [bind]. unfold update. rewrite Hd.
      rewrite (update_first_hit (by_id o) (set "activated" (VBool true))
                 pre doc post doc' Hpre Hdoc eq_refl).
      reflexivity.
    + apply dict_get_set_same.
    + intros k Hk. now apply dict_get_set_other.
  - intros docs Hd Hno. unfold Student.activate, User.id. rewrite Hi.
    cbn [bind]. rewrite Ho. cbn [bind]. unfold update. rewrite Hd.
    rewrite (update_first_miss _ _ docs Hno). cbn [bind].
    cbn [User.set_activated User.check_activated bind].
    now rewrite (with_students_same d (Avail docs) Hd).
Qed.

Lemma X9_witness :
  Student.activate Ref.ann_student Ref.school
  = ((Student.with_base Ref.ann_student
        (User.with_activated Ref.ann true),
      with_students Ref.school
        (Avail [[("_id", VOid "5f2d4a7b9c1e3a0012345678");
                 ("email", VStr "ann@school.io"); ("first_name", VStr "Ann");
                 ("last_name", VStr "Lee"); ("password", VStr "");
                 ("assignments", VList []); ("activated", VBool true)]])),
     Ok true).
Proof.
  refine (proj1 (proj1 (X9_activate Ref.ann_student Ref.school _ _
                          eq_refl eq_refl) [] _ [] eq_refl _ eq_refl)).
  intros x [].
Defined.

(** X10.  [Student.set_password] never reaches the store.  Its filter
    compares [_id] with the identifier as a [str], while the documents carry
    an [ObjectId]: with the store available and every document identified
    by an [ObjectId], the store is unchanged whatever the outcome, and for a
    student with an identifier and a [str] that the library hashes the call
    returns [True] with the new hash on the object only. *)
Theorem X10_set_password_leaves_store :
  forall (B : Bcrypt) (d : db) (docs : list dict),
    students d = Avail docs ->
    (forall x, In x docs -> exists o, dict_get "_id" x = Some (VOid o)) ->
    (forall salt p s, snd (fst (Student.set_password salt p s d)) = d) /\
    (forall salt p s i h,
       User._id (Student.base s) = Some i ->
       hashpw (encode_utf8 p) salt = Ok h ->
       Student.set_password salt (VStr p) s d
       = ((Student.with_base s (User.with_password (Student.base s) h), d),
          Ok true)).
Proof.
  intros B d docs Hd Hoid.
  assert (Hmiss : forall i x, In x docs -> by_str_id i x = false).
  { intros i x Hx. destruct (Hoid x Hx) as [o Ho]. unfold by_str_id.
    now rewrite Ho. }
  split.
  - intros salt p s. unfold Student.set_password.
    destruct (User.set_password salt (Student.base s) p) as [ u' | e ];
      [ | reflexivity ].
    destruct (User.id u') as [ i | e ]; cbn [bind]; [ | reflexivity ].
    unfold update. rewrite Hd, (update_first_miss _ _ docs (Hmiss i)).
    cbn [bind fst snd]. apply with_students_same. exact Hd.
  - intros salt p s i h Hi Hh. unfold Student.set_password, User.set_password.
    cbn [User.check_password]. rewrite Hh. cbn [bind].
    unfold User.id. cbn [User.with_password User._id]. rewrite Hi.
    cbn [bind]. unfold update. rewrite Hd, (update_first_miss _ _ docs (Hmiss i)).
    cbn [bind]. now rewrite (with_students_same d (Avail docs) Hd).
Qed.

Lemma X10_witness :
  Student.set_password (H := Ref.bcrypt) "" (VStr "tea") Ref.ann_student
    Ref.school
  = ((Student.with_base Ref.ann_student
        (User.with_password Ref.ann "$2b$tea"),
      Ref.school),
     Ok true).
Proof.
  refine (proj2 (X10_set_password_leaves_store Ref.bcrypt Ref.school _
                   eq_refl _) "" "tea" Ref.ann_student _ "$2b$tea"
                eq_refl eq_refl).
  intros x [ <- | [] ]. eexists. reflexivity.
Defined.

(** ** The routes *)

Section LoginSafety.
Context {B : Bcrypt} {R : Roles}.
Variables (salts : scope -> bytes) (d : db).
Variables (email : string) (password remember_me : value).

Lemma probe_login_user :
  forall todo sc u r,
    In (Auth.LoginUser sc u r)
       (fst (Auth.probe salts d email password remember_me todo)) ->
    Auth.get_by_email sc (salts sc) d email = Ok (Some u) /\
    User.validate_password u password = Ok true /\
    r = remember_me.
Proof.
  induction todo as [ | sc0 todo IH ]; intros sc u r H; [ destruct H | ].
  simpl in H.
  destruct (Auth.get_by_email sc0 (salts sc0) d email) as [ [ u0 | ] | e ] eqn:El.
  - destruct (User.validate_password u0 password) as [ [ | ] | e ] eqn:Ev;
      simpl in H.
    + destruct H as [ H | [ H | [] ] ]; [ discriminate H | ].
      inversion H; subst. auto.
    + destruct H as [ H | [] ]. discriminate H.
    + destruct H as [ H | [] ]. discriminate H.
  - destruct (Auth.probe salts d email password remember_me todo) eqn:E.
    simpl in H, IH. destruct H as [ H | H ]; [ discriminate H | eauto ].
  - simpl in H. destruct H as [ H | [] ]. discriminate H.
Qed.

End LoginSafety.

(** X11.  [login] calls [login_user] only for a client that is not yet
    authenticated, on a request that is not a GET, and only for a user that
    the lookup of a role has returned for the lower-cased email of the
    request and whose [validate_password] has returned [True] for the
    password of the request. *)
Theorem X11_login_user_only_after_validation :
  forall (B : Bcrypt) (R : Roles) (salts : scope -> bytes)
         (current_user : option (scope * User.t)) (method : string)
         (req : value) (d : db) (sc : scope) (u : User.t) (r : value),
    In (Auth.LoginUser sc u r)
       (fst (Auth.login salts current_user method req d)) ->
    current_user = None /\
    String.eqb method "GET" = false /\
    exists e pw,
      Auth.getitem req "email" = Ok (VStr e) /\
      Auth.getitem req "password" = Ok pw /\
      Auth.getitem req "remember_me" = Ok r /\
      Auth.get_by_email sc (salts sc) d (lower e) = Ok (Some u) /\
      User.validate_password u pw = Ok true.
Proof.
  intros B R salts current_user method req d sc u r H. unfold Auth.login in H.
  destruct current_user as [ [sc0 u0] | ]; [ destruct H | ].
  destruct (String.eqb method "GET"); [ destruct H | ].
  destruct (Auth.getitem req "email") as [ v | ]; [ | destruct H ].
  destruct v; try (destruct H).
  cbn [bind Auth.call_lower] in H.
  destruct (Auth.getitem req "password") as [ pw | ]; [ | destruct H ].
  destruct (Auth.getitem req "remember_me") as [ rm | ]; [ | destruct H ].
  cbn [bind] in H.
  destruct (Auth.probe salts d (lower s) pw rm Auth.scopes) as [ev res] eqn:E.
  assert (Hin : In (Auth.LoginUser sc u r)
                   (fst (Auth.probe salts d (lower s) pw rm Auth.scopes))).
  { rewrite E. exact H. }
  apply probe_login_user in Hin as [Hl [Hv ->]].
  split; [ reflexivity | split; [ reflexivity | ] ].
  exists s, pw. auto.
Qed.

Lemma X11_witness :
  User.validate_password (H := Ref.bcrypt)
    (User.mk (Some "5f2d4a7b9c1e3a0012345678") "$2b$" "ann@school.io"
       (VStr "Ann") (VStr "Lee") User.default_bio
       User.default_date_of_birth "" false)
    (VStr "")
  = Ok true.
Proof.
  destruct (X11_login_user_only_after_validation Ref.bcrypt
              (Ref.roles (H := Ref.bcrypt)) Ref.no_salt None "POST"
              (VDict [("email", VStr "ANN@school.io"); ("password", VStr "");
                      ("remember_me", VBool true)])
              Ref.school Student_
              (User.mk (Some "5f2d4a7b9c1e3a0012345678") "$2b$"
                 "ann@school.io" (VStr "Ann") (VStr "Lee") User.default_bio
                 User.default_date_of_birth "" false)
              (VBool true))
    as [_ [_ [e [pw [_ [Hp [_ [_ Hv]]]]]]]].
  - right. left. reflexivity.
  - inversion Hp; subst pw. exact Hv.
Defined.

(** X12.  [change_password] for a student.  Without [new_password] in the
    form the reply is the 400 error and nothing changes.  For a student
    whose document is in the store the reply is always the 500 error: the
    new hash is set on the object, [add] is refused because the identifier
    exists, and the store is unchanged.  And whenever the reply is
    "Password changed", what has been written is one more document, with an
    empty password: the new hash never reaches the store. *)
Theorem X12_change_password :
  forall (B : Bcrypt) (salt : bytes) (fresh : string) (form : dict)
         (cu : Student.t) (d : db),
    (dict_get "new_password" form = None ->
     Routes.change_password salt fresh form cu d
     = ((cu, d), Ok (Routes.error "Not all fields satisfied", 400))) /\
    (forall p h i docs,
       dict_get "new_password" form = Some (VStr p) ->
       hashpw (encode_utf8 p) salt = Ok h ->
       User._id (Student.base cu) = Some i ->
       Bson.ObjectId i = Ok i ->
       students d = Avail docs ->
       existsb (by_id i) docs = true ->
       Routes.change_password salt fresh form cu d
       = ((Student.with_base cu (User.with_password (Student.base cu) h), d),
          Ok (Routes.error "Unknown error while changing the password.", 500))) /\
    (forall docs s' d' flashes,
       students d = Avail docs ->
       Routes.change_password salt fresh form cu d
       = ((s', d'), Ok (Routes.response flashes, 200)) ->
       exists doc,
         students d' = Avail (docs ++ [doc]) /\
         dict_get "password" doc = Some (VStr "")).
Proof.
  intros B salt fresh form cu d. split; [ | split ].
  - intros H. unfold Routes.change_password, subscript. rewrite H. reflexivity.
  - intros p h i docs Hf Hh Hi Ho Hd Hex.
    unfold Routes.change_password, subscript. rewrite Hf.
    unfold User.set_password. cbn [User.check_password]. rewrite Hh.
    cbn [bind].
    set (cu' := Student.with_base cu (User.with_password (Student.base cu) h)).
    assert (Hid : dict_get "_id" (Student.to_dict cu') = Some (VOid i)).
    { apply Student_to_dict_id; [ exact Hi | exact Ho ]. }
    unfold Student.add, insert_one. rewrite Hd, Hid.
    change (existsb (same_id (VOid i)) docs) with (existsb (by_id i) docs).
    rewrite Hex. cbn [is_Exception]. unfold User.id.
    change (User._id (Student.base cu')) with (User._id (Student.base cu)).
    rewrite Hi. reflexivity.
  - intros docs s' d' flashes Hd H. unfold Routes.change_password in H.
    destruct (subscript form "new_password") as [ np | e ].
    + destruct (User.set_password salt (Student.base cu) np) as [ u' | e ].
      * destruct (Student.add fresh (Student.with_base cu u') d)
          as [[s1 d1] [ [ | ] | e ]] eqn:Ea.
        -- inversion H; subst.
           destruct (add_writes_to_dict _ _ _ _ _ _ Hd Ea) as [i Hi].
           eexists. split; [ exact Hi | ].
           rewrite dict_get_set_other by discriminate.
           apply Student_to_dict_password.
        -- discriminate H.
        -- simpl in H. destruct (Routes.is_KeyError e); discriminate H.
      * simpl in H. destruct (Routes.is_KeyError e); discriminate H.
    + simpl in H. destruct (Routes.is_KeyError e); discriminate H.
Qed.

Lemma X12_witness :
  Routes.change_password (H := Ref.bcrypt) "" "5f2d4a7b9c1e3a0012345699"
    [("new_password", VStr "tea")] Ref.ann_student Ref.school
  = ((Student.with_base Ref.ann_student
        (User.with_password Ref.ann "$2b$tea"),
      Ref.school),
     Ok (Routes.error "Unknown error while changing the password.", 500)).
Proof.
  exact (proj1 (proj2 (X12_change_password Ref.bcrypt ""
                         "5f2d4a7b9c1e3a0012345699"
                         [("new_password", VStr "tea")] Ref.ann_student
                         Ref.school))
           "tea" "$2b$tea" "5f2d4a7b9c1e3a0012345678" _
           eq_refl eq_refl eq_refl eq_refl eq_refl eq_refl).
Defined.

Section LoadUser.
Context {B : Bcrypt} {R : RolesById}.
Variables (salts : scope -> bytes) (salt : bytes) (d : db) (id : string).

Lemma search_all_none :
  forall todo,
    (forall sc, In sc todo -> Routes.get_by_id sc (salts sc) d id = Ok None) ->
    Routes.search salts d id todo = (todo, Ok None).
Proof.
  induction todo as [ | sc todo IH ]; intros H; [ reflexivity | ].
  simpl. rewrite (H sc) by now left.
  rewrite IH; [ reflexivity | ]. intros sc' Hin. apply H. now right.
Qed.

Lemma reload_student :
  forall x s',
    Routes.reload salt x = Ok (Some (Routes.AStudent s')) ->
    hashpw (encode_utf8 "") salt = Ok (User._password (Student.base s')).
Proof.
  intros [ s | sc u ] s' H; unfold Routes.reload in H.
  - destruct (Student.from_dict salt (Some (Student.to_dict s)))
      as [ [ s0 | ] | e ] eqn:E; cbn [bind option_map] in H;
      try discriminate H.
    inversion H; subst. eapply roundtrip_password; eauto.
  - destruct (role_reload sc salt u) as [ [ u0 | ] | e ];
      cbn [bind option_map] in H; discriminate H.
Qed.

End LoadUser.

(** X13.  [load_user] asks the roles in the order Teacher, Student, Admin,
    Parent and stops at the first that knows the identifier: when the
    teachers know it, no other collection is asked; when none knows it, all
    four have been asked and the result is [None]; when only the students
    know it, the result is the student built back from its own dictionary.
    So a student that [load_user] returns always carries the hash of the
    empty string as password. *)
Theorem X13_load_user :
  forall (B : Bcrypt) (R : RolesById) (salts : scope -> bytes) (salt : bytes)
         (d : db) (id : string),
    (forall u,
       role_get_by_id Teacher_ (salts Teacher_) d id = Ok (Some u) ->
       fst (Routes.load_user salts salt d id) = [Teacher_]) /\
    ((forall sc, In sc Routes.load_order ->
        Routes.get_by_id sc (salts sc) d id = Ok None) ->
     Routes.load_user salts salt d id
     = ([Teacher_; Student_; Admin_; Parent_], Ok None)) /\
    (forall s,
       role_get_by_id Teacher_ (salts Teacher_) d id = Ok None ->
       Student.get_by_id (salts Student_) d id = Ok (Some s) ->
       Routes.load_user salts salt d id
       = ([Teacher_; Student_],
          r <- Student.from_dict salt (Some (Student.to_dict s)) ;;
          Ok (option_map Routes.AStudent r))) /\
    (forall asked s',
       Routes.load_user salts salt d id
       = (asked, Ok (Some (Routes.AStudent s'))) ->
       hashpw (encode_utf8 "") salt = Ok (User._password (Student.base s'))).
Proof.
  intros B R salts salt d id. split; [ | split; [ | split ] ].
  - intros u H. unfold Routes.load_user, Routes.load_order. simpl.
    rewrite H. reflexivity.
  - intros H. unfold Routes.load_user. rewrite search_all_none by exact H.
    reflexivity.
  - intros s Ht Hs. unfold Routes.load_user, Routes.load_order. simpl.
    rewrite Ht, Hs. reflexivity.
  - intros asked s' H. unfold Routes.load_user in H.
    destruct (Routes.search salts d id Routes.load_order) as [a r].
    inversion H as [[Ha Hr]]. clear H.
    destruct r as [ [ x | ] | e ]; simpl in Hr; try discriminate Hr.
    eapply reload_student; eauto.
Qed.

Lemma X13_witness :
  Routes.load_user (H := Ref.bcrypt) (H0 := Sample.roles_by_id (H := Ref.bcrypt))
    Ref.no_salt "" Ref.school "5f2d4a7b9c1e3a0012345678"
  = ([Teacher_; Student_],
     Ok (Some (Routes.AStudent
                 (Student.mk
                    (User.mk (Some "5f2d4a7b9c1e3a0012345678") "$2b$"
                       "ann@school.io" (VStr "Ann") (VStr "Lee")
                       "A short bio." "14-03-1879" "" false)
                    (VList []) (VList []))))).
Proof.
  exact (proj1 (proj2 (proj2
    (X13_load_user Ref.bcrypt (Sample.roles_by_id (H := Ref.bcrypt))
       Ref.no_salt "" Ref.school "5f2d4a7b9c1e3a0012345678")))
    _ eq_refl eq_refl).
Defined.

(** ** The earlier class *)

(** X14.  [from_dict(u.to_json())] in the earlier class, for a user whose
    password has been set.  The result keeps the email and the names; its
    identifier is the new one that [new_id] draws, not the one under [ID];
    it is active whatever the user was.  The hash is kept when it has the
    shape of a [pbkdf2:sha256] hash and is otherwise hashed once more. *)
Theorem X14_earlier_round_trip :
  forall (W : Werkzeug) (id1 id2 : value) (rnd : string) (u : Legacy.t)
         (h : string),
    Legacy.password_hash u = Some h ->
    exists dictionary,
      Legacy.to_json u = Ok dictionary /\
      Legacy.from_dict id1 id2 rnd dictionary =
        Ok (Legacy.mk (Legacy.email u) (Legacy.first_name u)
              (Legacy.last_name u) id2 Legacy.EMPTY (VBool true)
              (Some (if re_match Legacy.hash_re h then h
                     else generate_password_hash h rnd))).
Proof.
  intros W id1 id2 rnd u h Hh. unfold Legacy.to_json. rewrite Hh.
  eexists. split; [ reflexivity | ].
  unfold Legacy.from_dict, subscript.
  cbn [dict_get String.eqb Ascii.eqb Bool.eqb bind Legacy.set_password].
  destruct (re_match Legacy.hash_re h); reflexivity.
Qed.

Lemma X14_witness :
  exists dictionary,
    Legacy.to_json Sample.earlier = Ok dictionary /\
    Legacy.from_dict (H := Ref.werkzeug) (VInt 8) (VInt 9) "" dictionary =
      Ok (Legacy.mk (VStr "dan@school.io") (VStr "Dan") (VStr "Moe") (VInt 9)
            Legacy.EMPTY (VBool true) (Some "pbkdf2:sha256:1$s$hpw")).
Proof.
  exact (X14_earlier_round_trip Ref.werkzeug (VInt 8) (VInt 9) ""
           Sample.earlier "pbkdf2:sha256:1$s$hpw" eq_refl).
Defined.

(** X15.  In the earlier class a dictionary without [email], [first_name]
    or [last_name] makes [from_dict] raise [KeyError]; and a user built from
    a dictionary without [password] has no hash, so that [to_json],
    [to_dict] and [verify_password] raise [AttributeError] on it. *)
Theorem X15_earlier_missing_keys :
  forall (W : Werkzeug) (id1 id2 : value) (rnd : string) (dictionary : dict),
    ((dict_get "email" dictionary = None \/
      dict_get "first_name" dictionary = None \/
      dict_get "last_name" dictionary = None) ->
     Legacy.from_dict id1 id2 rnd dictionary = Raise KeyError) /\
    (forall u,
       dict_get "password" dictionary = None ->
       Legacy.from_dict id1 id2 rnd dictionary = Ok u ->
       Legacy.to_json u = Raise AttributeError /\
       Legacy.to_dict u = Raise AttributeError /\
       forall p, Legacy.verify_password u p = Raise AttributeError).
Proof.
  intros W id1 id2 rnd dictionary. split.
  - intros H. unfold Legacy.from_dict, subscript.
    destruct (dict_get "email" dictionary); cbn [bind];
      [ | reflexivity ].
    destruct (dict_get "first_name" dictionary); cbn [bind];
      [ | reflexivity ].
    destruct (dict_get "last_name" dictionary); cbn [bind];
      [ | reflexivity ].
    destruct H as [ H | [ H | H ] ]; discriminate H.
  - intros u Hp H. unfold Legacy.from_dict in H. rewrite Hp in H.
    repeat bind_ok H. cbn [bind] in H. inversion H; subst.
    unfold Legacy.to_dict, Legacy.to_json, Legacy.verify_password.
    cbn. auto.
Qed.

Lemma X15_witness :
  Legacy.to_json
    (Legacy.mk (VStr "dan@school.io") (VStr "Dan") (VStr "Moe") (VInt 9)
       Legacy.EMPTY (VBool true) None)
  = Raise AttributeError.
Proof.
  exact (proj1 (proj2 (X15_earlier_missing_keys Ref.werkzeug (VInt 8) (VInt 9)
                         ""
                         [("email", VStr "dan@school.io");
                          ("first_name", VStr "Dan");
                          ("last_name", VStr "Moe")])
                 _ eq_refl eq_refl)).
Defined.

(** ** Errors on the way *)

(** X16.  [add_submission] checks nothing beforehand.  With a course or
    assignment identifier that [ObjectId] refuses it raises before any
    update, and the store is unchanged.  For a student that has no
    identifier yet it raises [AttributeError] after the first update: the
    course already carries the submission, the student does not. *)
Theorem X16_add_submission_errors :
  forall (S : SubmissionClass) (new_id spare_id course_id : string)
         (s : Student.t) (sub : submission) (d : db),
    let sub' := submission_set_id sub new_id in
    (forall e,
       Bson.ObjectId course_id = Raise e ->
       Student.add_submission new_id spare_id s course_id sub d = (d, Raise e)) /\
    (forall c e,
       Bson.ObjectId course_id = Ok c ->
       Bson.ObjectId_of spare_id (submission_assignment_id sub') = Raise e ->
       Student.add_submission new_id spare_id s course_id sub d = (d, Raise e)) /\
    (forall courses' aid sid,
       (c <- Bson.ObjectId course_id ;;
        a <- Bson.ObjectId_of spare_id (submission_assignment_id sub') ;;
        update (Mongo.courses d)
               (fun doc => by_id c doc && has_assignment a doc)
               (push_submission a (VDict (submission_to_dict sub'))))
       = Ok courses' ->
       submission_assignment_id sub' = VStr aid ->
       submission_id sub' = VStr sid ->
       User._id (Student.base s) = None ->
       Student.add_submission new_id spare_id s course_id sub d
       = (with_courses d courses', Raise AttributeError)).
Proof.
  intros S new_id spare_id course_id s sub d sub'. split; [ | split ].
  - intros e H. unfold Student.add_submission. rewrite H. reflexivity.
  - intros c e Hc H. unfold Student.add_submission. fold sub'.
    rewrite Hc. cbn [bind]. rewrite H. reflexivity.
  - intros courses' aid sid H1 Ha Hs Hi. unfold Student.add_submission.
    fold sub'. rewrite H1, Ha, Hs. unfold User.id. rewrite Hi. reflexivity.
Qed.

Lemma X16_witness :
  Student.add_submission (H := Ref.submissions) "5f2d4a7b9c1e3a00123456cc"
    "5f2d4a7b9c1e3a00123456dd" Sample.bea "5f2d4a7b9c1e3a00123456aa" Ref.essay Ref.school
  = (with_courses Ref.school
       (Avail [[("_id", VOid "5f2d4a7b9c1e3a00123456aa");
                ("name", VStr "History");
                ("assignments",
                 VList [VDict [("_id", VOid "5f2d4a7b9c1e3a00123456bb");
                               ("title", VStr "Essay");
                               ("submissions",
                                VList [VDict [("_id", VStr "5f2d4a7b9c1e3a00123456cc");
                                              ("assignment_id", VStr "5f2d4a7b9c1e3a00123456bb");
                                              ("filename", VStr "essay.pdf")]])]])]]),
     Raise AttributeError).
Proof.
  exact (proj2 (proj2
    (X16_add_submission_errors Ref.submissions "5f2d4a7b9c1e3a00123456cc"
       "5f2d4a7b9c1e3a00123456dd"
       "5f2d4a7b9c1e3a00123456aa" Sample.bea Ref.essay Ref.school))
    _ "5f2d4a7b9c1e3a00123456bb" "5f2d4a7b9c1e3a00123456cc"
    eq_refl eq_refl eq_refl eq_refl).
Defined.

Lemma not_among :
  forall k l, ~ In k l -> existsb (String.eqb k) l = false.
Proof.
  intros k l H. induction l as [ | x l IH ]; simpl; auto.
  destruct (String.eqb_spec k x) as [ -> | ]; simpl.
  - exfalso. apply H. now left.
  - apply IH. intros Hin. apply H. now right.
Qed.

Section Rejected.
Context {B : Bcrypt}.

Lemma from_dict_of_raise :
  forall salt d e,
    Student.call salt d = Raise e -> is_Exception e = true ->
    Student.from_dict salt (Some d) = Ok None.
Proof.
  intros salt d e H He. unfold Student.from_dict. rewrite H. simpl.
  now rewrite He.
Qed.

Lemma call_unexpected_key :
  forall salt d k v,
    In (k, v) d -> ~ In k Student.parameters ->
    Student.call salt d = Raise TypeError.
Proof.
  intros salt d k v Hin Hk. unfold Student.call.
  assert (H : forallb (fun kv => existsb (String.eqb (fst kv))
                                   Student.parameters) d = false).
  { destruct (forallb _ d) eqn:E; auto.
    rewrite forallb_forall in E. specialize (E (k, v) Hin). cbn [fst] in E.
    rewrite (not_among _ _ Hk) in E. discriminate E. }
  rewrite H. reflexivity.
Qed.

Lemma call_missing_key :
  forall salt d k,
    In k Student.required -> dict_get k d = None ->
    Student.call salt d = Raise TypeError.
Proof.
  intros salt d k Hin Hk. unfold Student.call.
  destruct (negb (forallb _ d)); [ reflexivity | ].
  assert (H : forallb (Student.has_key d) Student.required = false).
  { destruct (forallb _ Student.required) eqn:E; auto.
    rewrite forallb_forall in E. specialize (E k Hin).
    unfold Student.has_key in E. rewrite Hk in E. discriminate E. }
  rewrite H. reflexivity.
Qed.

Lemma call_bad_email :
  forall salt d e,
    dict_get "email" d = Some (VStr e) -> User.email_matches e = false ->
    exists x, Student.call salt d = Raise x /\ is_Exception x = true.
Proof.
  intros salt d e Hd He. unfold Student.call.
  destruct (negb (forallb _ d)); [ eexists; split; reflexivity | ].
  destruct (negb (forallb _ Student.required));
    [ eexists; split; reflexivity | ].
  unfold Student.init, User.init, Student.arg. rewrite Hd.
  unfold User.check_email. rewrite He. eexists. split; reflexivity.
Qed.

End Rejected.

(** X17.  Which documents never become a student.  [Student.from_dict]
    returns [None] for a document that lacks [email], [first_name] or
    [last_name], that has a field the constructor does not know, or whose
    email is not well formed; and it raises nothing that is an ordinary
    exception.  A lookup by email that selects such a document therefore
    returns [None], although the document is there. *)
Theorem X17_documents_that_are_rejected :
  forall (B : Bcrypt) (salt : bytes) (doc : dict),
    ((exists k, In k Student.required /\ dict_get k doc = None) \/
     (exists k v, In (k, v) doc /\ ~ In k Student.parameters) \/
     (exists e, dict_get "email" doc = Some (VStr e) /\
                User.email_matches e = false)) ->
    Student.from_dict salt (Some doc) = Ok None /\
    (forall d docs x,
       students d = Avail docs -> find (by_email x) docs = Some doc ->
       Student.get_by_email salt d x = Ok None) /\
    (forall r e, Student.from_dict salt r = Raise e -> is_Exception e = false).
Proof.
  intros B salt doc H.
  assert (Hnone : Student.from_dict salt (Some doc) = Ok None).
  { destruct H as [ [k [Hk Hd]] | [ [k [v [Hin Hk]]] | [e [Hd He]] ] ].
    - eapply from_dict_of_raise;
        [ eapply call_missing_key; eauto | reflexivity ].
    - eapply from_dict_of_raise;
        [ eapply call_unexpected_key; eauto | reflexivity ].
    - destruct (call_bad_email salt doc e Hd He) as [x [Hx Hex]].
      eapply from_dict_of_raise; eauto. }
  split; [ exact Hnone | split ].
  - intros d docs x Hd Hf. unfold Student.get_by_email, find_one.
    rewrite Hd. cbn [bind]. rewrite Hf, Hnone. reflexivity.
  - intros [ d | ] e Hr; simpl in Hr; [ | discriminate Hr ].
    destruct (Student.call salt d) as [ s0 | e0 ]; simpl in Hr;
      [ discriminate Hr | ].
    destruct (is_Exception e0) eqn:E; [ discriminate Hr | ].
    now inversion Hr; subst.
Qed.

Lemma X17_witness :
  Student.get_by_email (H := Ref.bcrypt) ""
    (with_students Ref.school (Avail [Sample.eve_doc])) "eve@school.io"
  = Ok None.
Proof.
  refine (proj1 (proj2
    (X17_documents_that_are_rejected Ref.bcrypt "" Sample.eve_doc _))
    (with_students Ref.school (Avail [Sample.eve_doc])) [Sample.eve_doc]
    "eve@school.io" eq_refl eq_refl).
  right. left. exists "bio", (VStr "Hello"). split.
  - simpl. tauto.
  - simpl. intros H.
    repeat (destruct H as [ H | H ]; [ discriminate H | ]). exact H.
Defined.

(** X3 at work on the store [Ref.school], where the student is found. *)
Lemma X3_witness :
  Student.get_by_email (H := Ref.bcrypt) "" Ref.school "ann@school.io"
  = Ok (Some
          (Student.mk
             (User.mk (Some "5f2d4a7b9c1e3a0012345678") "$2b$" "ann@school.io"
                (VStr "Ann") (VStr "Lee") "A short bio." "14-03-1879" "" false)
             (VList []) (VList []))) /\
  User._activated
    (User.mk (Some "5f2d4a7b9c1e3a0012345678") "$2b$" "ann@school.io"
       (VStr "Ann") (VStr "Lee") "A short bio." "14-03-1879" "" false)
  = false.
Proof.
  split; [ reflexivity | ].
  exact (proj2 (proj1 (proj2 (X3_hydrated_student Ref.bcrypt ""))
                  Ref.school "ann@school.io" _ eq_refl)).
Defined.

(** ** What [login] answers *)

Section LoginReplies.
Context {B : Bcrypt} {R : Roles}.
Variables (salts : scope -> bytes) (d : db).
Variables (email : string) (password remember_me : value).

Lemma probe_status :
  forall todo b n,
    snd (Auth.probe salts d email password remember_me todo) = Ok (b, n) ->
    n = 200 \/ n = 400.
Proof.
  induction todo as [ | sc todo IH ]; intros b n H; simpl in H.
  - inversion H. auto.
  - destruct (Auth.get_by_email sc (salts sc) d email) as [ [ u | ] | e ].
    + destruct (User.validate_password u password) as [ [ | ] | e ];
        simpl in H.
      * destruct (Auth.current_user_info sc u); simpl in H;
          inversion H; auto.
      * inversion H. auto.
      * discriminate H.
    + destruct (Auth.probe salts d email password remember_me todo) eqn:E.
      simpl in H, IH. eauto.
    + discriminate H.
Qed.

Lemma probe_not_a_str :
  forall before sc after u,
    is_str password = false ->
    (forall sc', In sc' before ->
       Auth.get_by_email sc' (salts sc') d email = Ok None) ->
    Auth.get_by_email sc (salts sc) d email = Ok (Some u) ->
    Auth.probe salts d email password remember_me (before ++ sc :: after)
    = (map (fun sc => Auth.Probe sc email) (before ++ [sc]), Raise AttributeError).
Proof.
  intros before sc after u Hp Hbefore Hsc.
  rewrite (probe_skips_none salts d email password remember_me before
             (sc :: after) Hbefore).
  simpl. rewrite Hsc.
  assert (Hv : User.validate_password u password = Raise AttributeError).
  { destruct password; simpl in Hp; try discriminate Hp; reflexivity. }
  rewrite Hv. simpl. rewrite map_app. reflexivity.
Qed.

End LoginReplies.

(** X18.  For a client that is not yet authenticated, every reply of
    [login] has status 200 or 400, and neither [KeyError] nor [TypeError]
    leaves the function. *)
Theorem X18_login_replies :
  forall (B : Bcrypt) (R : Roles) (salts : scope -> bytes) (method : string)
         (req : value) (d : db),
    (forall b n,
       snd (Auth.login salts None method req d) = Ok (b, n) ->
       n = 200 \/ n = 400) /\
    (forall e,
       snd (Auth.login salts None method req d) = Raise e ->
       e <> KeyError /\ e <> TypeError).
Proof.
  intros B R salts method req d. unfold Auth.login.
  destruct (String.eqb method "GET").
  { split; [ intros b n H; inversion H; auto | intros e H; discriminate H ]. }
  destruct (e <- Auth.getitem req "email" ;; _) as [ [[em pw] rm] | e0 ].
  - destruct (Auth.probe salts d em pw rm Auth.scopes) as [ev r] eqn:E.
    cbn [snd]. split.
    + intros b n H. destruct r as [ [b0 n0] | e ]; simpl in H.
      * inversion H; subst.
        apply (probe_status salts d em pw rm Auth.scopes b n).
        rewrite E. reflexivity.
      * destruct (Auth.handles_missing e); inversion H; auto.
    + intros e H. destruct r as [ a | e1 ]; simpl in H; [ discriminate H | ].
      destruct (Auth.handles_missing e1) eqn:Hh; [ discriminate H | ].
      inversion H; subst. split; intros ->; discriminate Hh.
  - cbn [snd]. split.
    + intros b n H. simpl in H.
      destruct (Auth.handles_missing e0); inversion H; auto.
    + intros e H. simpl in H.
      destruct (Auth.handles_missing e0) eqn:Hh; [ discriminate H | ].
      inversion H; subst. split; intros ->; discriminate Hh.
Qed.

(** X19.  Requests that are not well formed, from a client that is not
    yet authenticated and not by GET.  A body that is not an object is
    answered with "Not all fields satisfied" and no lookup.  An email that
    is present but not a [str] makes [login] raise [AttributeError] before
    any lookup.  A password that is not a [str] makes it raise
    [AttributeError] once a role has returned a user for the email. *)
Theorem X19_login_malformed_requests :
  forall (B : Bcrypt) (R : Roles) (salts : scope -> bytes) (method : string)
         (req : value) (d : db),
    String.eqb method "GET" = false ->
    ((forall body, req <> VDict body) ->
     Auth.login salts None method req d
     = ([], Ok (Auth.error "Not all fields satisfied", 400))) /\
    (forall v,
       Auth.getitem req "email" = Ok v -> is_str v = false ->
       Auth.login salts None method req d = ([], Raise AttributeError)) /\
    (forall e pw rm before sc after u,
       Auth.getitem req "email" = Ok (VStr e) ->
       Auth.getitem req "password" = Ok pw ->
       Auth.getitem req "remember_me" = Ok rm ->
       is_str pw = false ->
       Auth.scopes = before ++ sc :: after ->
       (forall sc', In sc' before ->
          Auth.get_by_email sc' (salts sc') d (lower e) = Ok None) ->
       Auth.get_by_email sc (salts sc) d (lower e) = Ok (Some u) ->
       Auth.login salts None method req d
       = (map (fun sc => Auth.Probe sc (lower e)) (before ++ [sc]),
          Raise AttributeError)).
Proof.
  intros B R salts method req d Hm. split; [ | split ].
  - intros Hreq. unfold Auth.login. rewrite Hm.
    destruct req; try reflexivity. exfalso. eapply Hreq. reflexivity.
  - intros v Hv Hs. unfold Auth.login. rewrite Hm, Hv.
    destruct v; simpl in Hs; try discriminate Hs; reflexivity.
  - intros e pw rm before sc after u He Hp Hr Hs Hsplit Hbefore Hsc.
    rewrite (login_post B R salts method req d e pw rm Hm He Hp Hr).
    rewrite Hsplit.
    rewrite (probe_not_a_str salts d (lower e) pw rm before sc after u
               Hs Hbefore Hsc).
    reflexivity.
Qed.

Lemma X19_witness :
  Auth.login (H := Ref.bcrypt) (H0 := Ref.roles (H := Ref.bcrypt))
    Ref.no_salt None "POST"
    (VDict [("email", VStr "ann@school.io"); ("password", VInt 1234);
            ("remember_me", VBool false)])
    Ref.school
  = ([Auth.Probe Student_ "ann@school.io"], Raise AttributeError).
Proof.
  refine (proj2 (proj2
    (X19_login_malformed_requests Ref.bcrypt (Ref.roles (H := Ref.bcrypt))
       Ref.no_salt "POST"
       (VDict [("email", VStr "ann@school.io"); ("password", VInt 1234);
               ("remember_me", VBool false)])
       Ref.school eq_refl))
    "ann@school.io" (VInt 1234) (VBool false) [] Student_
    [Teacher_; Admin_; Parent_] _ eq_refl eq_refl eq_refl eq_refl eq_refl
    _ eq_refl).
  intros sc' [].
Defined.
